(** * Hikka inline units: markup compiler, edit protocol and unit lifecycle

    A shallow embedding of [hikka/inline/utils.py] (class [Utils]) and the
    properties of its markup compiler ([_generate_markup]), its edit
    protocol ([_edit_unit]) and its lifecycle operations ([_unload_unit],
    [_delete_unit_message]).

    Python objects are represented by the value type [pyval]; the two
    process-wide registries [self._units] and [self._custom_map] live in
    an explicit [world] that every operation threads through, together
    with the trace of calls made to the collaborators (bot transport,
    client, query, teardown hooks, [asyncio.sleep]). *)

From Stdlib Require Import ZArith String Ascii.
From stdpp Require Import base ssreflect option countable gmap strings pretty list.

Set Warnings "-register-all,-rewrite-rw".

Local Open Scope string_scope.
Local Open Scope list_scope.

(** ** Python values *)

(** The values the code discriminates on: it tests truthiness, [is None],
    [isinstance(_, str | bool | list | dict)], [callable] and iterates over
    rows.  A function object is named, its behaviour is given by the
    environment. *)
Inductive pyval : Type :=
| VNone
| VBool (b : bool)
| VInt (z : Z)
| VStr (s : string)
| VBytes (s : string)
| VList (l : list pyval)
| VDict (d : list (string * pyval))
| VFunc (f : string).

(** A Python [dict] with string keys, in insertion order. *)
Definition dict : Type := list (string * pyval).

(** The exceptions that occur in the module.  [CancelledError] stands for
    the exceptions that derive from [BaseException] only: an
    [except Exception] clause does not catch it. *)
Inductive exn : Type :=
| KeyError
| TypeError
| AttributeError
| UnboundLocalError
| MessageNotModified
| RetryAfter (timeout : Z)
| MessageIdInvalid
| InvalidQueryID
| RPCError
| CancelledError.

Definition is_Exception (e : exn) : bool :=
  match e with CancelledError => false | _ => true end.

(** The result of evaluating an expression or a call: a value, or a raised
    exception. *)
Inductive outcome (A : Type) : Type :=
| Ret (a : A)
| Raise (e : exn).
Arguments Ret {A} a.
Arguments Raise {A} e.

Definition obind {A B : Type} (m : outcome A) (k : A -> outcome B) : outcome B :=
  match m with
  | Ret a => k a
  | Raise e => Raise e
  end.

Notation "x <~ m ;; k" := (obind m (fun x => k))
  (at level 100, m at next level, right associativity,
   format "'[v' x  <~  m  ;;  '/' k ']'").

(** [bool(v)]. *)
Definition truthy (v : pyval) : bool :=
  match v with
  | VNone => false
  | VBool b => b
  | VInt z => negb (z =? 0)%Z
  | VStr s => negb (String.eqb s "")
  | VBytes s => negb (String.eqb s "")
  | VList l => match l with [] => false | _ => true end
  | VDict d => match d with [] => false | _ => true end
  | VFunc _ => true
  end.

Definition is_none (v : pyval) : bool := match v with VNone => true | _ => false end.
Definition is_str (v : pyval) : bool := match v with VStr _ => true | _ => false end.
Definition is_bool (v : pyval) : bool := match v with VBool _ => true | _ => false end.
Definition is_list (v : pyval) : bool := match v with VList _ => true | _ => false end.
Definition is_dict (v : pyval) : bool := match v with VDict _ => true | _ => false end.
Definition callable (v : pyval) : bool := match v with VFunc _ => true | _ => false end.

(** [a or b] on values. *)
Definition py_or (a b : pyval) : pyval := if truthy a then a else b.

(** [for x in v]: the elements [v] yields, [TypeError] when [v] is not
    iterable. *)
Definition py_iter (v : pyval) : outcome (list pyval) :=
  match v with
  | VList l => Ret l
  | VDict d => Ret (map (fun kv => VStr (fst kv)) d)
  | VStr s => Ret (map (fun c => VStr (String c EmptyString)) (String.list_ascii_of_string s))
  | VBytes s => Ret (map (fun c => VInt (Z.of_nat (Ascii.nat_of_ascii c))) (String.list_ascii_of_string s))
  | VNone | VBool _ | VInt _ | VFunc _ => Raise TypeError
  end.

(** [v + " "]: concatenation is defined on two strings only. *)
Definition py_add_str (v : pyval) (suffix : string) : outcome pyval :=
  match v with
  | VStr s => Ret (VStr (s ++ suffix))
  | _ => Raise TypeError
  end.

(** *** Dictionaries *)

Fixpoint dict_get (k : string) (d : dict) : option pyval :=
  match d with
  | [] => None
  | (k', v) :: d' => if String.eqb k k' then Some v else dict_get k d'
  end.

(** [k in d]. *)
Definition dict_in (k : string) (d : dict) : bool :=
  match dict_get k d with Some _ => true | None => false end.

(** [d[k] = v]. *)
Fixpoint dict_set (k : string) (v : pyval) (d : dict) : dict :=
  match d with
  | [] => [(k, v)]
  | (k', v') :: d' =>
      if String.eqb k k' then (k, v) :: d' else (k', v') :: dict_set k v d'
  end.

(** [d[k]]. *)
Definition subscript (d : dict) (k : string) : outcome pyval :=
  match dict_get k d with
  | Some v => Ret v
  | None => Raise KeyError
  end.

(** [d.get(k, default)]. *)
Definition get_default (d : dict) (k : string) (default : pyval) : pyval :=
  match dict_get k d with
  | Some v => v
  | None => default
  end.

(** *** Hashable keys of [self._custom_map] *)

(** The keys of a [dict] up to Python's equality of keys: [True] and [1],
    [False] and [0] are equal and hash alike, so they are one key. *)
Inductive pykey : Type :=
| KNone
| KInt (z : Z)
| KStr (s : string)
| KBytes (s : string)
| KFunc (f : string).

#[global] Instance pykey_eq_dec : EqDecision pykey.
Proof. solve_decision. Defined.

Definition pykey_encode (k : pykey) : unit + Z + string + string + string :=
  match k with
  | KNone => inl (inl (inl (inl tt)))
  | KInt z => inl (inl (inl (inr z)))
  | KStr s => inl (inl (inr s))
  | KBytes s => inl (inr s)
  | KFunc f => inr f
  end.

Definition pykey_decode (x : unit + Z + string + string + string) : pykey :=
  match x with
  | inl (inl (inl (inl _))) => KNone
  | inl (inl (inl (inr z))) => KInt z
  | inl (inl (inr s)) => KStr s
  | inl (inr s) => KBytes s
  | inr f => KFunc f
  end.

#[global] Instance pykey_countable : Countable pykey.
Proof.
  refine (inj_countable' pykey_encode pykey_decode _).
  intros []; reflexivity.
Defined.

(** The key [v] is stored under; lists and dicts are unhashable. *)
Definition to_key (v : pyval) : outcome pykey :=
  match v with
  | VNone => Ret KNone
  | VBool b => Ret (KInt (if b then 1%Z else 0%Z))
  | VInt z => Ret (KInt z)
  | VStr s => Ret (KStr s)
  | VBytes s => Ret (KBytes s)
  | VFunc f => Ret (KFunc f)
  | VList _ | VDict _ => Raise TypeError
  end.

(** ** The compiled keyboard *)

(** [aiogram.types.InlineKeyboardButton(text, <kind>=...)]: the three
    keyword forms the compiler uses. *)
Inductive InlineKeyboardButton : Type :=
| Button_url (text url : pyval)
| Button_callback_data (text callback_data : pyval)
| Button_switch_inline_query_current_chat (text query : pyval).

(** What [_generate_markup] returns: [None], [False], or an
    [InlineKeyboardMarkup] whose rows were added with [markup.row]. *)
Inductive markup_result : Type :=
| MarkupNone
| MarkupFalse
| InlineKeyboardMarkup (inline_keyboard : list (list InlineKeyboardButton)).

(** ** Collaborators and the world *)

Inductive InputMedia : Type :=
| InputMediaDocument (media caption : pyval)
| InputMediaPhoto (media caption : pyval)
| InputMediaAudio (media caption : pyval)
| InputMediaVideo (media caption : pyval)
| InputMediaAnimation (media caption : pyval).

(** Calls made to the collaborators, in the order they are issued. *)
Inductive event : Type :=
| edit_message_text (text inline_message_id disable_web_page_preview : pyval)
    (reply_markup : markup_result)
| edit_message_media (inline_message_id : pyval) (media : InputMedia)
    (reply_markup : markup_result)
| delete_messages (chat message_id : pyval)
| query_answer (text : option string)
| asyncio_sleep (seconds : Z)
| hook_call (f : string).

(** An [aiogram.types.CallbackQuery], as far as the module reads it. *)
Record CallbackQuery : Type := {
  q_inline_message_id : pyval
}.

(** The state of the [Utils] instance and of its surroundings:
    [self._units], [self._custom_map], the number of tokens drawn from
    [utils.rand] so far, and the calls issued to the collaborators. *)
Record world : Type := World {
  _units : gmap string dict;
  _custom_map : gmap pykey dict;
  rand_calls : nat;
  trace : list event
}.

Definition set_units (u : gmap string dict) (w : world) : world :=
  World u (_custom_map w) (rand_calls w) (trace w).
Definition set_custom_map (cm : gmap pykey dict) (w : world) : world :=
  World (_units w) cm (rand_calls w) (trace w).
Definition set_rand_calls (n : nat) (w : world) : world :=
  World (_units w) (_custom_map w) n (trace w).
Definition emit (ev : event) (w : world) : world :=
  World (_units w) (_custom_map w) (rand_calls w) (trace w ++ [ev]).
Definition with_trace (t : list event) (w : world) : world :=
  World (_units w) (_custom_map w) (rand_calls w) t.

(** ** MarkupCompiler: [_normalize_markup] and [_generate_markup] *)

Definition _normalize_markup (reply_markup : pyval) : pyval :=
  match reply_markup with
  | VDict _ => VList [VList [reply_markup]]
  | VList l => if existsb is_dict l then VList [reply_markup] else reply_markup
  | _ => reply_markup
  end.

(** [_generate_markup] writes the minted tokens into the button dicts in
    place, and [_normalize_markup] wraps its argument without copying the
    buttons: the writes are visible through the object that was
    normalized.  [denormalize original normalized] is that object after
    the writes, [normalized] being the normalized matrix after them. *)
Definition denormalize (original normalized : pyval) : pyval :=
  match original with
  | VDict _ =>
      match normalized with VList [VList [button]] => button | _ => original end
  | VList l =>
      if existsb is_dict l
      then match normalized with VList [row] => row | _ => original end
      else normalized
  | _ => original
  end.

(** How the first pass over the matrix ended: it ran to its end, it hit a
    button that is not a [dict] ([return None]), or a row that cannot be
    iterated ([TypeError]). *)
Inductive pass_status : Type := Completed | NotADict | NotIterable.

(** How the second pass ended: with a value, with [return False] after a
    [KeyError], or with another exception; the registry as it stands then. *)
Inductive compiled (A : Type) : Type :=
| Built (a : A) (cm : gmap pykey dict)
| GaveUp (cm : gmap pykey dict)
| Failed (e : exn) (cm : gmap pykey dict).
Arguments Built {A} a cm.
Arguments GaveUp {A} cm.
Arguments Failed {A} e cm.

Section Utils.

(** [utils.rand(size)], as a function of the number of tokens drawn
    before: the outer module [hikka/utils.py] is a collaborator. *)
Variable rand : nat -> nat -> string.

(** [utils.check_url]. *)
Variable check_url : pyval -> bool.

(** Lines 65-70: the tokens a button receives in the first pass.  [n]
    counts the tokens drawn. *)
Definition mint_button (button : dict) (n : nat) (setup_callbacks : bool)
  : dict * nat * bool :=
  let '(button, n, setup_callbacks) :=
    if dict_in "callback" button && negb (dict_in "_callback_data" button)
    then (dict_set "_callback_data" (VStr (rand 30 n)) button, S n, true)
    else (button, n, setup_callbacks) in
  if dict_in "input" button && negb (dict_in "_switch_query" button)
  then (dict_set "_switch_query" (VStr (rand 10 n)) button, S n, setup_callbacks)
  else (button, n, setup_callbacks).

(** Lines 60-70, the inner loop of the first pass: the row after the
    in-place writes, and [false] when a button is not a [dict]. *)
Fixpoint mint_row (row : list pyval) (n : nat) (setup_callbacks : bool)
  : list pyval * nat * bool * bool :=
  match row with
  | [] => ([], n, setup_callbacks, true)
  | VDict button :: rest =>
      let '(button', n', setup') := mint_button button n setup_callbacks in
      let '(rest', n'', setup'', ok) := mint_row rest n' setup' in
      (VDict button' :: rest', n'', setup'', ok)
  | _ :: _ => (row, n, setup_callbacks, false)
  end.

(** Lines 59-70, the first pass. *)
Fixpoint mint_rows (rows : list pyval) (n : nat) (setup_callbacks : bool)
  : list pyval * nat * bool * pass_status :=
  match rows with
  | [] => ([], n, setup_callbacks, Completed)
  | row :: rest =>
      match py_iter row with
      | Raise _ => (rows, n, setup_callbacks, NotIterable)
      | Ret buttons =>
          let '(buttons', n', setup', ok) := mint_row buttons n setup_callbacks in
          let row' := match row with VList _ => VList buttons' | _ => row end in
          if ok
          then
            let '(rest', n'', setup'', status) := mint_rows rest n' setup' in
            (row' :: rest', n'', setup'', status)
          else (row' :: rest, n', setup', NotADict)
      end
  end.

(** One optional entry of a registration: [{k: v} if button.get(k, False)
    else {}]. *)
Definition optional_entry (button : dict) (k : string) (v : outcome pyval)
  : outcome dict :=
  if truthy (get_default button k (VBool false))
  then (x <~ v ;; Ret [(k, x)])
  else Ret [].

(** Lines 98-125: the dict stored in [self._custom_map]. *)
Definition registration (button : dict) : outcome dict :=
  handler <~ subscript button "callback" ;;
  always_allow <~ optional_entry button "always_allow" (subscript button "always_allow") ;;
  args <~ optional_entry button "args" (subscript button "args") ;;
  kwargs <~ optional_entry button "kwargs" (subscript button "kwargs") ;;
  force_me <~ optional_entry button "force_me" (Ret (VBool true)) ;;
  disable_security <~ optional_entry button "disable_security" (Ret (VBool true)) ;;
  Ret ([("handler", handler)] ++ always_allow ++ args ++ kwargs ++ force_me
         ++ disable_security)%list.

(** [self._custom_map[key] = value]. *)
Definition setitem (cm : gmap pykey dict) (key : pyval) (value : dict)
  : outcome (gmap pykey dict) :=
  k <~ to_key key ;; Ret (<[k := value]> cm).

(** Lines 76-163, the body of the [try]: the control added to the line, if
    any, and the registry. *)
Definition translate_button (setup_callbacks : bool) (button : dict)
    (cm : gmap pykey dict)
  : outcome (option InlineKeyboardButton * gmap pykey dict) :=
  if dict_in "url" button then
    url <~ subscript button "url" ;;
    if negb (check_url url) then Ret (None, cm)
    else
      text <~ subscript button "text" ;;
      url <~ subscript button "url" ;;
      Ret (Some (Button_url text url), cm)
  else if dict_in "callback" button then
    text <~ subscript button "text" ;;
    data <~ subscript button "_callback_data" ;;
    if setup_callbacks then
      reg <~ registration button ;;
      key <~ subscript button "_callback_data" ;;
      cm' <~ setitem cm key reg ;;
      Ret (Some (Button_callback_data text data), cm')
    else Ret (Some (Button_callback_data text data), cm)
  else if dict_in "input" button then
    text <~ subscript button "text" ;;
    switch_query <~ subscript button "_switch_query" ;;
    query <~ py_add_str switch_query " " ;;
    Ret (Some (Button_switch_inline_query_current_chat text query), cm)
  else if dict_in "data" button then
    text <~ subscript button "text" ;;
    data <~ subscript button "data" ;;
    Ret (Some (Button_callback_data text data), cm)
  else if dict_in "switch_inline_query_current_chat" button then
    text <~ subscript button "text" ;;
    query <~ subscript button "switch_inline_query_current_chat" ;;
    Ret (Some (Button_switch_inline_query_current_chat text query), cm)
  else if dict_in "switch_inline_query" button then
    text <~ subscript button "text" ;;
    query <~ subscript button "switch_inline_query" ;;
    Ret (Some (Button_switch_inline_query_current_chat text query), cm)
  else Ret (None, cm).

(** Lines 74-170, the inner loop of the second pass.  The first pass has
    returned on every button that is not a [dict], so the last case is
    not reached from [_generate_markup]. *)
Fixpoint translate_row (setup_callbacks : bool) (row : list pyval)
    (line : list InlineKeyboardButton) (cm : gmap pykey dict)
  : compiled (list InlineKeyboardButton) :=
  match row with
  | [] => Built line cm
  | VDict button :: rest =>
      match translate_button setup_callbacks button cm with
      | Ret (Some control, cm') =>
          translate_row setup_callbacks rest (line ++ [control]) cm'
      | Ret (None, cm') => translate_row setup_callbacks rest line cm'
      | Raise KeyError => GaveUp cm
      | Raise e => Failed e cm
      end
  | _ :: _ => Failed TypeError cm
  end.

(** Lines 72-172, the second pass; [markup.row( *line)] appends the line
    as a row. *)
Fixpoint translate_rows (setup_callbacks : bool) (rows : list pyval)
    (markup : list (list InlineKeyboardButton)) (cm : gmap pykey dict)
  : compiled (list (list InlineKeyboardButton)) :=
  match rows with
  | [] => Built markup cm
  | row :: rest =>
      match py_iter row with
      | Raise e => Failed e cm
      | Ret buttons =>
          match translate_row setup_callbacks buttons [] cm with
          | Built line cm' =>
              translate_rows setup_callbacks rest (markup ++ [line]) cm'
          | GaveUp cm' => GaveUp cm'
          | Failed e cm' => Failed e cm'
          end
      end
  end.

(** Lines 49-53: the matrix a [str] argument names in [self._units]. *)
Definition lookup_buttons (markup_obj : pyval) (w : world) : outcome pyval :=
  match markup_obj with
  | VStr name =>
      match _units w !! name with
      | Some unit => subscript unit "buttons"
      | None => Raise KeyError
      end
  | _ => Ret markup_obj
  end.

(** The in-place writes of the first pass, seen from outside: into the
    unit's stored buttons when the argument names a unit, into the
    argument itself otherwise. *)
Definition write_back (markup_obj original' : pyval) (w : world) : pyval * world :=
  match markup_obj with
  | VStr name =>
      match _units w !! name with
      | Some unit =>
          (markup_obj, set_units (<[name := dict_set "buttons" original' unit]> (_units w)) w)
      | None => (markup_obj, w)
      end
  | _ => (original', w)
  end.

(** Lines 55-174, the two passes over the matrix [original] names: the
    value returned or the exception raised, [original] after the in-place
    writes, the number of tokens drawn and the registry. *)
Definition compile_matrix (original : pyval) (n : nat) (cm : gmap pykey dict)
  : outcome markup_result * pyval * nat * gmap pykey dict :=
  let map_ := _normalize_markup original in
  match py_iter map_ with
  | Raise e => (Raise e, original, n, cm)
  | Ret rows =>
      let '(rows', n', setup_callbacks, status) := mint_rows rows n false in
      let map_' := match map_ with VList _ => VList rows' | _ => map_ end in
      let original' := denormalize original map_' in
      match status with
      | NotADict => (Ret MarkupNone, original', n', cm)
      | NotIterable => (Raise TypeError, original', n', cm)
      | Completed =>
          match translate_rows setup_callbacks rows' [] cm with
          | Built markup cm' => (Ret (InlineKeyboardMarkup markup), original', n', cm')
          | GaveUp cm' => (Ret MarkupFalse, original', n', cm')
          | Failed e cm' => (Raise e, original', n', cm')
          end
      end
  end.

(** [Utils._generate_markup(markup_obj)]: the value returned or the
    exception raised, the argument after the in-place writes, and the
    world. *)
Definition _generate_markup (markup_obj : pyval) (w : world)
  : outcome markup_result * pyval * world :=
  if negb (truthy markup_obj) then (Ret MarkupNone, markup_obj, w)
  else
    match lookup_buttons markup_obj w with
    | Raise e => (Raise e, markup_obj, w)
    | Ret original =>
        let '(r, original', n, cm) :=
          compile_matrix original (rand_calls w) (_custom_map w) in
        let '(markup_obj', w) := write_back markup_obj original' w in
        (r, markup_obj', set_custom_map cm (set_rand_calls n w))
    end.

(** Line 176: [generate_markup = _generate_markup]. *)
Definition generate_markup := _generate_markup.

(** ** EditProtocol: [_edit_unit] *)

(** The keyword arguments of [_edit_unit]; [query] is [None] or a
    [CallbackQuery], [unit_uid] is [None] or a [str]. *)
Record edit_args : Type := EditArgs {
  text : pyval;
  reply_markup : pyval;
  photo : pyval;
  file : pyval;
  video : pyval;
  audio : pyval;
  gif : pyval;
  mime_type : pyval;
  force_me : pyval;
  disable_security : pyval;
  always_allow : pyval;
  disable_web_page_preview : pyval;
  query : option CallbackQuery;
  unit_uid : option string;
  inline_message_id : pyval
}.

Definition with_reply_markup (v : pyval) (a : edit_args) : edit_args :=
  EditArgs (text a) v (photo a) (file a) (video a) (audio a) (gif a)
    (mime_type a) (force_me a) (disable_security a) (always_allow a)
    (disable_web_page_preview a) (query a) (unit_uid a) (inline_message_id a).

Definition with_inline_message_id (v : pyval) (a : edit_args) : edit_args :=
  EditArgs (text a) (reply_markup a) (photo a) (file a) (video a) (audio a)
    (gif a) (mime_type a) (force_me a) (disable_security a) (always_allow a)
    (disable_web_page_preview a) (query a) (unit_uid a) v.

Definition with_photo_gif (p g : pyval) (a : edit_args) : edit_args :=
  EditArgs (text a) (reply_markup a) p (file a) (video a) (audio a) g
    (mime_type a) (force_me a) (disable_security a) (always_allow a)
    (disable_web_page_preview a) (query a) (unit_uid a) (inline_message_id a).

(** The local variables of a running [_edit_unit]: the parameters as they
    stand, and [unit], which is [self._units[unit_uid]] itself (named by
    its uid) or a fresh empty dict. *)
Record frame : Type := Frame {
  locals : edit_args;
  unit_ref : option string
}.

(** How the part of [_edit_unit] before the dispatch ends: with a
    [return] or an exception, or with the locals to dispatch on. *)
Inductive prepared : Type :=
| Stop (r : outcome pyval)
| Go (fr : frame).

(** Lines 245-248. *)
Definition normalize_argument (reply_markup : pyval) : pyval :=
  if is_list reply_markup || is_dict reply_markup then _normalize_markup reply_markup
  else if is_none reply_markup then VList [VList []]
  else reply_markup.

(** [isinstance(file, str, bytes, io.BytesIO)] (line 263): the builtin
    takes two arguments, the call raises [TypeError]. *)
Definition isinstance_str_bytes_BytesIO (v : pyval) : outcome bool :=
  Raise TypeError.

(** [v and (not isinstance(v, str) or not utils.check_url(v))]. *)
Definition invalid_url (v : pyval) : bool :=
  truthy v && (negb (is_str v) || negb (check_url v)).

(** Lines 284-290. *)
Definition media_params (a : edit_args) : list bool :=
  [is_none (photo a); is_none (gif a); is_none (file a); is_none (video a);
   is_none (audio a)].

(** [l.count(False)]. *)
Definition count_False (l : list bool) : nat := length (List.filter negb l).

(** Lines 250-294: [Some r] when the validation ends the call with [r]. *)
Definition validate (a : edit_args) : option (outcome pyval) :=
  if negb (is_str (text a)) then Some (Ret (VBool false))
  else if invalid_url (photo a) then Some (Ret (VBool false))
  else if invalid_url (gif a) then Some (Ret (VBool false))
  else
    match
      (if truthy (file a)
       then
         is_instance <~ isinstance_str_bytes_BytesIO (file a) ;;
         Ret (negb is_instance || (is_str (file a) && negb (check_url (file a))))
       else Ret false)
    with
    | Raise e => Some (Raise e)
    | Ret true => Some (Ret (VBool false))
    | Ret false =>
        if truthy (file a) && negb (truthy (mime_type a)) then Some (Ret (VBool false))
        else if invalid_url (video a) then Some (Ret (VBool false))
        else if invalid_url (audio a) then Some (Ret (VBool false))
        else if Nat.ltb 1 (count_False (media_params a)) then Some (Ret (VBool false))
        else None
    end.

(** Lines 296-310: the unit is updated in the store; [unit] is the stored
    dict or a fresh one. *)
Definition update_unit (a : edit_args) (w : world) : option string * world :=
  match unit_uid a with
  | Some uid =>
      match _units w !! uid with
      | Some unit =>
          let unit := dict_set "buttons" (reply_markup a) unit in
          let unit :=
            if is_bool (force_me a) then dict_set "force_me" (force_me a) unit
            else unit in
          let unit :=
            if is_bool (disable_security a)
            then dict_set "disable_security" (disable_security a) unit
            else unit in
          let unit :=
            if is_list (always_allow a)
            then dict_set "always_allow" (always_allow a) unit
            else unit in
          (Some uid, set_units (<[uid := unit]> (_units w)) w)
      | None => (None, w)
      end
  | None => (None, w)
  end.

(** The dict the local [unit] refers to. *)
Definition unit_of (r : option string) (w : world) : dict :=
  match r with
  | Some uid => default [] (_units w !! uid)
  | None => []
  end.

(** Lines 312-316. *)
Definition resolve_inline_message_id (a : edit_args) (unit : dict) : outcome pyval :=
  if truthy (inline_message_id a) then Ret (inline_message_id a)
  else
    let stored := get_default unit "inline_message_id" (VBool false) in
    if truthy stored then Ret stored
    else
      match query a with
      | Some q => Ret (q_inline_message_id q)
      | None => Raise AttributeError
      end.

(** Lines 245-326: everything before the dispatch. *)
Definition prepare (a : edit_args) (w : world) : prepared * world :=
  let a := with_reply_markup (normalize_argument (reply_markup a)) a in
  match validate a with
  | Some r => (Stop r, w)
  | None =>
      let '(unit, w) := update_unit a w in
      match resolve_inline_message_id a (unit_of unit w) with
      | Raise e => (Stop (Raise e), w)
      | Ret id =>
          if negb (truthy id) then (Stop (Ret (VBool false)), w)
          else (Go (Frame (with_inline_message_id id a) unit), w)
      end
  end.

(** Lines 334-338 and 382-386: the keyboard passed to the transport.
    When [reply_markup] is a list it is the object stored as the unit's
    buttons at line 299, so the tokens written into it are seen by the
    local and by the store. *)
Definition compile_reply_markup (fr : frame) (w : world)
  : outcome markup_result * frame * world :=
  let a := locals fr in
  if is_list (reply_markup a) then
    let '(r, reply_markup', w) := generate_markup (reply_markup a) w in
    let w :=
      match unit_ref fr with
      | Some uid =>
          match _units w !! uid with
          | Some unit =>
              set_units (<[uid := dict_set "buttons" reply_markup' unit]> (_units w)) w
          | None => w
          end
      | None => w
      end in
    (r, Frame (with_reply_markup reply_markup' a) (unit_ref fr), w)
  else
    let '(r, _, w) :=
      generate_markup (get_default (unit_of (unit_ref fr) w) "buttons" (VList [])) w in
    (r, fr, w).

(** Reading a local variable that may not have been assigned. *)
Definition read_local {A : Type} (x : option A) : outcome A :=
  match x with
  | Some v => Ret v
  | None => Raise UnboundLocalError
  end.

(** [os.path.splitext(urlparse(x).path)[1]]. *)
Variable url_extension : InputMedia -> outcome pyval.

(** Lines 357-361, [media] being the local of that name. *)
Definition extension_of (media : option InputMedia) : outcome pyval :=
  match (m <~ read_local media ;; url_extension m) with
  | Ret ext => Ret ext
  | Raise e => if is_Exception e then Ret VNone else Raise e
  end.

(** [ext in {".gif", ".mp4"}]. *)
Definition is_gif_or_mp4 (ext : pyval) : bool :=
  match ext with
  | VStr s => String.eqb s ".gif" || String.eqb s ".mp4"
  | _ => false
  end.

(** Lines 367-376. *)
Definition build_media (a : edit_args) : option InputMedia :=
  if negb (is_none (file a)) then Some (InputMediaDocument (file a) (text a))
  else if negb (is_none (photo a)) then Some (InputMediaPhoto (photo a) (text a))
  else if negb (is_none (audio a)) then Some (InputMediaAudio (audio a) (text a))
  else if negb (is_none (video a)) then Some (InputMediaVideo (video a) (text a))
  else if negb (is_none (gif a)) then Some (InputMediaAnimation (gif a) (text a))
  else None.

(** Lines 328-339 and 356-387 up to the transport call: the request that
    is about to be sent, [edit_message_text] when no media parameter is
    set and [edit_message_media] otherwise.  In the second branch the
    local [media] is read at line 358 before any assignment to it. *)
Definition request (fr : frame) (w : world) : outcome event * frame * world :=
  let a := locals fr in
  if forallb id (media_params a) then
    let '(r, fr, w) := compile_reply_markup fr w in
    match r with
    | Raise e => (Raise e, fr, w)
    | Ret markup =>
        (Ret (edit_message_text (text a) (inline_message_id a)
                (disable_web_page_preview a) markup), fr, w)
    end
  else
    match extension_of None with
    | Raise e => (Raise e, fr, w)
    | Ret ext =>
        let a :=
          if negb (is_none (photo a)) && is_gif_or_mp4 ext
          then with_photo_gif VNone (photo a) a
          else a in
        let fr := Frame a (unit_ref fr) in
        match read_local (build_media a) with
        | Raise e => (Raise e, fr, w)
        | Ret media =>
            let '(r, fr, w) := compile_reply_markup fr w in
            match r with
            | Raise e => (Raise e, fr, w)
            | Ret markup =>
                (Ret (edit_message_media (inline_message_id a) media markup), fr, w)
            end
        end
    end.

(** Modelled from the spec: [utils.get_kwargs] is defined in
    [hikka/utils.py], which is not part of the sources at hand.  The
    specification has the edit call re-issued "with the original
    arguments": the keyword arguments the running call received.  They
    are the caller's objects, so the tokens [_generate_markup] wrote into
    the buttons are seen through [reply_markup]. *)
Definition get_kwargs (a : edit_args) (fr : frame) : edit_args :=
  with_reply_markup (denormalize (reply_markup a) (reply_markup (locals fr))) a.

(** What the collaborators answer, one entry for each call awaited, in
    order: [None] when the call returns, [Some e] when it raises [e].
    Calls beyond the end of the script return. *)
Definition script : Type := list (option exn).

(** [await query.answer(...)] under [contextlib.suppress]: [suppressed]
    tells which exceptions the context manager swallows. *)
Definition answer (q : option CallbackQuery) (message : option string)
    (suppressed : exn -> bool) (s : script) (w : world) : outcome pyval * world :=
  match q with
  | None =>
      if suppressed AttributeError then (Ret VNone, w) else (Raise AttributeError, w)
  | Some _ =>
      let w := emit (query_answer message) w in
      match s with
      | Some e :: _ => if suppressed e then (Ret VNone, w) else (Raise e, w)
      | _ => (Ret VNone, w)
      end
  end.

Definition is_InvalidQueryID (e : exn) : bool :=
  match e with InvalidQueryID => true | _ => false end.

Definition is_text_request (ev : event) : bool :=
  match ev with edit_message_text _ _ _ _ => true | _ => false end.

(** [Utils._edit_unit( **a)]: the value returned or the exception raised,
    and the world.  The recursion at lines 347 and 391 follows a
    [RetryAfter] answer of the transport, so it descends on the script. *)
Fixpoint _edit_unit (s : script) (a : edit_args) (w : world) {struct s}
  : outcome pyval * world :=
  match prepare a w with
  | (Stop r, w) => (r, w)
  | (Go fr, w) =>
      match request fr w with
      | (Raise e, _, w) => (Raise e, w)
      | (Ret call, fr, w) =>
          let w := emit call w in
          match s with
          | [] | None :: _ => (Ret VNone, w)
          | Some e :: rest =>
              match e with
              | MessageNotModified =>
                  if is_text_request call then
                    match query a with
                    | Some _ => answer (query a) None is_InvalidQueryID rest w
                    | None => (Ret VNone, w)
                    end
                  else (Raise e, w)
              | RetryAfter timeout =>
                  _edit_unit rest (get_kwargs a fr) (emit (asyncio_sleep timeout) w)
              | MessageIdInvalid =>
                  answer (query a)
                    (Some "I should have edited some message, but it is deleted :(")
                    is_Exception rest w
              | _ => (Raise e, w)
              end
          end
      end
  end.

(** What follows the transport call, given the answers left. *)
Definition after_request (a : edit_args) (fr : frame) (call : event) (s : script)
    (w : world) : outcome pyval * world :=
  match s with
  | [] | None :: _ => (Ret VNone, w)
  | Some e :: rest =>
      match e with
      | MessageNotModified =>
          if is_text_request call then
            match query a with
            | Some _ => answer (query a) None is_InvalidQueryID rest w
            | None => (Ret VNone, w)
            end
          else (Raise e, w)
      | RetryAfter timeout =>
          _edit_unit rest (get_kwargs a fr) (emit (asyncio_sleep timeout) w)
      | MessageIdInvalid =>
          answer (query a)
            (Some "I should have edited some message, but it is deleted :(")
            is_Exception rest w
      | _ => (Raise e, w)
      end
  end.

(** ** UnitLifecycle: [_unload_unit] and [_delete_unit_message] *)

(** The behaviour of the callables stored as teardown hooks. *)
Variable call : string -> world -> outcome pyval * world.

(** [self._units[unit_uid]]. *)
Definition units_getitem (unit_uid : option string) (w : world) : outcome dict :=
  match unit_uid with
  | Some uid =>
      match _units w !! uid with
      | Some unit => Ret unit
      | None => Raise KeyError
      end
  | None => Raise KeyError
  end.

(** [try: ... except Exception: return r]. *)
Definition except_Exception (body : outcome pyval * world) (r : pyval)
  : outcome pyval * world :=
  match body with
  | (Raise e, w) => if is_Exception e then (Ret r, w) else (Raise e, w)
  | _ => body
  end.

(** Lines 423-426: the teardown hook is called when the unit has a
    callable under ["on_unload"]. *)
Definition run_on_unload (unit_uid : option string) (w : world) : outcome pyval * world :=
  match units_getitem unit_uid w with
  | Raise e => (Raise e, w)
  | Ret unit =>
      if dict_in "on_unload" unit then
        match subscript unit "on_unload" with
        | Ret (VFunc f) => call f (emit (hook_call f) w)
        | _ => (Ret VNone, w)
        end
      else (Ret VNone, w)
  end.

(** Lines 428-431. *)
Definition remove_unit (unit_uid : option string) (w : world) : outcome pyval * world :=
  match unit_uid with
  | Some uid =>
      match _units w !! uid with
      | Some _ => (Ret (VBool true), set_units (delete uid (_units w)) w)
      | None => (Ret (VBool false), w)
      end
  | None => (Ret (VBool false), w)
  end.

(** [Utils._unload_unit(call, unit_uid)]. *)
Definition _unload_unit (unit_uid : option string) (w : world) : outcome pyval * world :=
  except_Exception
    (match run_on_unload unit_uid w with
     | (Raise e, w) => (Raise e, w)
     | (Ret _, w) => remove_unit unit_uid w
     end)
    (VBool false).

(** [Utils._delete_unit_message(call, unit_uid)]. *)
Definition _delete_unit_message (s : script) (unit_uid : option string) (w : world)
  : outcome pyval * world :=
  except_Exception
    (match
       (unit <~ units_getitem unit_uid w ;;
        chat <~ subscript unit "chat" ;;
        message_id <~ subscript unit "message_id" ;;
        Ret (delete_messages chat message_id))
     with
     | Raise e => (Raise e, w)
     | Ret request =>
         let w := emit request w in
         match s with
         | Some e :: _ => (Raise e, w)
         | _ =>
             match _unload_unit unit_uid w with
             | (Raise e, w) => (Raise e, w)
             | (Ret _, w) => (Ret (VBool true), w)
             end
         end
     end)
    (VBool false).

(** ** Caller lookup: [_find_caller_sec_map] *)

(** [s.endswith(suffix)]. *)
Definition endswith (s suffix : string) : bool :=
  (String.length suffix <=? String.length s)%nat
  && String.eqb
       (String.substring (String.length s - String.length suffix)
          (String.length suffix) s)
       suffix.

(** A value bound in a module namespace, as line 207 looks at it: a
    class, with whether it derives from [Module], or an object that is
    not a class, on which [issubclass] raises [TypeError]. *)
Inductive global_value : Type :=
| Class (cls : string) (subclass_of_Module : bool)
| NotAClass.

(** An entry of [inspect.stack()]: its [function] and the items of its
    [frame.f_globals], in order. *)
Record FrameInfo : Type := {
  function : string;
  f_globals : list (string * global_value)
}.

(** The callable built at lines 200-205: it closes over the class and the
    name of the function whose security flags it looks up. *)
Record sec_map : Type := SecMap {
  sec_cls : string;
  sec_function : string
}.

(** How [next] on the generator of lines 199-208 ends: with the first
    item the generator yields, with [StopIteration] when the items run
    out, or with the [TypeError] of [issubclass]. *)
Inductive next_result : Type :=
| Yielded (f : sec_map)
| StopIteration
| IssubclassTypeError.

(** Lines 199-208: [next] on the generator over the globals.  The
    [and] of line 207 calls [issubclass] only on a name ending in
    [Mod]. *)
Fixpoint next_module (function : string) (items : list (string * global_value))
  : next_result :=
  match items with
  | [] => StopIteration
  | (name, cls_) :: rest =>
      if endswith name "Mod" then
        match cls_ with
        | Class cls true => Yielded (SecMap cls function)
        | Class _ false => next_module function rest
        | NotAClass => IssubclassTypeError
        end
      else next_module function rest
  end.

(** Lines 195-196. *)
Definition is_handler (function : string) : bool :=
  endswith function "cmd" || endswith function "_inline_handler".

(** [Utils._find_caller_sec_map()] on the stack [inspect.stack()]
    returns, innermost frame first.  Both ways [next] can fail are
    exceptions the [except Exception] of line 209 catches. *)
Fixpoint _find_caller_sec_map (stack : list FrameInfo) : option sec_map :=
  match stack with
  | [] => None
  | stack_entry :: rest =>
      if is_handler (function stack_entry) then
        match next_module (function stack_entry) (f_globals stack_entry) with
        | Yielded f => Some f
        | StopIteration | IssubclassTypeError => None
        end
      else _find_caller_sec_map rest
  end.

(** ** Shapes of button matrices *)

(** A button that already carries the tokens the first pass would mint. *)
Definition tokenized_button (button : pyval) : bool :=
  match button with
  | VDict d =>
      (negb (dict_in "callback" d) || dict_in "_callback_data" d)
      && (negb (dict_in "input" d) || dict_in "_switch_query" d)
  | _ => false
  end.

(** A matrix in normal form (a list of rows, each a list of buttons)
    whose buttons satisfy [p]. *)
Definition matrix_of (p : pyval -> bool) (m : pyval) : bool :=
  match m with
  | VList rows =>
      forallb (fun row => match row with VList l => forallb p l | _ => false end) rows
  | _ => false
  end.

Definition tokenized_matrix : pyval -> bool := matrix_of tokenized_button.

(** A matrix in normal form with a button that is not a [dict]. *)
Definition has_non_dict_button (m : pyval) : bool :=
  match m with
  | VList rows =>
      forallb is_list rows
      && existsb
           (fun row => match row with VList l => existsb (fun b => negb (is_dict b)) l | _ => false end)
           rows
  | _ => false
  end.

(** The registry a second pass leaves, and the pass with another one. *)
Definition with_registry {A : Type} (cm : gmap pykey dict) (c : compiled A) : compiled A :=
  match c with
  | Built a _ => Built a cm
  | GaveUp _ => GaveUp cm
  | Failed e _ => Failed e cm
  end.

Definition registry {A : Type} (c : compiled A) : gmap pykey dict :=
  match c with
  | Built _ cm | GaveUp cm | Failed _ cm => cm
  end.

(** The keys the [elif] chain of lines 90-157 dispatches on after
    ["url"]. *)
Definition kind_keys : list string :=
  ["callback"; "input"; "data"; "switch_inline_query_current_chat";
   "switch_inline_query"].

(** A button the second pass builds a control for, and that has no
    ["text"]: it has a url [check_url] accepts, or no url and one of the
    other kind keys. *)
Definition textless_button (button : pyval) : bool :=
  match button with
  | VDict d =>
      negb (dict_in "text" d)
      && match dict_get "url" d with
         | Some url => check_url url
         | None => existsb (fun k => dict_in k d) kind_keys
         end
  | _ => false
  end.

(** A button whose tokens, where it carries them, are strings, as the
    tokens [utils.rand] returns are. *)
Definition str_tokens (button : pyval) : bool :=
  match button with
  | VDict d =>
      is_str (get_default d "_callback_data" (VStr ""))
      && is_str (get_default d "_switch_query" (VStr ""))
  | _ => false
  end.

(** A list of rows one of which is a list with such a button. *)
Definition has_textless_button (m : pyval) : bool :=
  match m with
  | VList rows =>
      existsb
        (fun row => match row with VList l => existsb textless_button l | _ => false end)
        rows
  | _ => false
  end.

(** What lines 100-124 put under [k] for a button: nothing unless
    [button.get(k, False)] is truthy, then [True] for the two flags and
    the value itself for the other entries. *)
Definition registered_entry (button : dict) (k : string) (flag : bool) : option pyval :=
  let v := get_default button k (VBool false) in
  if truthy v then Some (if flag then VBool true else v) else None.

(** The buttons of a list of rows. *)
Definition buttons_of (m : pyval) : list pyval :=
  match m with
  | VList rows => flat_map (fun row => match row with VList l => l | _ => [] end) rows
  | _ => []
  end.

(** A button for which line 66 draws a token. *)
Definition fresh_callback (button : pyval) : bool :=
  match button with
  | VDict d => dict_in "callback" d && negb (dict_in "_callback_data" d)
  | _ => false
  end.

(** A button the second pass takes for a callback button. *)
Definition callback_button (button : pyval) : bool :=
  match button with
  | VDict d => dict_in "callback" d && negb (dict_in "url" d)
  | _ => false
  end.

(** The registry has an entry under the token of the button. *)
Definition registered (cm : gmap pykey dict) (button : pyval) : Prop :=
  match button with
  | VDict d =>
      exists v k,
        dict_get "_callback_data" d = Some v /\ to_key v = Ret k /\ is_Some (cm !! k)
  | _ => False
  end.

(** The rows of a keyboard against the rows of a matrix: as many, and
    no more controls in a row than the row has buttons. *)
Definition rows_of (keyboard : list (list InlineKeyboardButton)) (rows : list pyval)
  : Prop :=
  Forall2
    (fun line row =>
       exists buttons, py_iter row = Ret buttons /\ length line <= length buttons)
    keyboard rows.

(** ** Observations on the transport *)

(** The message an edit request addresses. *)
Definition target (ev : event) : option pyval :=
  match ev with
  | edit_message_text _ inline_message_id _ _ => Some inline_message_id
  | edit_message_media inline_message_id _ _ => Some inline_message_id
  | _ => None
  end.

(** The [except] clauses after a request: lines 340-352 after
    [edit_message_text], lines 388-396 after [edit_message_media]. *)
Definition has_except_clause (request_sent : event) (e : exn) : bool :=
  match e with
  | RetryAfter _ | MessageIdInvalid => true
  | MessageNotModified => is_text_request request_sent
  | _ => false
  end.

(** What the lifecycle operations may end with: a [bool], or an
    exception that is no [Exception]. *)
Definition bool_or_interrupt (r : outcome pyval) : Prop :=
  match r with
  | Ret v => is_bool v = true
  | Raise e => is_Exception e = false
  end.

(** ** Observations on the unit store *)

(** The entry [k] of the unit [uid]: [None] when there is no such unit. *)
Definition field (k uid : string) (w : world) : option (option pyval) :=
  dict_get k <$> (_units w !! uid).

(** The entry [k] after lines 301-308. *)
Definition field_after (a : edit_args) (k : string) (old : option pyval) : option pyval :=
  if String.eqb k "always_allow" && is_list (always_allow a) then Some (always_allow a)
  else if String.eqb k "disable_security" && is_bool (disable_security a)
  then Some (disable_security a)
  else if String.eqb k "force_me" && is_bool (force_me a) then Some (force_me a)
  else old.

(** The world as far as [_generate_markup] reads it through its
    argument. *)
Definition same_compile_state (markup_obj : pyval) (w w' : world) : Prop :=
  rand_calls w = rand_calls w'
  /\ lookup_buttons markup_obj w = lookup_buttons markup_obj w'.

(** Line 299 for a running call: the buttons stored for the unit are the
    local [reply_markup], which is never a [dict] after lines 245-248. *)
Definition stored_buttons (fr : frame) (w : world) : Prop :=
  (forall uid, unit_ref fr = Some uid ->
     field "buttons" uid w = Some (Some (reply_markup (locals fr))))
  /\ is_dict (reply_markup (locals fr)) = false.

(** The buttons as the first pass of a compile leaves them, [n] tokens
    having been drawn before: the tokens of lines 65-70 written into the
    buttons of a list of rows. *)
Definition tokens_written (reply_markup : pyval) (n : nat) : pyval :=
  match reply_markup with
  | VList rows => VList (mint_rows rows n false).1.1.1
  | _ => reply_markup
  end.

(** ** Example data *)

(** The defaults of the keyword parameters of [_edit_unit]. *)
Definition default_args (text : pyval) : edit_args :=
  EditArgs text VNone VNone VNone VNone VNone VNone VNone VNone VNone VNone
    (VBool true) None None VNone.

Definition demo_rand (size n : nat) : string := "token" ++ pretty n.

Definition demo_check_url (v : pyval) : bool :=
  match v with
  | VStr s => String.prefix "http" s
  | _ => false
  end.

(** An extension function that finds [.gif] in every payload. *)
Definition demo_url_extension (m : InputMedia) : outcome pyval := Ret (VStr ".gif").

(** The hook [failing_hook] raises, every other callable returns. *)
Definition demo_call (f : string) (w : world) : outcome pyval * world :=
  if String.eqb f "failing_hook" then (Raise RPCError, w) else (Ret VNone, w).

Definition demo_unit : dict :=
  [("chat", VInt 1); ("message_id", VInt 2);
   ("buttons", VList [VList [VDict [("text", VStr "Open"); ("data", VStr "open")]]]);
   ("force_me", VBool false);
   ("on_unload", VFunc "failing_hook")].

Definition demo_world : world := World {[ "form" := demo_unit ]} ∅ 0 [].

(** [photo] and [file] at once. *)
Definition demo_photo_and_file : edit_args :=
  EditArgs (VStr "caption") VNone (VStr "https://example.org/a.png")
    (VStr "https://example.org/a.zip") VNone VNone VNone (VStr "application/zip")
    VNone VNone VNone (VBool true) None None (VStr "42").

(** [file] alone, with its [mime_type]. *)
Definition demo_file : edit_args :=
  EditArgs (VStr "caption") VNone VNone (VBytes "PK") VNone VNone VNone
    (VStr "application/zip") VNone VNone VNone (VBool true) None None (VStr "42").

(** A [photo] whose URL ends in [.gif]. *)
Definition demo_gif_photo : edit_args :=
  EditArgs (VStr "caption") VNone (VStr "https://example.org/a.gif") VNone VNone
    VNone VNone VNone VNone VNone VNone (VBool true) None None (VStr "42").

(** An edit of the unit [form] that sets [force_me], with no
    [inline_message_id] to be found: none is passed, the unit stores
    none, and the query carries none. *)
Definition demo_unresolvable : edit_args :=
  EditArgs (VStr "hello") VNone VNone VNone VNone VNone VNone VNone (VBool true)
    VNone VNone (VBool true) (Some {| q_inline_message_id := VNone |})
    (Some "form") VNone.

(** A text edit of the unit [form] with one callback button. *)
Definition demo_text_edit : edit_args :=
  EditArgs (VStr "hello")
    (VDict [("text", VStr "Close"); ("callback", VFunc "close")])
    VNone VNone VNone VNone VNone VNone VNone VNone VNone (VBool true) None
    (Some "form") (VStr "42").

(** A button with both [url] and [callback]. *)
Definition demo_url_callback_button : dict :=
  [("text", VStr "Docs"); ("url", VStr "https://example.org/docs");
   ("callback", VFunc "open_docs")].

(** A matrix with the url and callback button in its first row and, in
    its second row, a url and callback button that has no text. *)
Definition demo_url_callback_textless : pyval :=
  VList [VList [VDict demo_url_callback_button];
         VList [VDict [("url", VStr "https://example.org/docs");
                       ("callback", VFunc "open_docs")]]].

(** [photo] and [video] at once. *)
Definition demo_photo_and_video : edit_args :=
  EditArgs (VStr "caption") VNone (VStr "https://example.org/a.png") VNone
    (VStr "https://example.org/a.mp4") VNone VNone VNone VNone VNone VNone
    (VBool true) None None (VStr "42").

(** A unit with no teardown hook. *)
Definition demo_unit_no_hook : dict :=
  [("chat", VInt 1); ("message_id", VInt 2); ("buttons", VList [VList []])].

Definition demo_world_no_hook : world :=
  World {[ "form" := demo_unit_no_hook ]} ∅ 0 [].

(** A tokenized matrix, and a matrix with a button that is a string. *)
Definition demo_tokenized : pyval :=
  VList [VList [VDict [("text", VStr "Close"); ("callback", VFunc "close");
                       ("_callback_data", VStr "token0")];
                VDict [("text", VStr "Ask"); ("input", VStr "question");
                       ("_switch_query", VStr "token1")]]].

Definition demo_malformed : pyval :=
  VList [VList [VDict [("text", VStr "Close"); ("data", VStr "close")]; VStr "Close"]].

(** A list that mixes a row with a bare button. *)
Definition demo_mixed : list pyval :=
  [VList [VDict [("text", VStr "Open"); ("data", VStr "open")]];
   VDict [("text", VStr "Close"); ("data", VStr "close")]].

(** Two rows: a data button beside a button whose url [demo_check_url]
    rejects, and an empty row. *)
Definition demo_rows : pyval :=
  VList [VList [VDict [("text", VStr "Open"); ("data", VStr "open")];
                VDict [("text", VStr "Site"); ("url", VStr "ftp://example.org")]];
         VList []].

(** A callback button without a token, with a truthy [force_me] that is
    not [True]. *)
Definition demo_fresh_button : dict :=
  [("text", VStr "Close"); ("callback", VFunc "close"); ("force_me", VInt 1);
   ("always_allow", VList [VInt 7])].

Definition demo_input_button : dict :=
  [("text", VStr "Ask"); ("input", VStr "question")].

(** A callback button without ["text"]. *)
Definition demo_textless : dict := [("callback", VFunc "close")].

(** A callback button that carries a token beside one that does not. *)
Definition demo_two_callbacks : pyval :=
  VList [VList [VDict [("text", VStr "Old"); ("callback", VFunc "old");
                       ("_callback_data", VStr "kept")];
                VDict [("text", VStr "New"); ("callback", VFunc "new")]]].

(** A unit that records the [inline_message_id] of its message. *)
Definition demo_unit_sent : dict :=
  [("chat", VInt 1); ("message_id", VInt 2); ("inline_message_id", VStr "stored-id");
   ("buttons", VList [VList []])].

Definition demo_world_sent : world := World {[ "form" := demo_unit_sent ]} ∅ 0 [].

(** An edit of [form] from a callback query, with no explicit id. *)
Definition demo_edit_by_query : edit_args :=
  EditArgs (VStr "hello") VNone VNone VNone VNone VNone VNone VNone VNone VNone VNone
    (VBool true) (Some {| q_inline_message_id := VStr "query-id" |}) (Some "form")
    VNone.

(** A text edit of [form] that passes no [reply_markup]. *)
Definition demo_plain_edit : edit_args :=
  EditArgs (VStr "hello") VNone VNone VNone VNone VNone VNone VNone VNone VNone VNone
    (VBool true) None (Some "form") (VStr "42").

(** A stack: the lookup itself and its caller, the frame of a command of
    [PingMod], and the dispatcher below it. *)
Definition demo_inner_frames : list FrameInfo :=
  [ {| function := "_find_caller_sec_map";
       f_globals := [("Utils", Class "Utils" false)] |};
    {| function := "form"; f_globals := [("Form", Class "Form" false)] |} ].

Definition demo_handler_frame : FrameInfo :=
  {| function := "pingcmd";
     f_globals := [("logger", NotAClass); ("HelperMod", Class "HelperMod" false);
                   ("PingMod", Class "PingMod" true)] |}.

Definition demo_outer_frames : list FrameInfo :=
  [ {| function := "dispatch_cmd"; f_globals := [("CoreMod", Class "CoreMod" true)] |} ].

(** * Properties *)

(** ** Dictionaries *)

Lemma dict_get_set_eq k v d : dict_get k (dict_set k v d) = Some v.
Proof.
  induction d as [|[k' v'] d IH]; simpl.
  - by rewrite String.eqb_refl.
  - destruct (String.eqb k k') eqn:E; simpl; rewrite ?String.eqb_refl ?E //.
Qed.

Lemma dict_get_set_ne k k' v d : k <> k' -> dict_get k' (dict_set k v d) = dict_get k' d.
Proof.
  intros Hne. induction d as [|[k0 v0] d IH]; simpl.
  - destruct (String.eqb k' k) eqn:E; [|done].
    apply String.eqb_eq in E. congruence.
  - destruct (String.eqb k k0) eqn:E; simpl.
    + apply String.eqb_eq in E. subst k0.
      destruct (String.eqb k' k) eqn:E'; [|done].
      apply String.eqb_eq in E'. congruence.
    + by rewrite IH.
Qed.

Lemma dict_set_same k v d : dict_get k d = Some v -> dict_set k v d = d.
Proof.
  induction d as [|[k0 v0] d IH]; simpl; [done|].
  destruct (String.eqb k k0) eqn:E.
  - apply String.eqb_eq in E. by intros [= ->]; subst.
  - intros H. by rewrite IH.
Qed.

Lemma dict_in_set_eq k v d : dict_in k (dict_set k v d) = true.
Proof. unfold dict_in. by rewrite dict_get_set_eq. Qed.

Lemma dict_in_set_ne k k' v d : k <> k' -> dict_in k' (dict_set k v d) = dict_in k' d.
Proof. intros. unfold dict_in. by rewrite dict_get_set_ne. Qed.

Lemma subscript_set_ne k k' v d : k <> k' -> subscript (dict_set k v d) k' = subscript d k'.
Proof. intros. unfold subscript. by rewrite dict_get_set_ne. Qed.

Lemma get_default_set_ne k k' v d x :
  k <> k' -> get_default (dict_set k v d) k' x = get_default d k' x.
Proof. intros. unfold get_default. by rewrite dict_get_set_ne. Qed.

(** Reading an entry after a chain of assignments. *)
Ltac dict_simpl :=
  repeat (rewrite dict_get_set_eq || (rewrite dict_get_set_ne; [|done])).

(** ** The world *)

Lemma set_units_id w : set_units (_units w) w = w.
Proof. by destruct w. Qed.

Lemma set_custom_map_id w : set_custom_map (_custom_map w) w = w.
Proof. by destruct w. Qed.

Lemma set_rand_calls_id w : set_rand_calls (rand_calls w) w = w.
Proof. by destruct w. Qed.

(** ** Normalization *)

Lemma _normalize_markup_idempotent m :
  _normalize_markup (_normalize_markup m) = _normalize_markup m.
Proof.
  destruct m as [| | | | |l| |]; simpl; try done.
  destruct (existsb is_dict l) eqn:E; simpl; [done|by rewrite E].
Qed.

Lemma denormalize_normalize m : denormalize m (_normalize_markup m) = m.
Proof.
  destruct m as [| | | | |l| |]; simpl; try done.
  by destruct (existsb is_dict l).
Qed.

(** ** The first pass *)

Lemma mint_button_tokenized d n setup :
  tokenized_button (VDict d) = true -> mint_button d n setup = (d, n, setup).
Proof.
  unfold tokenized_button, mint_button. intros [H1 H2]%andb_prop.
  destruct (dict_in "callback" d), (dict_in "_callback_data" d); simpl in *;
    try done;
    destruct (dict_in "input" d), (dict_in "_switch_query" d); simpl in *; done.
Qed.

Lemma mint_row_tokenized l n setup :
  forallb tokenized_button l = true -> mint_row l n setup = (l, n, setup, true).
Proof.
  revert n setup. induction l as [|b l IH]; intros n setup; simpl; [done|].
  intros [Hb Hl]%andb_prop. destruct b; try done.
  by rewrite (mint_button_tokenized _ _ _ Hb) (IH _ _ Hl).
Qed.

Lemma mint_rows_tokenized rows n setup :
  tokenized_matrix (VList rows) = true ->
  mint_rows rows n setup = (rows, n, setup, Completed).
Proof.
  revert n setup. induction rows as [|row rows IH]; intros n setup; simpl; [done|].
  intros [Hrow Hrows]%andb_prop. destruct row; try done. simpl.
  by rewrite (mint_row_tokenized _ _ _ Hrow) (IH _ _ Hrows).
Qed.

Lemma mint_row_ok l n setup :
  (mint_row l n setup).2 = forallb is_dict l.
Proof.
  revert n setup. induction l as [|b l IH]; intros n setup; simpl; [done|].
  destruct b; try done. simpl.
  destruct (mint_button d n setup) as [[d' n'] setup'].
  specialize (IH n' setup').
  by destruct (mint_row l n' setup') as [[[l' n''] setup''] ok].
Qed.

Lemma mint_rows_non_dict rows n setup :
  has_non_dict_button (VList rows) = true ->
  (mint_rows rows n setup).2 = NotADict.
Proof.
  revert n setup. induction rows as [|row rows IH]; intros n setup.
  - done.
  - intros [Hl He]%andb_prop. simpl in Hl, He.
    apply andb_prop in Hl as [Hrow Hrows].
    destruct row as [| | | | |l| |]; try done. simpl.
    pose proof (mint_row_ok l n setup) as Hok.
    destruct (mint_row l n setup) as [[[l' n'] setup'] ok]. simpl in Hok. subst ok.
    destruct (forallb is_dict l) eqn:Hall.
    + assert (existsb (fun b => negb (is_dict b)) l = false) as Hno.
      { clear -Hall. induction l as [|b l IH]; simpl in *; [done|].
        apply andb_prop in Hall as [-> ?]. simpl. auto. }
      rewrite Hno in He. simpl in He.
      assert (has_non_dict_button (VList rows) = true) as Hrest.
      { simpl. by rewrite Hrows He. }
      specialize (IH n' setup' Hrest).
      by destruct (mint_rows rows n' setup') as [[[rows' n''] setup''] st].
    + done.
Qed.

(** ** The second pass without registration *)

Lemma translate_button_no_setup button cm cm' :
  translate_button false button cm' =
  match translate_button false button cm with
  | Ret (control, _) => Ret (control, cm')
  | Raise e => Raise e
  end.
Proof.
  unfold translate_button.
  repeat (match goal with
          | |- context [if ?b then _ else _] => destruct b
          | |- context [subscript ?d ?k] => destruct (subscript d k)
          | |- context [py_add_str ?v ?s] => destruct (py_add_str v s)
          end; simpl; try done).
Qed.

Lemma translate_row_no_setup row line cm cm' :
  translate_row false row line cm' = with_registry cm' (translate_row false row line cm).
Proof.
  revert line cm. induction row as [|b row IH]; intros line cm; simpl; [done|].
  destruct b; try done.
  rewrite (translate_button_no_setup _ cm cm').
  by destruct (translate_button false d cm) as [[[control|] cm0]|[]]; simpl.
Qed.

Lemma translate_rows_no_setup rows markup cm cm' :
  translate_rows false rows markup cm' =
  with_registry cm' (translate_rows false rows markup cm).
Proof.
  revert markup cm. induction rows as [|row rows IH]; intros markup cm; simpl; [done|].
  destruct (py_iter row) as [buttons|e]; [|done].
  rewrite (translate_row_no_setup _ _ cm cm').
  by destruct (translate_row false buttons [] cm) as [line cm0|cm0|e cm0]; simpl.
Qed.

Lemma translate_rows_no_setup_registry rows markup cm :
  with_registry cm (translate_rows false rows markup cm) =
  translate_rows false rows markup cm.
Proof. by rewrite -translate_rows_no_setup. Qed.

(** ** [_generate_markup] *)

Lemma write_back_unchanged markup_obj original w :
  lookup_buttons markup_obj w = Ret original ->
  write_back markup_obj original w = (markup_obj, w).
Proof.
  unfold lookup_buttons, write_back.
  destruct markup_obj; try by intros [= ->].
  destruct (_units w !! s) as [unit|] eqn:Hu; [|done].
  unfold subscript. destruct (dict_get "buttons" unit) eqn:Hb; [|done].
  intros [= ->]. rewrite (dict_set_same _ _ _ Hb) (insert_id _ _ _ Hu).
  by rewrite set_units_id.
Qed.

(** On a tokenized matrix the two passes write nothing, and what they
    return does not depend on the token count or on the registry. *)
Lemma compile_matrix_tokenized original n cm :
  tokenized_matrix (_normalize_markup original) = true ->
  compile_matrix original n cm = ((compile_matrix original 0 ∅).1.1.1, original, n, cm).
Proof.
  intros Htok. unfold compile_matrix.
  destruct (_normalize_markup original) as [| | | | |rows| |] eqn:Hnorm; try done.
  simpl py_iter. cbv iota beta.
  rewrite !(mint_rows_tokenized _ _ _ Htok).
  rewrite -Hnorm denormalize_normalize.
  rewrite (translate_rows_no_setup rows [] ∅ cm).
  by destruct (translate_rows false rows [] ∅).
Qed.

(** C8.  Recompiling is idempotent on tokenized input.  Let the matrix
    [_generate_markup] works on (the argument, or the stored buttons of
    the unit it names) be one in which every callback button carries
    [_callback_data] and every input button carries [_switch_query].
    Then the call leaves the world as it found it, so [_custom_map]
    receives no entry and no token is drawn, it leaves the buttons as
    they were, and what it returns depends on the matrix alone: every
    further compile returns the same keyboard. *)
Theorem generate_markup_tokenized_idempotent markup_obj original :
  tokenized_matrix (_normalize_markup original) = true ->
  exists r : outcome markup_result,
    forall w : world,
      lookup_buttons markup_obj w = Ret original ->
      _generate_markup markup_obj w = (r, markup_obj, w)
      /\ _custom_map (_generate_markup markup_obj w).2 = _custom_map w.
Proof.
  intros Htok.
  exists (if negb (truthy markup_obj) then Ret MarkupNone
          else (compile_matrix original 0 ∅).1.1.1).
  intros w Hlookup.
  assert (_generate_markup markup_obj w
          = (if negb (truthy markup_obj) then Ret MarkupNone
             else (compile_matrix original 0 ∅).1.1.1, markup_obj, w)) as Heq.
  { unfold _generate_markup.
    destruct (negb (truthy markup_obj)); [done|].
    rewrite Hlookup (compile_matrix_tokenized _ _ _ Htok).
    rewrite (write_back_unchanged _ _ _ Hlookup).
    by rewrite set_rand_calls_id set_custom_map_id. }
  by rewrite Heq.
Qed.

Lemma compile_matrix_non_dict original n cm :
  has_non_dict_button (_normalize_markup original) = true ->
  (compile_matrix original n cm).1.1.1 = Ret MarkupNone.
Proof.
  intros Hbad. unfold compile_matrix.
  destruct (_normalize_markup original) as [| | | | |rows| |] eqn:Hnorm; try done.
  simpl py_iter. cbv iota beta.
  pose proof (mint_rows_non_dict rows n false Hbad) as Hst.
  destruct (mint_rows rows n false) as [[[rows' n'] setup] st].
  simpl in Hst. by subst st.
Qed.

(** C10.  If a button of the normalized matrix is not a [dict],
    [_generate_markup] returns [None]: the value it returns for an empty
    specification, and not the [False] it returns after a [KeyError]. *)
Theorem generate_markup_non_dict_button markup_obj original w :
  lookup_buttons markup_obj w = Ret original ->
  has_non_dict_button (_normalize_markup original) = true ->
  (_generate_markup markup_obj w).1.1 = Ret MarkupNone
  /\ (forall empty, truthy empty = false ->
        (_generate_markup empty w).1.1 = (_generate_markup markup_obj w).1.1)
  /\ (_generate_markup markup_obj w).1.1 <> Ret MarkupFalse.
Proof.
  intros Hlookup Hbad.
  assert ((_generate_markup markup_obj w).1.1 = Ret MarkupNone) as Heq.
  { unfold _generate_markup.
    destruct (negb (truthy markup_obj)); [done|].
    rewrite Hlookup.
    pose proof (compile_matrix_non_dict original (rand_calls w) (_custom_map w) Hbad) as Hc.
    destruct (compile_matrix _ _ _) as [[[r original'] n] cm]. simpl in Hc. subst r.
    by destruct (write_back _ _ _). }
  rewrite Heq. split; [done|]. split; [|done].
  intros empty Hempty. unfold _generate_markup. by rewrite Hempty.
Qed.

(** ** Compiling a matrix that has been compiled *)

Lemma mint_button_tokenizes button n setup :
  tokenized_button (VDict (mint_button button n setup).1.1) = true.
Proof.
  unfold mint_button, tokenized_button.
  destruct (dict_in "callback" button) eqn:Hc,
    (dict_in "_callback_data" button) eqn:Hd; simpl;
    rewrite ?(dict_in_set_ne "_callback_data" "input") //
            ?(dict_in_set_ne "_callback_data" "_switch_query") //;
    destruct (dict_in "input" button) eqn:Hi,
      (dict_in "_switch_query" button) eqn:Hs; simpl;
    rewrite ?dict_in_set_eq ?(dict_in_set_ne "_switch_query" "callback") //
            ?(dict_in_set_ne "_switch_query" "_callback_data") //
            ?(dict_in_set_ne "_switch_query" "input") //
            ?(dict_in_set_ne "_callback_data" "callback") //
            ?(dict_in_set_ne "_callback_data" "input") //
            ?(dict_in_set_ne "_callback_data" "_switch_query") //
            ?dict_in_set_eq ?Hc ?Hd ?Hi ?Hs //.
Qed.

Lemma mint_row_idempotent row n setup :
  forall m t,
    mint_row (mint_row row n setup).1.1.1 m t
    = ((mint_row row n setup).1.1.1, m, t, (mint_row row n setup).2).
Proof.
  revert n setup. induction row as [|b row IH]; intros n setup m t; simpl; [done|].
  destruct b; try done. simpl.
  pose proof (mint_button_tokenizes d n setup) as Htok.
  destruct (mint_button d n setup) as [[d' n'] setup']. simpl in Htok.
  specialize (IH n' setup').
  destruct (mint_row row n' setup') as [[[row' n''] setup''] ok]. simpl in *.
  by rewrite (mint_button_tokenized _ _ _ Htok) IH.
Qed.

Lemma mint_row_is_dict row n setup :
  map is_dict (mint_row row n setup).1.1.1 = map is_dict row.
Proof.
  revert n setup. induction row as [|b row IH]; intros n setup; simpl; [done|].
  destruct b; try done. simpl.
  destruct (mint_button d n setup) as [[d' n'] setup'].
  specialize (IH n' setup').
  destruct (mint_row row n' setup') as [[[row' n''] setup''] ok]. simpl in *.
  by rewrite IH.
Qed.

Lemma mint_row_no_dict row n setup :
  existsb is_dict row = false -> (mint_row row n setup).1 = (row, n, setup).
Proof. destruct row as [|b row]; simpl; [done|]. by destruct b. Qed.

Lemma py_iter_no_dict row buttons :
  py_iter row = Ret buttons -> is_list row = false -> existsb is_dict buttons = false.
Proof.
  destruct row; simpl; try done; intros [= <-] _.
  - by induction (String.list_ascii_of_string s).
  - by induction (String.list_ascii_of_string s).
  - by induction d.
Qed.

(** The row the first pass leaves in place of [row]. *)
Lemma mint_rows_idempotent rows n setup :
  forall m t,
    mint_rows (mint_rows rows n setup).1.1.1 m t
    = ((mint_rows rows n setup).1.1.1, m, t, (mint_rows rows n setup).2).
Proof.
  revert n setup. induction rows as [|row rows IH]; intros n setup m t; [done|].
  simpl. destruct (py_iter row) as [buttons|e] eqn:Hiter.
  2: { simpl. by rewrite Hiter. }
  pose proof (mint_row_idempotent buttons n setup m t) as Hrow.
  pose proof (mint_row_no_dict buttons n setup) as Hnd.
  destruct (mint_row buttons n setup) as [[[buttons' n'] setup'] ok]. simpl in Hrow, Hnd.
  assert (exists again,
            py_iter (match row with VList _ => VList buttons' | _ => row end) = Ret again
            /\ mint_row again m t = (again, m, t, ok)) as (again & Hiter' & Hagain).
  { destruct (is_list row) eqn:Hl.
    - destruct row; try done. by exists buttons'.
    - exists buttons. split; [by destruct row|].
      specialize (Hnd (py_iter_no_dict _ _ Hiter Hl)). injection Hnd as -> _ _.
      exact Hrow. }
  destruct ok.
  - specialize (IH n' setup').
    destruct (mint_rows rows n' setup') as [[[rows' n''] setup''] st]. simpl in *.
    rewrite Hiter' Hagain.
    assert (match match row with VList _ => VList buttons' | _ => row end with
            | VList _ => VList again
            | _ => match row with VList _ => VList buttons' | _ => row end
            end = match row with VList _ => VList buttons' | _ => row end) as ->.
    { destruct row; try done. simpl in Hiter'. by injection Hiter' as <-. }
    by rewrite IH.
  - simpl. rewrite Hiter' Hagain.
    destruct row; try done. simpl in Hiter'. by injection Hiter' as <-.
Qed.

Lemma mint_rows_is_dict rows n setup :
  map is_dict (mint_rows rows n setup).1.1.1 = map is_dict rows.
Proof.
  revert n setup. induction rows as [|row rows IH]; intros n setup; [done|].
  simpl. destruct (py_iter row) as [buttons|e]; [|done].
  destruct (mint_row buttons n setup) as [[[buttons' n'] setup'] ok].
  assert (is_dict (match row with VList _ => VList buttons' | _ => row end)
          = is_dict row) as Hsame by (by destruct row).
  destruct ok.
  - specialize (IH n' setup').
    destruct (mint_rows rows n' setup') as [[[rows' n''] setup''] st]. simpl in *.
    by rewrite Hsame IH.
  - simpl. by rewrite Hsame.
Qed.

Lemma existsb_map_is_dict (l l' : list pyval) :
  map is_dict l' = map is_dict l -> existsb is_dict l' = existsb is_dict l.
Proof.
  revert l'. induction l as [|x l IH]; intros [|x' l']; simpl; try done.
  intros [= -> H]. by rewrite (IH _ H).
Qed.

(** The matrix the first pass leaves is in normal form, and it is the
    normal form of what the caller sees of it. *)
Lemma normalize_denormalize original n setup :
  forall rows,
    py_iter (_normalize_markup original) = Ret rows ->
    let map_' :=
      match _normalize_markup original with
      | VList _ => VList (mint_rows rows n setup).1.1.1
      | _ => _normalize_markup original
      end in
    _normalize_markup (denormalize original map_') = map_'
    /\ denormalize (denormalize original map_') map_' = denormalize original map_'.
Proof.
  intros rows Hrows.
  destruct original as [| | | | |l|d|]; simpl in *; try done.
  - destruct (existsb is_dict l) eqn:Hd; simpl in *.
    + injection Hrows as <-. simpl.
      pose proof (mint_row_is_dict l n setup) as Hsame.
      destruct (mint_row l n setup) as [[[l' n'] setup'] ok]. simpl in Hsame.
      apply existsb_map_is_dict in Hsame. rewrite Hd in Hsame.
      destruct ok; simpl; by rewrite Hsame.
    + injection Hrows as <-.
      pose proof (mint_rows_is_dict l n setup) as Hsame.
      apply existsb_map_is_dict in Hsame. rewrite Hd in Hsame.
      by rewrite Hsame.
  - injection Hrows as <-. simpl.
    by destruct (mint_button d n setup) as [[d' n'] setup'].
Qed.

Lemma registration_returns button :
  dict_in "callback" button = true -> exists reg, registration button = Ret reg.
Proof.
  unfold registration, dict_in, subscript, optional_entry, get_default.
  destruct (dict_get "callback" button); [|done]. intros _. simpl.
  destruct (dict_get "always_allow" button) as [v1|]; simpl;
    [destruct (truthy v1)|]; simpl;
    (destruct (dict_get "args" button) as [v2|]; simpl;
       [destruct (truthy v2)|]; simpl;
       (destruct (dict_get "kwargs" button) as [v3|]; simpl;
          [destruct (truthy v3)|]; simpl;
          (destruct (dict_get "force_me" button) as [v4|]; simpl;
             [destruct (truthy v4)|]; simpl;
             (destruct (dict_get "disable_security" button) as [v5|]; simpl;
                [destruct (truthy v5)|]; simpl; by eexists)))).
Qed.

(** Registration changes neither the control a button yields nor
    whether its translation ends in a [KeyError]. *)
Lemma translate_button_again setup button cm cm2 :
  match translate_button setup button cm with
  | Ret (control, _) => translate_button false button cm2 = Ret (control, cm2)
  | Raise KeyError => translate_button false button cm2 = Raise KeyError
  | Raise _ => True
  end.
Proof.
  destruct setup.
  2: { rewrite (translate_button_no_setup button cm cm2).
       by destruct (translate_button false button cm) as [[control cm']|[]]. }
  unfold translate_button.
  destruct (dict_in "url" button).
  { destruct (subscript button "url") as [url|[]]; simpl; try done.
    destruct (negb (check_url url)); [done|].
    by destruct (subscript button "text") as [text|[]]. }
  destruct (dict_in "callback" button) eqn:Hcb.
  { destruct (registration_returns button Hcb) as [reg ->].
    destruct (subscript button "text") as [text|[]]; simpl; try done.
    destruct (subscript button "_callback_data") as [data|[]]; simpl; try done.
    by destruct data. }
  repeat (match goal with
          | |- context [if ?b then _ else _] => destruct b
          | |- context [subscript ?d ?k] => destruct (subscript d k) as [?|[]]
          | |- context [py_add_str ?v ?s] => destruct (py_add_str v s) as [?|[]]
          end; simpl; try done).
Qed.

Lemma translate_row_again setup row line cm cm2 :
  match translate_row setup row line cm with
  | Built line' _ => translate_row false row line cm2 = Built line' cm2
  | GaveUp _ => translate_row false row line cm2 = GaveUp cm2
  | Failed _ _ => True
  end.
Proof.
  revert line cm. induction row as [|b row IH]; intros line cm; simpl; [done|].
  destruct b; try done.
  pose proof (translate_button_again setup d cm cm2) as Hb.
  destruct (translate_button setup d cm) as [[[control|] cm']|e].
  - rewrite Hb. apply IH.
  - rewrite Hb. apply IH.
  - destruct e; try done. by rewrite Hb.
Qed.

Lemma translate_rows_again setup rows markup cm cm2 :
  match translate_rows setup rows markup cm with
  | Built markup' _ => translate_rows false rows markup cm2 = Built markup' cm2
  | GaveUp _ => translate_rows false rows markup cm2 = GaveUp cm2
  | Failed _ _ => True
  end.
Proof.
  revert markup cm. induction rows as [|row rows IH]; intros markup cm; simpl; [done|].
  destruct (py_iter row) as [buttons|e]; [|done].
  pose proof (translate_row_again setup buttons [] cm cm2) as Hrow.
  destruct (translate_row setup buttons [] cm) as [line cm'|cm'|e cm']; try done.
  - rewrite Hrow. apply IH.
  - by rewrite Hrow.
Qed.

Lemma py_iter_no_list v rows :
  py_iter v = Ret rows -> is_list v = false -> existsb is_list rows = false.
Proof.
  destruct v; simpl; try done; intros [= <-] _.
  - by induction (String.list_ascii_of_string s).
  - by induction (String.list_ascii_of_string s).
  - by induction d.
Qed.

Lemma mint_rows_no_list rows n setup :
  existsb is_list rows = false -> (mint_rows rows n setup).1 = (rows, n, setup).
Proof.
  revert n setup. induction rows as [|row rows IH]; intros n setup; [done|].
  simpl. intros [Hrow Hrows]%orb_false_elim.
  destruct (py_iter row) as [buttons|e] eqn:Hiter; [|done].
  pose proof (mint_row_no_dict buttons n setup (py_iter_no_dict _ _ Hiter Hrow)) as Hnd.
  destruct (mint_row buttons n setup) as [[[buttons' n'] setup'] ok].
  simpl in Hnd. injection Hnd as -> -> ->.
  assert (match row with VList _ => VList buttons | _ => row end = row) as ->
    by (by destruct row).
  destruct ok; [|done].
  specialize (IH n setup Hrows).
  destruct (mint_rows rows n setup) as [[[rows' n''] setup''] st].
  simpl in *. by injection IH as -> -> ->.
Qed.

(** A matrix that has been compiled is compiled again to the same
    value, with no token drawn, no button written and no registration. *)
Lemma compile_matrix_idempotent original n cm r original' n' cm' :
  compile_matrix original n cm = (Ret r, original', n', cm') ->
  forall cm2, compile_matrix original' n' cm2 = (Ret r, original', n', cm2).
Proof.
  unfold compile_matrix.
  destruct (py_iter (_normalize_markup original)) as [rows|e] eqn:Hiter; [|done].
  pose proof (normalize_denormalize original n false rows Hiter) as [Hnorm Hden].
  pose proof (mint_rows_idempotent rows n false) as Hmint.
  pose proof (mint_rows_no_list rows n false) as Hnolist.
  destruct (mint_rows rows n false) as [[[rows' n0] setup] st]. simpl in *.
  set (map_' := match _normalize_markup original with
                | VList _ => VList rows'
                | _ => _normalize_markup original
                end) in *.
  assert (py_iter map_' = Ret rows'
          /\ match map_' with VList _ => VList rows' | _ => map_' end = map_')
    as [Hiter' Hsame].
  { subst map_'. destruct (is_list (_normalize_markup original)) eqn:Hl.
    - by destruct (_normalize_markup original).
    - specialize (Hnolist (py_iter_no_list _ _ Hiter Hl)). injection Hnolist as -> _ _.
      by destruct (_normalize_markup original). }
  intros Hfirst cm2.
  assert (original' = denormalize original map_' /\ n' = n0) as [-> ->].
  { destruct st; [|by injection Hfirst|done].
    by destruct (translate_rows setup rows' [] cm); injection Hfirst. }
  rewrite Hnorm Hiter' Hmint Hsame Hden.
  destruct st; [|by injection Hfirst as <- _|done].
  pose proof (translate_rows_again setup rows' [] cm cm2) as Hagain.
  destruct (translate_rows setup rows' [] cm) as [markup cm0|cm0|e cm0]; [| |done].
  - rewrite Hagain. by injection Hfirst as <- _.
  - rewrite Hagain. by injection Hfirst as <- _.
Qed.

Lemma truthy_dict_set k v d : truthy (VDict (dict_set k v d)) = true.
Proof. destruct d as [|[k' v'] d]; simpl; [done|]. by destruct (String.eqb k k'). Qed.

Lemma truthy_mint_button button n setup :
  truthy (VDict (mint_button button n setup).1.1) = truthy (VDict button).
Proof.
  destruct button as [|kv button]; [done|].
  unfold mint_button.
  destruct (dict_in "callback" _ && negb (dict_in "_callback_data" _));
    destruct (dict_in "input" _ && negb (dict_in "_switch_query" _));
    cbn -[truthy dict_set]; rewrite ?truthy_dict_set //.
Qed.

Lemma truthy_denormalize original n setup rows :
  py_iter (_normalize_markup original) = Ret rows ->
  truthy (denormalize original
            match _normalize_markup original with
            | VList _ => VList (mint_rows rows n setup).1.1.1
            | _ => _normalize_markup original
            end) = truthy original.
Proof.
  intros Hrows.
  destruct original as [| | | | |l|d|]; simpl in *; try done.
  - destruct (existsb is_dict l) eqn:Hd; simpl in *.
    + injection Hrows as <-. simpl.
      pose proof (mint_row_is_dict l n setup) as Hsame.
      destruct (mint_row l n setup) as [[[l' n'] setup'] ok]. simpl in Hsame.
      destruct ok; simpl; by destruct l, l'.
    + injection Hrows as Hrows. subst rows.
      pose proof (mint_rows_is_dict l n setup) as Hsame.
      by destruct l, (mint_rows _ n setup).1.1.1.
  - injection Hrows as <-. simpl.
    pose proof (truthy_mint_button d n setup) as Hm.
    by destruct (mint_button d n setup) as [[d' n'] setup'].
Qed.

Lemma is_str_denormalize original n setup rows :
  py_iter (_normalize_markup original) = Ret rows ->
  is_str (denormalize original
            match _normalize_markup original with
            | VList _ => VList (mint_rows rows n setup).1.1.1
            | _ => _normalize_markup original
            end) = is_str original.
Proof.
  intros Hrows.
  destruct original as [| | | | |l|d|]; simpl in *; try done.
  - destruct (existsb is_dict l) eqn:Hd; simpl in *; [|done].
    injection Hrows as <-. simpl.
    destruct (mint_row l n setup) as [[[l' n'] setup'] ok].
    by destruct ok.
  - injection Hrows as <-. simpl.
    by destruct (mint_button d n setup) as [[d' n'] setup'].
Qed.

(** What [compile_matrix] leaves in place of the matrix is as truthy
    and as much a [str] as the matrix. *)
Lemma compile_matrix_kind original n cm :
  truthy (compile_matrix original n cm).1.1.2 = truthy original
  /\ is_str (compile_matrix original n cm).1.1.2 = is_str original.
Proof.
  unfold compile_matrix.
  destruct (py_iter (_normalize_markup original)) as [rows|e] eqn:Hiter; [|done].
  pose proof (truthy_denormalize original n false rows Hiter) as Ht.
  pose proof (is_str_denormalize original n false rows Hiter) as Hs.
  destruct (mint_rows rows n false) as [[[rows' n'] setup] st]. simpl in *.
  destruct st; try done.
  by destruct (translate_rows _ _ _ _).
Qed.

Lemma lookup_buttons_not_str markup_obj w :
  is_str markup_obj = false -> lookup_buttons markup_obj w = Ret markup_obj.
Proof. by destruct markup_obj. Qed.

(** After a compile, the matrix the argument names is the one the
    compile left. *)
Lemma lookup_buttons_write_back markup_obj original original' w :
  lookup_buttons markup_obj w = Ret original ->
  is_str original' = is_str original ->
  lookup_buttons (write_back markup_obj original' w).1 (write_back markup_obj original' w).2
  = Ret original'.
Proof.
  unfold lookup_buttons, write_back. intros Hl Hs.
  destruct markup_obj; try (injection Hl as <-; simpl in *; by destruct original').
  destruct (_units w !! s) as [unit|] eqn:Hu; [|done].
  simpl. rewrite lookup_insert_eq. unfold subscript. by rewrite dict_get_set_eq.
Qed.

(** Compiling what a compile has left, in a world that holds the same
    buttons and the same token count, returns the same value and changes
    nothing. *)
Lemma generate_markup_again markup_obj w r markup_obj' w' :
  _generate_markup markup_obj w = (Ret r, markup_obj', w') ->
  forall w'',
    same_compile_state markup_obj' w'' w' ->
    _generate_markup markup_obj' w'' = (Ret r, markup_obj', w'').
Proof.
  unfold _generate_markup.
  destruct (negb (truthy markup_obj)) eqn:Htruthy.
  { intros [= <- <- <-] w'' _. by rewrite Htruthy. }
  destruct (lookup_buttons markup_obj w) as [original|e] eqn:Hlookup; [|done].
  pose proof (compile_matrix_kind original (rand_calls w) (_custom_map w)) as [Hkt Hks].
  pose proof (compile_matrix_idempotent original (rand_calls w) (_custom_map w)) as Hidem.
  destruct (compile_matrix original (rand_calls w) (_custom_map w))
    as [[[r1 original'] n] cm]. simpl in Hkt, Hks.
  pose proof (lookup_buttons_write_back markup_obj original original' w Hlookup Hks)
    as Hafter.
  assert (truthy (write_back markup_obj original' w).1 = truthy markup_obj) as Htr.
  { unfold write_back. destruct markup_obj; try done; simpl in Hlookup;
      try (injection Hlookup as <-; by rewrite Hkt).
    by destruct (_units w !! s). }
  destruct (write_back markup_obj original' w) as [m1 w1]. simpl in Hafter, Htr.
  intros [= -> <- <-] w'' [Hrand Hsame].
  rewrite Htr Htruthy.
  assert (lookup_buttons m1 w'' = Ret original') as Hl''.
  { rewrite Hsame -Hafter. by destruct m1. }
  rewrite Hl''. simpl in Hrand. rewrite Hrand.
  rewrite (Hidem r original' n cm eq_refl (_custom_map w'')).
  rewrite (write_back_unchanged _ _ _ Hl'').
  by rewrite -Hrand set_rand_calls_id set_custom_map_id.
Qed.

Lemma same_compile_state_refl markup_obj w : same_compile_state markup_obj w w.
Proof. done. Qed.

Lemma is_list_denormalize original n setup rows :
  py_iter (_normalize_markup original) = Ret rows ->
  is_list (denormalize original
             match _normalize_markup original with
             | VList _ => VList (mint_rows rows n setup).1.1.1
             | _ => _normalize_markup original
             end) = is_list original.
Proof.
  intros Hrows.
  destruct original as [| | | | |l|d|]; simpl in *; try done.
  - destruct (existsb is_dict l) eqn:Hd; simpl in *; [|done].
    injection Hrows as <-. simpl.
    destruct (mint_row l n setup) as [[[l' n'] setup'] ok].
    by destruct ok.
  - injection Hrows as <-. simpl.
    by destruct (mint_button d n setup) as [[d' n'] setup'].
Qed.

Lemma compile_matrix_is_list original n cm :
  is_list (compile_matrix original n cm).1.1.2 = is_list original.
Proof.
  unfold compile_matrix.
  destruct (py_iter (_normalize_markup original)) as [rows|e] eqn:Hiter; [|done].
  pose proof (is_list_denormalize original n false rows Hiter) as Hl.
  destruct (mint_rows rows n false) as [[[rows' n'] setup] st]. simpl in *.
  destruct st; try done.
  by destruct (translate_rows _ _ _ _).
Qed.

(** A value that is neither a list nor a dict holds no button. *)
Lemma compile_matrix_immutable original n cm :
  is_list original = false -> is_dict original = false ->
  (compile_matrix original n cm).1.1.2 = original.
Proof.
  intros Hl Hd. unfold compile_matrix.
  destruct (py_iter (_normalize_markup original)) as [rows|e]; [|done].
  destruct (mint_rows rows n false) as [[[rows' n'] setup] st].
  assert (forall x, denormalize original x = original) as Hden
    by (by destruct original).
  rewrite Hden. destruct st; try done.
  by destruct (translate_rows _ _ _ _).
Qed.

Lemma generate_markup_argument markup_obj w :
  is_list (_generate_markup markup_obj w).1.2 = is_list markup_obj
  /\ (is_list markup_obj = false -> is_dict markup_obj = false ->
      (_generate_markup markup_obj w).1.2 = markup_obj).
Proof.
  unfold _generate_markup.
  destruct (negb (truthy markup_obj)); [done|].
  destruct (lookup_buttons markup_obj w) as [original|e] eqn:Hlookup; [|done].
  pose proof (compile_matrix_is_list original (rand_calls w) (_custom_map w)) as Hl.
  pose proof (compile_matrix_immutable original (rand_calls w) (_custom_map w)) as Him.
  destruct (compile_matrix _ _ _) as [[[r original'] n] cm]. simpl in *.
  unfold write_back.
  destruct markup_obj; simpl in *;
    try (injection Hlookup as <-; split; [done|by intros; apply Him]).
  by destruct (_units w !! s).
Qed.

(** Only a [str] argument reaches the unit store. *)
Lemma generate_markup_units markup_obj w :
  is_str markup_obj = false -> _units (_generate_markup markup_obj w).2 = _units w.
Proof.
  intros Hs. unfold _generate_markup.
  destruct (negb (truthy markup_obj)); [done|].
  destruct (lookup_buttons markup_obj w) as [original|e]; [|done].
  destruct (compile_matrix _ _ _) as [[[r original'] n] cm].
  unfold write_back. by destruct markup_obj.
Qed.

(** A unit whose stored buttons are the argument itself, and hold no
    button, keeps them. *)
Lemma generate_markup_buttons_kept markup_obj uid w :
  field "buttons" uid w = Some (Some markup_obj) ->
  is_list markup_obj = false -> is_dict markup_obj = false ->
  field "buttons" uid (_generate_markup markup_obj w).2 = Some (Some markup_obj).
Proof.
  intros Hf Hl Hd. unfold _generate_markup.
  destruct (negb (truthy markup_obj)); [done|].
  destruct (lookup_buttons markup_obj w) as [original|e] eqn:Hlookup; [|done].
  pose proof (compile_matrix_immutable original (rand_calls w) (_custom_map w)) as Him.
  destruct (compile_matrix _ _ _) as [[[r original'] n] cm]. simpl in Him.
  unfold write_back. destruct markup_obj; try done. simpl in Hlookup.
  destruct (_units w !! s) as [unit|] eqn:Hu; [|done].
  unfold field in *. simpl.
  destruct (decide (s = uid)) as [->|Hne].
  - rewrite lookup_insert_eq. simpl. rewrite dict_get_set_eq.
    rewrite Hu in Hf. simpl in Hf. injection Hf as Hf.
    unfold subscript in Hlookup. rewrite Hf in Hlookup. injection Hlookup as <-.
    by rewrite Him.
  - by rewrite lookup_insert_ne.
Qed.

Lemma rand_calls_write_back markup_obj original w :
  rand_calls (write_back markup_obj original w).2 = rand_calls w.
Proof. unfold write_back. by repeat case_match. Qed.


(** ** Buttons with several kind keys *)

Lemma mint_button_get k button n setup :
  k <> "_callback_data" -> k <> "_switch_query" ->
  dict_get k (mint_button button n setup).1.1 = dict_get k button.
Proof.
  intros H1 H2. unfold mint_button.
  destruct (dict_in "callback" button && negb (dict_in "_callback_data" button)).
  - destruct (dict_in "input" _ && negb (dict_in "_switch_query" _)); simpl;
      rewrite ?dict_get_set_ne //.
  - destruct (dict_in "input" _ && negb (dict_in "_switch_query" _)); simpl;
      rewrite ?dict_get_set_ne //.
Qed.

Lemma translate_button_url setup button cm url :
  dict_get "url" button = Some url ->
  translate_button setup button cm =
  if check_url url
  then (text <~ subscript button "text" ;; Ret (Some (Button_url text url), cm))
  else Ret (None, cm).
Proof.
  intros Hurl. unfold translate_button, dict_in, subscript. rewrite Hurl. simpl.
  destruct (check_url url); simpl; [|done].
  by destruct (dict_get "text" button).
Qed.

Lemma translate_rows_gave_up setup button rest rows markup cm :
  translate_button setup button cm = Raise KeyError ->
  translate_rows setup (VList (VDict button :: rest) :: rows) markup cm = GaveUp cm.
Proof. intros H. simpl. by rewrite H. Qed.

Lemma translate_button_textless setup d cm :
  textless_button (VDict d) = true -> translate_button setup d cm = Raise KeyError.
Proof.
  unfold textless_button, translate_button, dict_in, subscript. simpl.
  destruct (dict_get "text" d); [done|]. simpl.
  destruct (dict_get "url" d) as [url|]; simpl.
  { by intros ->. }
  repeat (match goal with
          | |- context [dict_get ?k d] => destruct (dict_get k d)
          end; simpl; try done).
Qed.

Lemma mint_button_textless d n setup :
  textless_button (VDict (mint_button d n setup).1.1) = textless_button (VDict d).
Proof.
  unfold textless_button, dict_in. simpl. by rewrite !mint_button_get.
Qed.

Lemma mint_row_textless row n setup :
  existsb textless_button (mint_row row n setup).1.1.1 = existsb textless_button row.
Proof.
  revert n setup. induction row as [|b row IH]; intros n setup; [done|].
  destruct b; try done. cbn [mint_row].
  pose proof (mint_button_textless d n setup) as Hb.
  destruct (mint_button d n setup) as [[d' n'] setup']. cbn [fst snd] in Hb.
  specialize (IH n' setup').
  destruct (mint_row row n' setup') as [[[row' n''] setup''] ok].
  cbn [fst snd existsb] in *. by rewrite Hb IH.
Qed.

Lemma mint_rows_textless rows n setup :
  has_textless_button (VList (mint_rows rows n setup).1.1.1)
  = has_textless_button (VList rows).
Proof.
  revert n setup. induction rows as [|row rows IH]; intros n setup; simpl; [done|].
  destruct (py_iter row) as [buttons|e] eqn:Hiter; [|done].
  pose proof (mint_row_textless buttons n setup) as Hrow.
  destruct (mint_row buttons n setup) as [[[buttons' n'] setup'] ok]. simpl in Hrow.
  assert (match (match row with VList _ => VList buttons' | _ => row end) with
          | VList l => existsb textless_button l
          | _ => false
          end
          = match row with VList l => existsb textless_button l | _ => false end) as Hr.
  { destruct row; try done. simpl in Hiter. by injection Hiter as <-. }
  destruct ok.
  - specialize (IH n' setup').
    destruct (mint_rows rows n' setup') as [[[rest' n''] setup''] st]. simpl in *.
    by rewrite Hr IH.
  - simpl. by rewrite Hr.
Qed.

Lemma translate_row_textless setup row line cm line' cm' :
  existsb textless_button row = true ->
  translate_row setup row line cm <> Built line' cm'.
Proof.
  revert line cm. induction row as [|b row IH]; intros line cm; simpl; [done|].
  destruct b; try done.
  destruct (textless_button (VDict d)) eqn:Hb.
  - intros _. by rewrite (translate_button_textless _ _ _ Hb).
  - simpl. intros Hrow.
    destruct (translate_button setup d cm) as [[[control|] cm0]|e];
      [by apply IH|by apply IH|by destruct e].
Qed.

Lemma translate_rows_textless setup rows markup cm keyboard cm' :
  has_textless_button (VList rows) = true ->
  translate_rows setup rows markup cm <> Built keyboard cm'.
Proof.
  revert markup cm. induction rows as [|row rows IH]; intros markup cm; simpl; [done|].
  destruct (py_iter row) as [buttons|e] eqn:Hiter; [|done].
  destruct (translate_row setup buttons [] cm) as [line cm0|cm0|e cm0] eqn:Hrow;
    [|done|done].
  intros [H|H]%orb_prop; [|by apply IH].
  destruct row; try done. simpl in Hiter. injection Hiter as <-.
  by apply translate_row_textless in Hrow.
Qed.

(** ** The second pass on buttons with string tokens *)

Lemma mint_button_str_tokens d n setup :
  str_tokens (VDict d) = true ->
  str_tokens (VDict (mint_button d n setup).1.1) = true.
Proof.
  unfold mint_button, str_tokens, get_default.
  destruct (dict_in "callback" d && negb (dict_in "_callback_data" d));
    destruct (dict_in "input" _ && negb (dict_in "_switch_query" _)); simpl;
    dict_simpl; try done.
  - by intros [_ ->]%andb_prop.
  - intros [-> _]%andb_prop. done.
Qed.

(** With string tokens in place the translation of a button raises
    nothing but the [KeyError] of a missing text. *)
Lemma translate_button_str_tokens setup d cm :
  str_tokens (VDict d) = true ->
  tokenized_button (VDict d) = true ->
  if textless_button (VDict d) then translate_button setup d cm = Raise KeyError
  else exists control cm', translate_button setup d cm = Ret (control, cm').
Proof.
  intros Hstr Htok.
  destruct (textless_button (VDict d)) eqn:Ht; [by apply translate_button_textless|].
  apply andb_prop in Hstr as [Hcd Hsq]. apply andb_prop in Htok as [Htc Hti].
  unfold textless_button, kind_keys in Ht. cbn [existsb] in Ht.
  unfold translate_button.
  destruct (dict_in "url" d) eqn:Hurl.
  { unfold dict_in, subscript in *.
    destruct (dict_get "url" d) as [url|]; [|done]. simpl.
    destruct (check_url url); simpl; [|by eauto].
    destruct (dict_get "text" d); simpl in *; [by eauto|done]. }
  assert (dict_get "url" d = None) as Hu.
  { unfold dict_in in Hurl. by destruct (dict_get "url" d). }
  rewrite Hu in Ht.
  destruct (dict_in "callback" d) eqn:Hcb.
  { destruct (registration_returns d Hcb) as [reg Hreg]. rewrite Hreg.
    simpl in Htc. unfold dict_in, subscript, get_default, setitem in *.
    destruct (dict_get "_callback_data" d) as [v|]; [|done].
    destruct v; try done.
    destruct (dict_get "text" d); simpl in *; [|done].
    destruct setup; simpl; by eauto. }
  destruct (dict_in "input" d) eqn:Hin.
  { simpl in Hti. unfold dict_in, subscript, get_default in *.
    destruct (dict_get "_switch_query" d) as [v|]; [|done].
    destruct v; try done.
    destruct (dict_get "text" d); simpl in *; [by eauto|done]. }
  simpl in Ht. unfold dict_in, subscript in *.
  destruct (dict_get "text" d) as [text|]; simpl in *.
  - repeat (match goal with
            | |- context [dict_get ?k d] => destruct (dict_get k d)
            end; simpl; try by eauto).
  - repeat (match goal with
            | H : context [dict_get ?k d] |- _ => destruct (dict_get k d)
            end; simpl in *; try done).
    by eauto.
Qed.

Lemma mint_row_str_tokens row n setup :
  forallb str_tokens row = true ->
  (mint_row row n setup).2 = true
  /\ forallb (fun b => str_tokens b && tokenized_button b) (mint_row row n setup).1.1.1
     = true.
Proof.
  revert n setup. induction row as [|b row IH]; intros n setup; [done|].
  cbn [forallb]. intros [Hb Hrow]%andb_prop. destruct b; try done. cbn [mint_row].
  pose proof (mint_button_str_tokens d n setup Hb) as Hs.
  pose proof (mint_button_tokenizes d n setup) as Ht.
  destruct (mint_button d n setup) as [[d' n'] setup']. cbn [fst snd] in Hs, Ht.
  destruct (IH n' setup' Hrow) as [Hok Hall].
  destruct (mint_row row n' setup') as [[[row' n''] setup''] ok].
  cbn [fst snd forallb] in *. by rewrite Hok Hs Ht Hall.
Qed.

Lemma mint_rows_str_tokens rows n setup :
  matrix_of str_tokens (VList rows) = true ->
  (mint_rows rows n setup).2 = Completed
  /\ matrix_of (fun b => str_tokens b && tokenized_button b)
       (VList (mint_rows rows n setup).1.1.1) = true.
Proof.
  revert n setup. induction rows as [|row rows IH]; intros n setup; [done|].
  cbn [matrix_of forallb]. intros [Hrow Hrows]%andb_prop.
  destruct row as [| | | | |l| |]; try done. cbn [mint_rows py_iter].
  destruct (mint_row_str_tokens l n setup Hrow) as [Hok Hall].
  destruct (mint_row l n setup) as [[[l' n'] setup'] ok]. cbn [fst snd] in Hok, Hall.
  subst ok.
  destruct (IH n' setup' Hrows) as [Hst Hm].
  destruct (mint_rows rows n' setup') as [[[rows' n''] setup''] st].
  cbn [fst snd matrix_of forallb] in *. by rewrite Hst Hall Hm.
Qed.

Lemma translate_row_str_tokens setup row line cm :
  forallb (fun b => str_tokens b && tokenized_button b) row = true ->
  match translate_row setup row line cm with
  | Built _ _ => existsb textless_button row = false
  | GaveUp _ => existsb textless_button row = true
  | Failed _ _ => False
  end.
Proof.
  revert line cm. induction row as [|b row IH]; intros line cm; [done|].
  cbn [forallb]. intros [[Hs Ht]%andb_prop Hrow]%andb_prop.
  destruct b; try done. cbn [translate_row existsb].
  pose proof (translate_button_str_tokens setup d cm Hs Ht) as Hb.
  destruct (textless_button (VDict d)).
  - by rewrite Hb.
  - destruct Hb as (control & cm' & ->). simpl.
    destruct control; by apply IH.
Qed.

Lemma translate_rows_str_tokens setup rows markup cm :
  matrix_of (fun b => str_tokens b && tokenized_button b) (VList rows) = true ->
  match translate_rows setup rows markup cm with
  | Built _ _ => has_textless_button (VList rows) = false
  | GaveUp _ => has_textless_button (VList rows) = true
  | Failed _ _ => False
  end.
Proof.
  revert markup cm. induction rows as [|row rows IH]; intros markup cm; [done|].
  cbn [matrix_of forallb]. intros [Hrow Hrows]%andb_prop.
  destruct row as [| | | | |l| |]; try done.
  cbn [translate_rows py_iter has_textless_button existsb].
  pose proof (translate_row_str_tokens setup l [] cm Hrow) as Hl.
  destruct (translate_row setup l [] cm) as [line cm0|cm0|e cm0]; [|by rewrite Hl|done].
  rewrite Hl. simpl. by apply IH.
Qed.

(** On a matrix of buttons with string tokens the compile returns
    [False] when a button that calls for a control has no text, and a
    keyboard otherwise. *)
Lemma generate_markup_key_error markup_obj original w :
  truthy markup_obj = true ->
  lookup_buttons markup_obj w = Ret original ->
  matrix_of str_tokens (_normalize_markup original) = true ->
  (has_textless_button (_normalize_markup original) = true ->
   (_generate_markup markup_obj w).1.1 = Ret MarkupFalse)
  /\ (has_textless_button (_normalize_markup original) = false ->
      exists keyboard,
        (_generate_markup markup_obj w).1.1 = Ret (InlineKeyboardMarkup keyboard)).
Proof.
  intros Htruthy Hlookup Hm. unfold _generate_markup.
  rewrite Htruthy Hlookup. simpl negb. cbv iota. unfold compile_matrix.
  destruct (_normalize_markup original) as [| | | | |rows| |] eqn:Hnorm; try done.
  simpl py_iter. cbv iota.
  destruct (mint_rows_str_tokens rows (rand_calls w) false Hm) as [Hst Hm'].
  pose proof (mint_rows_textless rows (rand_calls w) false) as Htl.
  destruct (mint_rows rows (rand_calls w) false) as [[[rows' n'] setup] st].
  cbn [fst snd] in Hst, Hm', Htl. subst st.
  pose proof (translate_rows_str_tokens setup rows' [] (_custom_map w) Hm') as Htr.
  destruct (translate_rows setup rows' [] (_custom_map w)) as [markup cm'|cm'|e cm'];
    [| |done]; rewrite Htl in Htr; rewrite Htr; destruct (write_back _ _ _);
    split; try done.
  intros _. by eexists.
Qed.

(** C9, as the code has it.  A button with both [url] and [callback] is
    not rejected.  The [url] test is the first of the [if]/[elif] chain:
    when the button has a text, its translation is the url control if
    [check_url] accepts the url and nothing otherwise, the registry is
    not written, and the row goes on with the remaining buttons; compiled
    on its own the button yields a keyboard.  A [KeyError] raised by the
    translation of a button ends the second pass with [return False]:
    on buttons whose tokens are strings the translation raises
    [KeyError] exactly for a button that calls for a control and has no
    text, and a matrix of such buttons compiles to [False] when it holds
    a button of that kind and to a keyboard when it holds none. *)
Theorem url_with_callback_is_compiled_as_url setup button text url cm rest line w :
  dict_get "url" button = Some url ->
  dict_in "callback" button = true ->
  dict_get "text" button = Some text ->
  let controls := if check_url url then [Button_url text url] else [] in
  translate_button setup button cm = Ret (head controls, cm)
  /\ translate_row setup (VDict button :: rest) line cm
     = translate_row setup rest (line ++ controls) cm
  /\ (_generate_markup (VDict button) w).1.1 = Ret (InlineKeyboardMarkup [controls])
  /\ _custom_map (_generate_markup (VDict button) w).2 = _custom_map w
  /\ (forall button' rest' rows markup,
        translate_button setup button' cm = Raise KeyError ->
        translate_row setup (VDict button' :: rest') line cm = GaveUp cm
        /\ translate_rows setup (VList (VDict button' :: rest') :: rows) markup cm
           = GaveUp cm)
  /\ (forall d,
        str_tokens (VDict d) = true -> tokenized_button (VDict d) = true ->
        (translate_button setup d cm = Raise KeyError
         <-> textless_button (VDict d) = true))
  /\ (forall markup_obj original,
        truthy markup_obj = true ->
        lookup_buttons markup_obj w = Ret original ->
        matrix_of str_tokens (_normalize_markup original) = true ->
        (has_textless_button (_normalize_markup original) = true ->
         (_generate_markup markup_obj w).1.1 = Ret MarkupFalse)
        /\ (has_textless_button (_normalize_markup original) = false ->
            exists keyboard,
              (_generate_markup markup_obj w).1.1
              = Ret (InlineKeyboardMarkup keyboard))).
Proof.
  intros Hurl Hcb Htext controls.
  assert (translate_button setup button cm = Ret (head controls, cm)) as Hb.
  { rewrite (translate_button_url _ _ _ _ Hurl). unfold subscript, controls.
    rewrite Htext. by destruct (check_url url). }
  split; [done|]. split.
  { simpl. rewrite Hb. unfold controls.
    destruct (check_url url); simpl; [done|by rewrite app_nil_r]. }
  assert (forall n s0 cm0,
    translate_button (mint_button button n s0).2 (mint_button button n s0).1.1 cm0
    = Ret (head controls, cm0)) as Hminted.
  { intros n s0 cm0.
    rewrite (translate_button_url _ _ _ url); [|by rewrite mint_button_get].
    unfold subscript, controls. rewrite mint_button_get // Htext.
    by destruct (check_url url). }
  assert (_generate_markup (VDict button) w
          = (Ret (InlineKeyboardMarkup [controls]),
             VDict (mint_button button (rand_calls w) false).1.1,
             set_rand_calls (mint_button button (rand_calls w) false).1.2 w)) as Heq.
  { unfold _generate_markup, compile_matrix.
    assert (truthy (VDict button) = true) as -> by (by destruct button).
    simpl. specialize (Hminted (rand_calls w) false (_custom_map w)).
    destruct (mint_button button (rand_calls w) false) as [[button' n'] setup'].
    simpl in *. rewrite Hminted. unfold controls.
    destruct (check_url url); simpl; by destruct w. }
  rewrite Heq. split; [done|]. split; [done|]. split; [|split].
  - intros button' rest' rows markup Hraise. split.
    + simpl. by rewrite Hraise.
    + by apply translate_rows_gave_up.
  - intros d Hs Ht.
    pose proof (translate_button_str_tokens setup d cm Hs Ht) as Hd.
    destruct (textless_button (VDict d)); split; try done.
    intros H. destruct Hd as (control & cm' & Hd). by rewrite Hd in H.
  - intros markup_obj original. apply generate_markup_key_error.
Qed.

(** ** Unit lifecycle *)

Lemma except_Exception_caught e w r :
  is_Exception e = true -> except_Exception (Raise e, w) r = (Ret r, w).
Proof. intros H. unfold except_Exception. by rewrite H. Qed.

Lemma _unload_unit_absent unit_uid w :
  units_getitem unit_uid w = Raise KeyError ->
  _unload_unit unit_uid w = (Ret (VBool false), w).
Proof.
  intros H. unfold _unload_unit, run_on_unload. by rewrite H.
Qed.

(** [_unload_unit] lets no [Exception] through. *)
Lemma _unload_unit_raises unit_uid w e w' :
  _unload_unit unit_uid w = (Raise e, w') -> is_Exception e = false.
Proof.
  unfold _unload_unit, except_Exception.
  destruct (run_on_unload unit_uid w) as [[v|e0] w0].
  - destruct (remove_unit unit_uid w0) as [[v'|e1] w1] eqn:Hr; [done|].
    unfold remove_unit in Hr. by repeat case_match.
  - destruct (is_Exception e0) eqn:He; [done|]. by intros [= <- _].
Qed.

Lemma _unload_unit_hook_raises unit_uid w unit f e w' :
  units_getitem unit_uid w = Ret unit ->
  dict_get "on_unload" unit = Some (VFunc f) ->
  call f (emit (hook_call f) w) = (Raise e, w') ->
  is_Exception e = true ->
  _unload_unit unit_uid w = (Ret (VBool false), w').
Proof.
  intros Hunit Hhook Hcall He.
  unfold _unload_unit, run_on_unload, dict_in, subscript.
  rewrite Hunit Hhook Hcall. by apply except_Exception_caught.
Qed.

(** C4, as the code has it.  Unloading a uid that is not in the store
    returns [False] and raises nothing.  When the unit is present and
    its teardown hook raises an exception, [_unload_unit] returns [False]
    without reaching the [del]: the world is the one the hook left, so a
    unit the hook did not remove itself is still in the store. *)
Theorem unload_unit_failure unit_uid w :
  (units_getitem unit_uid w = Raise KeyError ->
   _unload_unit unit_uid w = (Ret (VBool false), w))
  /\ (forall unit f e w',
        units_getitem unit_uid w = Ret unit ->
        dict_get "on_unload" unit = Some (VFunc f) ->
        call f (emit (hook_call f) w) = (Raise e, w') ->
        is_Exception e = true ->
        _unload_unit unit_uid w = (Ret (VBool false), w')
        /\ (_units w' = _units w ->
            units_getitem unit_uid (_unload_unit unit_uid w).2 = Ret unit)).
Proof.
  split; [apply _unload_unit_absent|].
  intros unit f e w' Hunit Hhook Hcall He.
  rewrite (_unload_unit_hook_raises _ _ _ _ _ _ Hunit Hhook Hcall He).
  split; [done|]. simpl. intros Hsame.
  unfold units_getitem in *. by rewrite Hsame.
Qed.

(** A unit without a callable hook is removed, and [True] returned. *)
Theorem unload_unit_removes uid w unit :
  _units w !! uid = Some unit ->
  callable (get_default unit "on_unload" VNone) = false ->
  _unload_unit (Some uid) w = (Ret (VBool true), set_units (delete uid (_units w)) w)
  /\ _units (_unload_unit (Some uid) w).2 !! uid = None.
Proof.
  intros Hu Hc.
  assert (_unload_unit (Some uid) w
          = (Ret (VBool true), set_units (delete uid (_units w)) w)) as ->.
  { unfold _unload_unit, run_on_unload, units_getitem, dict_in, subscript, get_default in *.
    rewrite Hu. destruct (dict_get "on_unload" unit) as [v|]; simpl.
    - destruct v; try done; simpl; by rewrite Hu.
    - by rewrite Hu. }
  split; [done|]. simpl. apply lookup_delete_eq.
Qed.

Lemma elem_of_trace_emit ev ev' w :
  ev ∈ trace (emit ev' w) -> ev = ev' \/ ev ∈ trace w.
Proof.
  simpl. intros [H|H]%elem_of_app; [by right|].
  apply list_elem_of_singleton in H. by left.
Qed.

Lemma _delete_unit_message_deleted s unit_uid w unit chat message_id :
  head s = None \/ head s = Some None ->
  units_getitem unit_uid w = Ret unit ->
  dict_get "chat" unit = Some chat ->
  dict_get "message_id" unit = Some message_id ->
  _delete_unit_message s unit_uid w =
  (match (_unload_unit unit_uid (emit (delete_messages chat message_id) w)).1 with
   | Ret _ => Ret (VBool true)
   | Raise e => Raise e
   end,
   (_unload_unit unit_uid (emit (delete_messages chat message_id) w)).2).
Proof.
  intros Hs Hunit Hchat Hmsg.
  unfold _delete_unit_message, subscript. rewrite Hunit. simpl.
  rewrite Hchat Hmsg. simpl.
  assert (match s with
          | Some e :: _ => (Raise e, emit (delete_messages chat message_id) w)
          | _ =>
              match _unload_unit unit_uid (emit (delete_messages chat message_id) w) with
              | (Raise e, w0) => (Raise e, w0)
              | (Ret _, w0) => (Ret (VBool true), w0)
              end
          end
          = match _unload_unit unit_uid (emit (delete_messages chat message_id) w) with
            | (Raise e, w0) => (Raise e, w0)
            | (Ret _, w0) => (Ret (VBool true), w0)
            end) as ->.
  { destruct s as [|[e|] s]; simpl in Hs; try done. by destruct Hs. }
  destruct (_unload_unit unit_uid _) as [[v|e] w0] eqn:Hun; simpl; [done|].
  apply _unload_unit_raises in Hun. unfold except_Exception. by rewrite Hun.
Qed.

(** C5.  [_delete_unit_message] unloads only after the remote delete.
    When [delete_messages] fails, the stores are what they were, so the
    unit is still present, and no teardown hook has run: [_unload_unit]
    is not attempted; the call returns [False] when the failure is an
    [Exception].  When the remote delete returns, [_unload_unit] runs
    next, on the world the delete left. *)
Theorem delete_unit_message_unloads_after_delete unit_uid w :
  (forall e rest,
     exists w',
       (_delete_unit_message (Some e :: rest) unit_uid w).2 = w'
       /\ (is_Exception e = true ->
           _delete_unit_message (Some e :: rest) unit_uid w = (Ret (VBool false), w'))
       /\ _units w' = _units w
       /\ _custom_map w' = _custom_map w
       /\ (forall f, hook_call f ∈ trace w' -> hook_call f ∈ trace w))
  /\ (forall s unit chat message_id,
        head s = None \/ head s = Some None ->
        units_getitem unit_uid w = Ret unit ->
        dict_get "chat" unit = Some chat ->
        dict_get "message_id" unit = Some message_id ->
        let unloaded := _unload_unit unit_uid (emit (delete_messages chat message_id) w) in
        _delete_unit_message s unit_uid w =
        (match unloaded.1 with Ret _ => Ret (VBool true) | Raise e => Raise e end,
         unloaded.2)).
Proof.
  split.
  2: { intros s unit chat message_id Hs Hunit Hchat Hmsg unloaded.
       by apply (_delete_unit_message_deleted s unit_uid w unit). }
  intros e rest. unfold _delete_unit_message.
  destruct (unit <~ units_getitem unit_uid w ;; _) as [request|e0] eqn:Hreq.
  - exists (emit request w). unfold except_Exception.
    split; [by destruct (is_Exception e)|].
    split; [by intros ->|]. repeat split; try done.
    intros f [H|H]%elem_of_trace_emit; [|done].
    subst request. unfold obind in Hreq. repeat case_match; simplify_eq.
  - exists w. unfold except_Exception.
    assert (e0 = KeyError) as ->.
    { unfold obind, units_getitem, subscript in Hreq. by repeat case_match; simplify_eq. }
    done.
Qed.

(** [_delete_unit_message] ignores what [_unload_unit] returns: when the
    remote delete succeeds and the teardown hook raises, it returns
    [True] although the unit has not been removed. *)
Theorem delete_unit_message_ignores_unload s unit_uid w unit chat message_id f e w' :
  head s = None \/ head s = Some None ->
  units_getitem unit_uid w = Ret unit ->
  dict_get "chat" unit = Some chat ->
  dict_get "message_id" unit = Some message_id ->
  dict_get "on_unload" unit = Some (VFunc f) ->
  call f (emit (hook_call f) (emit (delete_messages chat message_id) w)) = (Raise e, w') ->
  is_Exception e = true ->
  _delete_unit_message s unit_uid w = (Ret (VBool true), w')
  /\ (_units w' = _units w -> units_getitem unit_uid w' = Ret unit).
Proof.
  intros Hs Hunit Hchat Hmsg Hhook Hcall He.
  rewrite (_delete_unit_message_deleted _ _ _ _ _ _ Hs Hunit Hchat Hmsg).
  rewrite (_unload_unit_hook_raises unit_uid
             (emit (delete_messages chat message_id) w) unit f e w' Hunit Hhook Hcall He).
  split; [done|]. intros Hsame. unfold units_getitem in *. by rewrite Hsame.
Qed.

(** ** [_edit_unit]: validation *)

Lemma _edit_unit_unfold s a w :
  _edit_unit s a w =
  match prepare a w with
  | (Stop r, w) => (r, w)
  | (Go fr, w) =>
      match request fr w with
      | (Raise e, _, w) => (Raise e, w)
      | (Ret call, fr, w) => after_request a fr call s (emit call w)
      end
  end.
Proof. by destruct s. Qed.

Lemma validate_with_reply_markup v a : validate (with_reply_markup v a) = validate a.
Proof. done. Qed.

Lemma edit_stopped_by_validation s a w r :
  validate a = Some r -> _edit_unit s a w = (r, w).
Proof.
  intros H. rewrite _edit_unit_unfold. unfold prepare.
  by rewrite validate_with_reply_markup H.
Qed.

(** The exclusivity check is the last of the validation: with two media
    parameters set the call ends there or earlier, and nothing has been
    sent or stored.  It ends with [False], unless [file] is truthy and
    line 263 is reached. *)
Lemma validate_exclusive a :
  1 < count_False (media_params a) ->
  exists r,
    validate a = Some r
    /\ (r = Ret (VBool false) \/ r = Raise TypeError)
    /\ (truthy (file a) = false -> r = Ret (VBool false)).
Proof.
  intros Hcount. apply Nat.ltb_lt in Hcount. unfold validate.
  rewrite Hcount. unfold isinstance_str_bytes_BytesIO.
  destruct (negb (is_str (text a))); [by eauto|].
  destruct (invalid_url (photo a)); [by eauto|].
  destruct (invalid_url (gif a)); [by eauto|].
  destruct (truthy (file a)); simpl.
  - eexists. split; [done|]. split; [by right|done].
  - destruct (invalid_url (video a)); [by eauto|].
    destruct (invalid_url (audio a)); by eauto.
Qed.

Lemma edit_exclusive_media s a w :
  1 < count_False (media_params a) ->
  exists r,
    _edit_unit s a w = (r, w)
    /\ (r = Ret (VBool false) \/ r = Raise TypeError)
    /\ (truthy (file a) = false -> r = Ret (VBool false)).
Proof.
  intros H. destruct (validate_exclusive a H) as (r & Hv & Hr).
  exists r. split; [by apply edit_stopped_by_validation|done].
Qed.

(** A truthy [file] never gets past line 263. *)
Lemma edit_file_raises s a w :
  is_str (text a) = true ->
  invalid_url (photo a) = false ->
  invalid_url (gif a) = false ->
  truthy (file a) = true ->
  _edit_unit s a w = (Raise TypeError, w).
Proof.
  intros Ht Hp Hg Hf. apply edit_stopped_by_validation.
  unfold validate. by rewrite Ht Hp Hg Hf.
Qed.

(** Without an explicit or a stored id, [query.inline_message_id] is
    read; with [query=None] this raises [AttributeError]. *)
Lemma edit_without_query_raises s a w :
  validate a = None ->
  truthy (inline_message_id a) = false ->
  truthy (get_default
            (unit_of (update_unit (with_reply_markup (normalize_argument (reply_markup a)) a) w).1
                     (update_unit (with_reply_markup (normalize_argument (reply_markup a)) a) w).2)
            "inline_message_id" (VBool false)) = false ->
  query a = None ->
  (_edit_unit s a w).1 = Raise AttributeError.
Proof.
  intros Hv Hid Hstored Hq. rewrite _edit_unit_unfold. unfold prepare.
  rewrite validate_with_reply_markup Hv.
  destruct (update_unit _ w) as [unit w1]. simpl in Hstored.
  unfold resolve_inline_message_id. simpl. by rewrite Hid Hstored Hq.
Qed.

(** ** [_edit_unit]: the media payload *)

Lemma extension_of_unbound : extension_of None = Ret VNone.
Proof. done. Qed.

(** Whatever [url_extension] computes, a [photo] stays a photo: the
    extension is taken from the unassigned local [media], so it is [None]. *)
Lemma request_photo fr w ev fr' w' :
  is_none (photo (locals fr)) = false ->
  is_none (file (locals fr)) = true ->
  request fr w = (Ret ev, fr', w') ->
  exists markup,
    ev = edit_message_media (inline_message_id (locals fr))
           (InputMediaPhoto (photo (locals fr)) (text (locals fr))) markup.
Proof.
  intros Hp Hf. unfold request, media_params. rewrite Hp. simpl.
  unfold build_media. rewrite Hf Hp. simpl.
  destruct (compile_reply_markup _ w) as [[[markup|e] fr0] w0]; [|done].
  intros [= <- _ _]. by eexists.
Qed.

(** ** [_edit_unit]: what happens to the unit store *)

Lemma field_emit k uid ev w : field k uid (emit ev w) = field k uid w.
Proof. done. Qed.

Lemma field_insert_buttons k uid uid' v unit w :
  k <> "buttons" ->
  _units w !! uid' = Some unit ->
  field k uid (set_units (<[uid' := dict_set "buttons" v unit]> (_units w)) w)
  = field k uid w.
Proof.
  intros Hk Hu. unfold field. simpl.
  destruct (decide (uid' = uid)) as [->|Hne].
  - rewrite lookup_insert_eq Hu. simpl. by rewrite dict_get_set_ne.
  - by rewrite lookup_insert_ne.
Qed.

Lemma field_write_back k uid markup_obj original w :
  k <> "buttons" -> field k uid (write_back markup_obj original w).2 = field k uid w.
Proof.
  intros Hk. unfold write_back. destruct markup_obj; try done.
  destruct (_units w !! s) eqn:Hu; [|done]. by apply field_insert_buttons.
Qed.

Lemma field_generate_markup k uid markup_obj w :
  k <> "buttons" -> field k uid (_generate_markup markup_obj w).2 = field k uid w.
Proof.
  intros Hk. unfold _generate_markup.
  destruct (negb (truthy markup_obj)); [done|].
  destruct (lookup_buttons markup_obj w) as [original|e]; [|done].
  destruct (compile_matrix _ _ _) as [[[r original'] n] cm].
  pose proof (field_write_back k uid markup_obj original' w Hk) as Hwb.
  by destruct (write_back _ _ _) as [markup_obj' w1].
Qed.

Lemma field_compile_reply_markup k uid fr w :
  k <> "buttons" -> field k uid (compile_reply_markup fr w).2 = field k uid w.
Proof.
  intros Hk. unfold compile_reply_markup, generate_markup.
  destruct (is_list (reply_markup (locals fr))).
  - pose proof (field_generate_markup k uid (reply_markup (locals fr)) w Hk) as Hg.
    destruct (_generate_markup _ w) as [[r rm] w1]. simpl in *.
    destruct (unit_ref fr) as [uid'|]; [|done].
    destruct (_units w1 !! uid') eqn:Hu; [|done].
    by rewrite field_insert_buttons.
  - pose proof (field_generate_markup k uid
                  (get_default (unit_of (unit_ref fr) w) "buttons" (VList [])) w Hk) as Hg.
    by destruct (_generate_markup _ w) as [[r rm] w1].
Qed.

Lemma field_request k uid fr w :
  k <> "buttons" -> field k uid (request fr w).2 = field k uid w.
Proof.
  intros Hk. unfold request.
  destruct (forallb id _).
  - pose proof (field_compile_reply_markup k uid fr w Hk) as Hc.
    destruct (compile_reply_markup fr w) as [[[markup|e] fr0] w0]; done.
  - destruct (extension_of None) as [ext|e]; [|done].
    destruct (read_local _) as [media|e]; [|done].
    match goal with
    | |- context [compile_reply_markup ?f w] =>
        pose proof (field_compile_reply_markup k uid f w Hk) as Hc;
        destruct (compile_reply_markup f w) as [[[markup|e] fr0] w0]
    end; done.
Qed.

Lemma field_answer k uid q message suppressed s w :
  field k uid (answer q message suppressed s w).2 = field k uid w.
Proof. unfold answer. by repeat case_match. Qed.

Lemma field_update_unit k uid a w :
  k <> "buttons" ->
  field k uid (update_unit a w).2 =
  if decide (unit_uid a = Some uid) then field_after a k <$> field k uid w
  else field k uid w.
Proof.
  intros Hk. unfold update_unit, field.
  destruct (unit_uid a) as [uid'|]; [|by case_decide].
  destruct (decide (uid' = uid)) as [->|Hne].
  - rewrite decide_True //.
    destruct (_units w !! uid) as [unit|] eqn:Hu; simpl; [|by rewrite Hu].
    rewrite lookup_insert_eq. simpl. f_equal. unfold field_after.
    destruct (String.eqb_spec k "always_allow") as [->|Haa];
      [|destruct (String.eqb_spec k "disable_security") as [->|Hds];
        [|destruct (String.eqb_spec k "force_me") as [->|Hfm]]];
      simpl;
      destruct (is_list (always_allow a)), (is_bool (disable_security a)),
        (is_bool (force_me a)); simpl; by dict_simpl.
  - rewrite decide_False; [|congruence].
    destruct (_units w !! uid') as [unit|] eqn:Hu; simpl; [|done].
    by rewrite lookup_insert_ne.
Qed.

Lemma field_after_idempotent a k old :
  field_after a k (field_after a k old) = field_after a k old.
Proof. unfold field_after. by repeat case_match. Qed.

Lemma field_prepare k uid a w :
  k <> "buttons" ->
  field k uid (prepare a w).2 =
  match validate a with
  | Some _ => field k uid w
  | None =>
      if decide (unit_uid a = Some uid) then field_after a k <$> field k uid w
      else field k uid w
  end.
Proof.
  intros Hk. unfold prepare. rewrite validate_with_reply_markup.
  destruct (validate a); [done|].
  pose proof (field_update_unit k uid
                (with_reply_markup (normalize_argument (reply_markup a)) a) w Hk) as Hu.
  destruct (update_unit _ w) as [unit w1]. simpl in Hu.
  destruct (resolve_inline_message_id _ _) as [id|e]; [|done].
  by destruct (negb (truthy id)).
Qed.

(** Every entry of every unit other than ["buttons"], after the whole
    call, retries included: it is what lines 301-308 made of it when the
    call passed the validation, and what it was otherwise. *)
Lemma field_edit_unit k uid s a w :
  k <> "buttons" ->
  field k uid (_edit_unit s a w).2 =
  match validate a with
  | Some _ => field k uid w
  | None =>
      if decide (unit_uid a = Some uid) then field_after a k <$> field k uid w
      else field k uid w
  end.
Proof.
  intros Hk. revert a w. induction s as [|r s IH]; intros a w.
  all: rewrite _edit_unit_unfold -(field_prepare k uid a w Hk).
  all: destruct (prepare a w) as [[res|fr] w1] eqn:Hprep; [done|].
  all: pose proof (field_request k uid fr w1 Hk) as Hreq.
  all: destruct (request fr w1) as [[[ev|e] fr1] w2]; [|done].
  all: simpl in Hreq; rewrite -Hreq.
  - done.
  - unfold after_request. destruct r as [e|]; [|done].
    destruct e; try done.
    + destruct (is_text_request ev); [|done].
      destruct (query a); [|done]. by rewrite field_answer.
    + rewrite IH. rewrite field_emit field_emit.
      unfold get_kwargs. rewrite validate_with_reply_markup.
      pose proof (field_prepare k uid a w Hk) as Hp.
      rewrite Hprep in Hp. simpl in Hp. rewrite Hreq Hp.
      destruct (validate a); [done|]. simpl.
      destruct (decide (unit_uid a = Some uid)); [|done].
      destruct (field k uid w) as [old|]; simpl; [|done].
      f_equal. exact (field_after_idempotent a k old).
    + by rewrite field_answer.
Qed.

Lemma update_unit_buttons a w uid unit :
  unit_uid a = Some uid ->
  _units w !! uid = Some unit ->
  exists unit',
    _units (update_unit a w).2 !! uid = Some unit'
    /\ dict_get "buttons" unit' = Some (reply_markup a).
Proof.
  intros Huid Hunit. unfold update_unit. rewrite Huid Hunit. simpl.
  rewrite lookup_insert_eq. eexists. split; [done|].
  destruct (is_list (always_allow a)), (is_bool (disable_security a)),
    (is_bool (force_me a)); by dict_simpl.
Qed.

(** ** [_edit_unit]: the request of a retry *)

Lemma lookup_buttons_units markup_obj w w' :
  _units w = _units w' -> lookup_buttons markup_obj w = lookup_buttons markup_obj w'.
Proof. intros H. unfold lookup_buttons. by rewrite H. Qed.

Lemma field_units k uid w w' : _units w = _units w' -> field k uid w = field k uid w'.
Proof. intros H. unfold field. by rewrite H. Qed.

Lemma field_Some_lookup k uid w v :
  field k uid w = Some (Some v) ->
  exists unit, _units w !! uid = Some unit /\ dict_get k unit = Some v.
Proof.
  unfold field. destruct (_units w !! uid) as [unit|]; [|done].
  simpl. intros [= H]. by exists unit.
Qed.

Lemma set_units_insert_same uid unit k v w :
  _units w !! uid = Some unit -> dict_get k unit = Some v ->
  set_units (<[uid := dict_set k v unit]> (_units w)) w = w.
Proof.
  intros Hu Hk. by rewrite (dict_set_same _ _ _ Hk) (insert_id _ _ _ Hu) set_units_id.
Qed.

(** The keyboard of a retry: compiled from what the first compile left,
    it is the same, and neither the frame nor the world changes. *)
Lemma compile_reply_markup_again fr w1 r fr' w2 :
  compile_reply_markup fr w1 = (Ret r, fr', w2) ->
  stored_buttons fr w1 ->
  stored_buttons fr' w2
  /\ unit_ref fr' = unit_ref fr
  /\ locals fr' = with_reply_markup (reply_markup (locals fr')) (locals fr)
  /\ forall w3,
       _units w3 = _units w2 -> rand_calls w3 = rand_calls w2 ->
       compile_reply_markup fr' w3 = (Ret r, fr', w3).
Proof.
  intros Hc [Hstored Hnd]. unfold compile_reply_markup, generate_markup in Hc.
  destruct (is_list (reply_markup (locals fr))) eqn:Hl.
  - pose proof (generate_markup_argument (reply_markup (locals fr)) w1) as [Hl' _].
    pose proof (generate_markup_units (reply_markup (locals fr)) w1) as Hunits.
    pose proof (generate_markup_again (reply_markup (locals fr)) w1) as Hagain.
    destruct (_generate_markup (reply_markup (locals fr)) w1) as [[r0 rm'] wg].
    simpl in Hl', Hunits. rewrite Hl in Hl'.
    specialize (Hunits ltac:(by destruct (reply_markup (locals fr)))).
    assert (is_str rm' = false) as Hns by (by destruct rm').
    assert (is_dict rm' = false) as Hnd' by (by destruct rm').
    injection Hc as -> <- <-. specialize (Hagain r rm' wg eq_refl).
    destruct (unit_ref fr) as [uid|] eqn:Href.
    + destruct (field_Some_lookup _ _ _ _ (Hstored uid eq_refl)) as (unit & Hu & Hb).
      rewrite Hunits Hu.
      assert (field "buttons" uid
                (set_units (<[uid := dict_set "buttons" rm' unit]> (_units w1)) wg)
              = Some (Some rm')) as Hf.
      { unfold field. simpl. rewrite lookup_insert_eq. simpl.
        by rewrite dict_get_set_eq. }
      split; [split; [by intros ? [= <-]|done]|].
      split; [done|]. split; [done|].
      intros w3 Hu3 Hr3. unfold compile_reply_markup, generate_markup. simpl.
      rewrite Hl' Hagain.
      2: { split; [by rewrite Hr3|]. by rewrite !lookup_buttons_not_str. }
      rewrite (field_units _ uid _ _ (eq_sym Hu3)) in Hf.
      destruct (field_Some_lookup _ _ _ _ Hf) as (unit3 & Hu3' & Hb3).
      rewrite Hu3'. by rewrite (set_units_insert_same _ _ _ _ _ Hu3' Hb3).
    + split; [split; [done|done]|]. split; [done|]. split; [done|].
      intros w3 Hu3 Hr3. unfold compile_reply_markup, generate_markup. simpl.
      rewrite Hl' Hagain //.
      split; [by rewrite Hr3|]. by rewrite !lookup_buttons_not_str.
  - set (arg := get_default (unit_of (unit_ref fr) w1) "buttons" (VList [])) in *.
    destruct (unit_ref fr) as [uid|] eqn:Href.
    + destruct (field_Some_lookup _ _ _ _ (Hstored uid eq_refl)) as (unit & Hu & Hb).
      assert (arg = reply_markup (locals fr)) as Harg.
      { subst arg. unfold unit_of, get_default. by rewrite Hu /= Hb. }
      rewrite Harg in Hc |- *. clear arg Harg.
      pose proof (generate_markup_argument (reply_markup (locals fr)) w1) as [_ Him].
      pose proof (generate_markup_buttons_kept (reply_markup (locals fr)) uid w1
                    (Hstored uid eq_refl) Hl Hnd) as Hkept.
      pose proof (generate_markup_again (reply_markup (locals fr)) w1) as Hagain.
      destruct (_generate_markup (reply_markup (locals fr)) w1) as [[r0 rm'] wg].
      simpl in Him, Hkept. specialize (Him Hl Hnd). subst rm'.
      injection Hc as -> <- <-. specialize (Hagain r _ wg eq_refl).
      split; [split; [|done]|].
      { intros uid' Hx. rewrite Href in Hx. by injection Hx as <-. }
      split; [done|]. split; [by destruct fr as [[]]|].
      intros w3 Hu3 Hr3. unfold compile_reply_markup, generate_markup.
      rewrite Hl.
      rewrite (field_units _ uid _ _ (eq_sym Hu3)) in Hkept.
      destruct (field_Some_lookup _ _ _ _ Hkept) as (unit3 & Hu3' & Hb3).
      assert (get_default (unit_of (unit_ref fr) w3) "buttons" (VList [])
              = reply_markup (locals fr)) as ->.
      { rewrite Href. unfold unit_of, get_default. by rewrite Hu3' /= Hb3. }
      rewrite Hagain //.
      split; [by rewrite Hr3|]. by apply lookup_buttons_units.
    + subst arg. simpl in Hc. unfold _generate_markup in Hc. simpl in Hc.
      injection Hc as <- <- <-.
      split; [split; [by rewrite Href|done]|].
      split; [done|]. split; [by destruct fr as [[]]|].
      intros w3 Hu3 Hr3. unfold compile_reply_markup, generate_markup.
      by rewrite Hl Href.
Qed.

(** The request of a retry is the request that was sent. *)
Lemma request_again fr w1 sent fr' w2 :
  request fr w1 = (Ret sent, fr', w2) ->
  stored_buttons fr w1 ->
  stored_buttons fr' w2
  /\ unit_ref fr' = unit_ref fr
  /\ locals fr' = with_reply_markup (reply_markup (locals fr')) (locals fr)
  /\ forall w3,
       _units w3 = _units w2 -> rand_calls w3 = rand_calls w2 ->
       request fr' w3 = (Ret sent, fr', w3).
Proof.
  destruct fr as [a u]. unfold request. simpl locals. simpl unit_ref.
  intros Hreq Hstored.
  assert (forall fr0, locals fr0 = with_reply_markup (reply_markup (locals fr0)) a ->
            media_params (locals fr0) = media_params a
            /\ build_media (locals fr0) = build_media a
            /\ text (locals fr0) = text a
            /\ inline_message_id (locals fr0) = inline_message_id a
            /\ disable_web_page_preview (locals fr0) = disable_web_page_preview a
            /\ photo (locals fr0) = photo a) as Hsame.
  { intros fr0 ->. by repeat split. }
  destruct (forallb id (media_params a)) eqn:Hm.
  - destruct (compile_reply_markup (Frame a u) w1) as [[[markup|e] fr0] w0] eqn:Hc;
      [|done].
    injection Hreq as <- <- <-.
    destruct (compile_reply_markup_again _ _ _ _ _ Hc Hstored)
      as (Hs' & Hu' & Hl' & Hagain).
    split; [done|]. split; [done|]. split; [done|].
    intros w3 Hu3 Hr3. simpl in Hl'.
    destruct (Hsame fr0 Hl') as (-> & _ & -> & -> & -> & _).
    by rewrite Hm (Hagain w3 Hu3 Hr3).
  - simpl in Hreq. rewrite andb_false_r in Hreq.
    destruct (read_local (build_media a)) as [media|e] eqn:Hmedia; [|done].
    destruct (compile_reply_markup (Frame a u) w1) as [[[markup|e] fr0] w0] eqn:Hc;
      [|done].
    injection Hreq as <- <- <-.
    destruct (compile_reply_markup_again _ _ _ _ _ Hc Hstored)
      as (Hs' & Hu' & Hl' & Hagain).
    split; [done|]. split; [done|]. split; [done|].
    intros w3 Hu3 Hr3. simpl in Hl'.
    destruct (Hsame fr0 Hl') as (-> & Hbm & _ & Hid & _ & _).
    rewrite Hm. simpl. rewrite andb_false_r Hbm Hmedia.
    assert (Frame (locals fr0) (unit_ref fr0) = fr0) as -> by (by destruct fr0).
    by rewrite (Hagain w3 Hu3 Hr3) Hid.
Qed.

Lemma is_dict_normalize_argument v : is_dict (normalize_argument v) = false.
Proof.
  unfold normalize_argument. destruct v; simpl; try done.
  by destruct (existsb is_dict l).
Qed.

(** Lines 296-308 on a unit that holds their result already. *)
Lemma update_unit_again a w uref w1 a' w3 :
  update_unit a w = (uref, w1) ->
  (forall v, with_reply_markup v a' = with_reply_markup v a) ->
  (forall k uid, k <> "buttons" -> field k uid w3 = field k uid w1) ->
  (forall uid, uref = Some uid -> field "buttons" uid w3 = Some (Some (reply_markup a'))) ->
  update_unit a' w3 = (uref, w3).
Proof.
  intros Hupd Hsame Hfields Hbuttons.
  pose proof (Hsame VNone) as Hs.
  assert (unit_uid a' = unit_uid a) as Huid by (by injection Hs).
  assert (force_me a' = force_me a) as Hfm by (by injection Hs).
  assert (disable_security a' = disable_security a) as Hds by (by injection Hs).
  assert (always_allow a' = always_allow a) as Haa by (by injection Hs).
  clear Hs.
  assert (forall k uid, k <> "buttons" ->
            field k uid w3 =
            if decide (unit_uid a = Some uid) then field_after a k <$> field k uid w
            else field k uid w) as Hk.
  { intros k uid Hne. rewrite (Hfields k uid Hne) -(field_update_unit k uid a w Hne).
    by rewrite Hupd. }
  unfold update_unit in *. rewrite Huid Hfm Hds Haa.
  destruct (unit_uid a) as [uid|]; [|by injection Hupd as <- _].
  destruct (_units w !! uid) as [unit|] eqn:Hu.
  - injection Hupd as <- _.
    destruct (field_Some_lookup _ _ _ _ (Hbuttons uid eq_refl)) as (unit3 & Hu3 & Hb3).
    rewrite Hu3.
    assert (forall k, k <> "buttons" ->
              dict_get k unit3 = field_after a k (dict_get k unit)) as Hget.
    { intros k Hne. specialize (Hk k uid Hne). unfold field in Hk.
      rewrite Hu3 Hu decide_True // in Hk. by injection Hk. }
    rewrite (dict_set_same _ _ _ Hb3).
    assert ((if is_bool (force_me a) then dict_set "force_me" (force_me a) unit3
             else unit3) = unit3) as ->.
    { destruct (is_bool (force_me a)) eqn:E; [|done]. apply dict_set_same.
      rewrite Hget //. unfold field_after. simpl. by rewrite E. }
    assert ((if is_bool (disable_security a)
             then dict_set "disable_security" (disable_security a) unit3
             else unit3) = unit3) as ->.
    { destruct (is_bool (disable_security a)) eqn:E; [|done]. apply dict_set_same.
      rewrite Hget //. unfold field_after. simpl. by rewrite E. }
    assert ((if is_list (always_allow a)
             then dict_set "always_allow" (always_allow a) unit3
             else unit3) = unit3) as ->.
    { destruct (is_list (always_allow a)) eqn:E; [|done]. apply dict_set_same.
      rewrite Hget //. unfold field_after. simpl. by rewrite E. }
    by rewrite (insert_id _ _ _ Hu3) set_units_id.
  - injection Hupd as <- _.
    specialize (Hk "force_me" uid ltac:(done)). unfold field in Hk.
    rewrite Hu decide_True // in Hk.
    by destruct (_units w3 !! uid).
Qed.

Lemma update_unit_stored a w :
  forall uid,
    (update_unit a w).1 = Some uid ->
    field "buttons" uid (update_unit a w).2 = Some (Some (reply_markup a)).
Proof.
  intros uid. unfold update_unit.
  destruct (unit_uid a) as [uid'|]; [|done].
  destruct (_units w !! uid') as [unit|] eqn:Hu; [|done].
  simpl. intros [= ->]. unfold field. simpl. rewrite lookup_insert_eq. simpl.
  f_equal.
  destruct (is_list (always_allow a)), (is_bool (disable_security a)),
    (is_bool (force_me a)); by dict_simpl.
Qed.

Lemma get_default_field k uid w w' x :
  field k uid w = field k uid w' ->
  get_default (unit_of (Some uid) w) k x = get_default (unit_of (Some uid) w') k x.
Proof.
  unfold field, unit_of, get_default.
  destruct (_units w !! uid), (_units w' !! uid); simpl; try done.
  by intros [= ->].
Qed.

(** A call that got as far as the dispatch. *)
Lemma prepare_Go a w fr w1 :
  prepare a w = (Go fr, w1) ->
  let a_n := with_reply_markup (normalize_argument (reply_markup a)) a in
  validate a = None
  /\ update_unit a_n w = (unit_ref fr, w1)
  /\ resolve_inline_message_id a_n (unit_of (unit_ref fr) w1)
     = Ret (inline_message_id (locals fr))
  /\ truthy (inline_message_id (locals fr)) = true
  /\ locals fr = with_inline_message_id (inline_message_id (locals fr)) a_n
  /\ stored_buttons fr w1.
Proof.
  unfold prepare. rewrite validate_with_reply_markup.
  destruct (validate a); [done|].
  pose proof (update_unit_stored
                (with_reply_markup (normalize_argument (reply_markup a)) a) w) as Hst.
  destruct (update_unit _ w) as [u w0]. simpl in Hst.
  destruct (resolve_inline_message_id _ _) as [id|e] eqn:Hres; [|done].
  destruct (negb (truthy id)) eqn:Hid; [done|].
  intros [= <- <-]. simpl. rewrite Hres.
  apply negb_false_iff in Hid.
  repeat split; try done. apply is_dict_normalize_argument.
Qed.

(** The part before the dispatch, run over on its own result: it
    reaches the dispatch with the same locals and writes nothing. *)
Lemma prepare_again a w fr w1 fr' w3 a' :
  prepare a w = (Go fr, w1) ->
  unit_ref fr' = unit_ref fr ->
  locals fr' = with_reply_markup (reply_markup (locals fr')) (locals fr) ->
  stored_buttons fr' w3 ->
  (forall k uid, k <> "buttons" -> field k uid w3 = field k uid w1) ->
  (forall v, with_reply_markup v a' = with_reply_markup v a) ->
  normalize_argument (reply_markup a') = reply_markup (locals fr') ->
  prepare a' w3 = (Go fr', w3).
Proof.
  intros Hprep Href Hlocals [Hstored _] Hfields Hsame Hnorm.
  destruct (prepare_Go _ _ _ _ Hprep) as (Hv & Hupd & Hres & Hid & Hl & _).
  unfold prepare. rewrite Hnorm Hsame.
  change (validate (with_reply_markup (reply_markup (locals fr')) a)) with (validate a).
  rewrite Hv.
  rewrite (update_unit_again _ _ _ _
             (with_reply_markup (reply_markup (locals fr')) a) w3 Hupd).
  - assert (resolve_inline_message_id
              (with_reply_markup (reply_markup (locals fr')) a)
              (unit_of (unit_ref fr) w3)
            = Ret (inline_message_id (locals fr))) as ->.
    { rewrite -Hres. unfold resolve_inline_message_id. simpl.
      destruct (unit_ref fr) as [uid|]; [|done].
      by rewrite (get_default_field "inline_message_id" uid w3 w1 (VBool false)
                    (Hfields "inline_message_id" uid ltac:(done))). }
    rewrite Hid. simpl. do 2 f_equal.
    destruct fr' as [a1 u1]. simpl in *. subst u1. f_equal.
    rewrite Hlocals Hl. reflexivity.
  - done.
  - done.
  - intros uid Hu. rewrite -Href in Hu. by apply Hstored.
Qed.

Lemma generate_markup_list l w :
  existsb is_dict l = false ->
  (_generate_markup (VList l) w).1.2 = VList (mint_rows l (rand_calls w) false).1.1.1.
Proof.
  intros Hd. unfold _generate_markup.
  destruct l as [|row l]; [done|].
  assert (truthy (VList (row :: l)) = true) as -> by done.
  simpl negb. cbv iota. simpl lookup_buttons. cbv iota. unfold compile_matrix.
  assert (_normalize_markup (VList (row :: l)) = VList (row :: l)) as ->
    by (unfold _normalize_markup; by rewrite Hd).
  simpl py_iter. cbv iota.
  destruct (mint_rows (row :: l) (rand_calls w) false) as [[[rows' n'] setup] st].
  assert (denormalize (VList (row :: l)) (VList rows') = VList rows') as ->
    by (unfold denormalize; by rewrite Hd).
  destruct st; try done.
  by destruct (translate_rows _ _ _ _).
Qed.

(** The arguments of the call, seen after the compile: normalized, they
    are the local [reply_markup]. *)
Lemma compile_reply_markup_kwargs x fr w1 :
  reply_markup (locals fr) = normalize_argument x ->
  normalize_argument
    (denormalize x (reply_markup (locals (compile_reply_markup fr w1).1.2)))
  = reply_markup (locals (compile_reply_markup fr w1).1.2).
Proof.
  intros Hrm. unfold compile_reply_markup, generate_markup. rewrite Hrm.
  destruct (is_list (normalize_argument x)) eqn:Hl.
  2: { destruct (_generate_markup _ w1) as [[r rm] w0]. simpl. rewrite Hrm.
       destruct x; try done. unfold normalize_argument in Hl. simpl in Hl.
       by destruct (existsb is_dict l). }
  pose proof (generate_markup_list) as Hgen.
  destruct x as [| | | | |l|d|]; try done.
  - unfold normalize_argument. simpl is_list. simpl orb. cbv iota.
    unfold _normalize_markup.
    destruct (existsb is_dict l) eqn:Hd.
    + specialize (Hgen [VList l] w1 eq_refl).
      pose proof (mint_row_is_dict l (rand_calls w1) false) as Hsame.
      destruct (_generate_markup (VList [VList l]) w1) as [[r rm] w0].
      simpl in Hgen. subst rm.
      destruct (mint_row l (rand_calls w1) false) as [[[l' n'] setup'] ok].
      simpl in Hsame. apply existsb_map_is_dict in Hsame. rewrite Hd in Hsame.
      destruct ok; simpl; rewrite Hd /= Hsame //.
    + specialize (Hgen l w1 Hd).
      pose proof (mint_rows_is_dict l (rand_calls w1) false) as Hsame.
      apply existsb_map_is_dict in Hsame. rewrite Hd in Hsame.
      destruct (_generate_markup (VList l) w1) as [[r rm] w0].
      simpl in Hgen. subst rm. simpl. by rewrite Hd /= Hsame.
  - specialize (Hgen [VList [VDict d]] w1 eq_refl).
    change (normalize_argument (VDict d)) with (VList [VList [VDict d]]).
    destruct (_generate_markup (VList [VList [VDict d]]) w1) as [[r rm] w0].
    simpl in Hgen. subst rm.
    by destruct (mint_button d (rand_calls w1) false) as [[d' n'] setup'].
Qed.

Lemma request_frame fr w1 :
  (request fr w1).1.2 = fr
  \/ (request fr w1).1.2 = (compile_reply_markup fr w1).1.2.
Proof.
  destruct fr as [a u]. unfold request. simpl locals. simpl unit_ref.
  destruct (forallb id (media_params a)).
  - right. by destruct (compile_reply_markup _ w1) as [[[markup|e] fr0] w0].
  - simpl. rewrite andb_false_r.
    destruct (read_local (build_media a)); [|by left].
    right. by destruct (compile_reply_markup _ w1) as [[[markup|e] fr0] w0].
Qed.

Lemma normalize_argument_denormalize x :
  normalize_argument (denormalize x (normalize_argument x)) = normalize_argument x.
Proof.
  destruct x as [| | | | |l|d|]; try done.
  change (normalize_argument (VList l)) with (_normalize_markup (VList l)).
  by rewrite denormalize_normalize.
Qed.

(** The retry of a call whose request was sent: it passes lines 245-326
    again, writing nothing, and it sends the same request. *)
Lemma edit_retry_request a w fr w1 sent fr' w2 :
  prepare a w = (Go fr, w1) ->
  request fr w1 = (Ret sent, fr', w2) ->
  forall w3,
    _units w3 = _units w2 -> rand_calls w3 = rand_calls w2 ->
    prepare (get_kwargs a fr') w3 = (Go fr', w3)
    /\ request fr' w3 = (Ret sent, fr', w3).
Proof.
  intros Hprep Hreq w3 Hu3 Hr3.
  destruct (prepare_Go _ _ _ _ Hprep) as (_ & _ & _ & _ & Hl & Hstored).
  destruct (request_again _ _ _ _ _ Hreq Hstored) as (Hs' & Hu' & Hl' & Hagain).
  split; [|by apply Hagain].
  apply (prepare_again a w fr w1); try done.
  - destruct Hs' as [Hs' Hd']. split; [|done].
    intros uid Hu. rewrite (field_units _ uid _ _ Hu3). by apply Hs'.
  - intros k uid Hk. rewrite (field_units _ uid _ _ Hu3).
    rewrite -(field_request k uid fr w1 Hk). by rewrite Hreq.
  - unfold get_kwargs. simpl reply_markup.
    assert (reply_markup (locals fr) = normalize_argument (reply_markup a)) as Hrm
      by (by rewrite Hl).
    destruct (request_frame fr w1) as [Hfr|Hfr]; rewrite Hreq in Hfr; simpl in Hfr;
      subst fr'.
    + rewrite Hrm. apply normalize_argument_denormalize.
    + by apply compile_reply_markup_kwargs.
Qed.

(** ** [_edit_unit]: rate limiting *)

Lemma edit_retry_step s a w fr w1 sent fr' w2 timeout :
  prepare a w = (Go fr, w1) ->
  request fr w1 = (Ret sent, fr', w2) ->
  _edit_unit (Some (RetryAfter timeout) :: s) a w
  = _edit_unit s (get_kwargs a fr') (emit (asyncio_sleep timeout) (emit sent w2)).
Proof. intros Hprep Hreq. by rewrite _edit_unit_unfold Hprep Hreq. Qed.

Lemma update_unit_frame a w :
  trace (update_unit a w).2 = trace w
  /\ _custom_map (update_unit a w).2 = _custom_map w
  /\ rand_calls (update_unit a w).2 = rand_calls w.
Proof.
  unfold update_unit. destruct (unit_uid a) as [uid|]; [|done].
  by destruct (_units w !! uid).
Qed.

Lemma prepare_world a w :
  trace (prepare a w).2 = trace w
  /\ _custom_map (prepare a w).2 = _custom_map w
  /\ rand_calls (prepare a w).2 = rand_calls w.
Proof.
  unfold prepare. destruct (validate _); [done|].
  pose proof (update_unit_frame
                (with_reply_markup (normalize_argument (reply_markup a)) a) w) as H.
  destruct (update_unit _ w) as [u w1]. simpl in H.
  destruct (resolve_inline_message_id _ _) as [id|e]; [|done].
  by destruct (negb (truthy id)).
Qed.

(** ** [_edit_unit]: the stored buttons after the dispatch *)

Lemma normalize_argument_no_dict x rows :
  normalize_argument x = VList rows -> existsb is_dict rows = false.
Proof.
  unfold normalize_argument. destruct x as [| | | | |l|d|]; simpl; try done.
  - by intros [= <-].
  - destruct (existsb is_dict l) eqn:E; intros [= <-]; [done|exact E].
  - by intros [= <-].
Qed.

(** The compile of lines 334-338 and 382-386 leaves as the buttons of
    the unit the local [reply_markup] with the tokens written, whether
    it returns or raises. *)
Lemma compile_reply_markup_buttons fr w1 uid :
  stored_buttons fr w1 ->
  unit_ref fr = Some uid ->
  (forall rows, reply_markup (locals fr) = VList rows -> existsb is_dict rows = false) ->
  field "buttons" uid (compile_reply_markup fr w1).2
  = Some (Some (tokens_written (reply_markup (locals fr)) (rand_calls w1))).
Proof.
  intros [Hstored Hnd] Href Hrows. specialize (Hstored uid Href).
  unfold compile_reply_markup, generate_markup. rewrite Href.
  destruct (is_list (reply_markup (locals fr))) eqn:Hl.
  - destruct (reply_markup (locals fr)) as [| | | | |l| |] eqn:Hrm; try done.
    pose proof (generate_markup_list l w1 (Hrows l eq_refl)) as Hgen.
    pose proof (generate_markup_units (VList l) w1 eq_refl) as Hunits.
    destruct (_generate_markup (VList l) w1) as [[r rm'] wg].
    simpl in Hgen, Hunits. subst rm'. rewrite Hunits.
    destruct (field_Some_lookup _ _ _ _ Hstored) as (unit & Hu & Hb).
    rewrite Hu. unfold field. simpl.
    by rewrite lookup_insert_eq /= dict_get_set_eq.
  - assert (get_default (unit_of (Some uid) w1) "buttons" (VList [])
            = reply_markup (locals fr)) as ->.
    { destruct (field_Some_lookup _ _ _ _ Hstored) as (unit & Hu & Hb).
      unfold unit_of, get_default. by rewrite Hu /= Hb. }
    pose proof (generate_markup_buttons_kept (reply_markup (locals fr)) uid w1
                  Hstored Hl Hnd) as Hkept.
    destruct (_generate_markup (reply_markup (locals fr)) w1) as [[r rm'] wg].
    simpl in *. rewrite Hkept. by destruct (reply_markup (locals fr)).
Qed.

Lemma build_media_Some a :
  forallb id (media_params a) = false -> exists media, build_media a = Some media.
Proof.
  unfold media_params, build_media. simpl.
  destruct (is_none (photo a)), (is_none (gif a)), (is_none (file a)),
    (is_none (video a)), (is_none (audio a)); simpl; try done; by eexists.
Qed.

Lemma request_buttons fr w1 uid :
  stored_buttons fr w1 ->
  unit_ref fr = Some uid ->
  (forall rows, reply_markup (locals fr) = VList rows -> existsb is_dict rows = false) ->
  field "buttons" uid (request fr w1).2
  = Some (Some (tokens_written (reply_markup (locals fr)) (rand_calls w1))).
Proof.
  intros Hst Href Hrows.
  pose proof (compile_reply_markup_buttons fr w1 uid Hst Href Hrows) as Hc.
  unfold request. destruct (forallb id (media_params (locals fr))) eqn:Hm.
  - by destruct (compile_reply_markup fr w1) as [[[markup|e] fr0] w0].
  - simpl. rewrite andb_false_r. destruct (build_media_Some _ Hm) as [media ->].
    simpl.
    assert (Frame (locals fr) (unit_ref fr) = fr) as -> by (by destruct fr).
    by destruct (compile_reply_markup fr w1) as [[[markup|e] fr0] w0].
Qed.

Lemma units_answer q message suppressed s w :
  _units (answer q message suppressed s w).2 = _units w.
Proof. unfold answer. by repeat case_match. Qed.

(** After the request nothing writes to the unit store: the query
    answer and the sleep do not, and a retry finds its writes done. *)
Lemma edit_unit_units_after_request s :
  forall a w fr w1 sent fr' w2,
    prepare a w = (Go fr, w1) ->
    request fr w1 = (Ret sent, fr', w2) ->
    _units (_edit_unit s a w).2 = _units w2.
Proof.
  induction s as [|r s IH]; intros a w fr w1 sent fr' w2 Hprep Hreq.
  all: rewrite _edit_unit_unfold Hprep Hreq; unfold after_request.
  - done.
  - destruct r as [e|]; [|done].
    destruct e; try done.
    + destruct (is_text_request sent); [|done].
      destruct (query a); [|done]. by rewrite units_answer.
    + destruct (edit_retry_request a w fr w1 sent fr' w2 Hprep Hreq
                  (emit (asyncio_sleep timeout) (emit sent w2)) eq_refl eq_refl)
        as [Hp Hr].
      by rewrite (IH _ _ _ _ _ _ _ Hp Hr).
    + by rewrite units_answer.
Qed.

Lemma edit_unit_buttons s a w uid unit fr w1 :
  unit_uid a = Some uid ->
  _units w !! uid = Some unit ->
  prepare a w = (Go fr, w1) ->
  field "buttons" uid (_edit_unit s a w).2
  = Some (Some (tokens_written (normalize_argument (reply_markup a)) (rand_calls w))).
Proof.
  intros Huid Hunit Hprep.
  destruct (prepare_Go _ _ _ _ Hprep) as (_ & Hupd & _ & _ & Hl & Hstored).
  assert (unit_ref fr = Some uid) as Href.
  { unfold update_unit in Hupd. simpl in Hupd. rewrite Huid Hunit in Hupd.
    by injection Hupd as <- _. }
  assert (reply_markup (locals fr) = normalize_argument (reply_markup a)) as Hrm
    by (by rewrite Hl).
  assert (rand_calls w1 = rand_calls w) as Hrand.
  { pose proof (prepare_world a w) as (_ & _ & H). by rewrite Hprep in H. }
  pose proof (request_buttons fr w1 uid Hstored Href) as Hreq.
  rewrite Hrm Hrand in Hreq.
  specialize (Hreq (fun rows H => normalize_argument_no_dict _ _ H)).
  destruct (request fr w1) as [[[sent|e] fr'] w2] eqn:Hr.
  - rewrite -Hreq. apply field_units.
    by apply (edit_unit_units_after_request s a w fr w1 sent fr' w2).
  - by rewrite _edit_unit_unfold Hprep Hr.
Qed.

(** C3, as the code has it.  The unit is written at lines 296-308, once
    the validation has passed and before the id is resolved and the
    transport is called.  For an edit of a unit that is in the store:
    a call the validation rejects leaves the world untouched; in every
    case the unit stays in the store, [force_me], [disable_security] and
    [always_allow] change only when the argument is supplied (a [bool], a
    [bool], a [list]) and are then set to it, and every other entry but
    ["buttons"] is kept; a call that passes the validation and then ends
    before the dispatch, as it does with [False] when no
    [inline_message_id] resolves, has nonetheless replaced the stored
    buttons by the normalized [reply_markup]; a call that reaches the
    dispatch leaves as the stored buttons the normalized [reply_markup]
    with the tokens of the compile written into its buttons, whatever
    the transport answers. *)
Theorem edit_unit_store_update s a w uid unit :
  unit_uid a = Some uid ->
  _units w !! uid = Some unit ->
  (validate a <> None -> (_edit_unit s a w).2 = w)
  /\ (exists unit',
        _units (_edit_unit s a w).2 !! uid = Some unit'
        /\ (is_bool (force_me a) = false ->
            dict_get "force_me" unit' = dict_get "force_me" unit)
        /\ (is_bool (disable_security a) = false ->
            dict_get "disable_security" unit' = dict_get "disable_security" unit)
        /\ (is_list (always_allow a) = false ->
            dict_get "always_allow" unit' = dict_get "always_allow" unit)
        /\ (forall k,
              k <> "buttons" -> k <> "force_me" -> k <> "disable_security" ->
              k <> "always_allow" ->
              dict_get k unit' = dict_get k unit)
        /\ (validate a = None ->
            (is_bool (force_me a) = true ->
             dict_get "force_me" unit' = Some (force_me a))
            /\ (is_bool (disable_security a) = true ->
                dict_get "disable_security" unit' = Some (disable_security a))
            /\ (is_list (always_allow a) = true ->
                dict_get "always_allow" unit' = Some (always_allow a))))
  /\ (forall r w1,
        validate a = None ->
        prepare a w = (Stop r, w1) ->
        _edit_unit s a w = (r, w1)
        /\ exists unit',
             _units w1 !! uid = Some unit'
             /\ dict_get "buttons" unit' = Some (normalize_argument (reply_markup a)))
  /\ (forall fr w1,
        prepare a w = (Go fr, w1) ->
        exists unit',
          _units (_edit_unit s a w).2 !! uid = Some unit'
          /\ dict_get "buttons" unit'
             = Some (tokens_written (normalize_argument (reply_markup a))
                       (rand_calls w))).
Proof.
  intros Huid Hunit.
  assert (forall k, k <> "buttons" ->
            dict_get k <$> _units (_edit_unit s a w).2 !! uid =
            match validate a with
            | Some _ => Some (dict_get k unit)
            | None => Some (field_after a k (dict_get k unit))
            end) as Hfield.
  { intros k Hk. pose proof (field_edit_unit k uid s a w Hk) as H.
    unfold field in H. rewrite Hunit in H. simpl in H.
    destruct (validate a); [done|]. by rewrite decide_True in H. }
  split; [|split; [|split]].
  4: { intros fr w1 Hprep. apply field_Some_lookup.
       by apply (edit_unit_buttons s a w uid unit fr w1). }
  - intros Hv. destruct (validate a) as [r|] eqn:E; [|done].
    by rewrite (edit_stopped_by_validation _ _ _ _ E).
  - destruct (_units (_edit_unit s a w).2 !! uid) as [unit'|] eqn:Hu.
    2: { specialize (Hfield "force_me" ltac:(done)).
         by destruct (validate a). }
    exists unit'. split; [done|].
    assert (forall k, k <> "buttons" ->
              dict_get k unit' =
              match validate a with
              | Some _ => dict_get k unit
              | None => field_after a k (dict_get k unit)
              end) as Hget.
    { intros k Hk. specialize (Hfield k Hk). simpl in Hfield.
      destruct (validate a); by injection Hfield. }
    repeat split.
    + intros Hb. rewrite Hget //. unfold field_after. simpl. rewrite Hb.
      by destruct (validate a).
    + intros Hb. rewrite Hget //. unfold field_after. simpl. rewrite Hb.
      by destruct (validate a).
    + intros Hb. rewrite Hget //. unfold field_after. simpl. rewrite Hb.
      by destruct (validate a).
    + intros k H1 H2 H3 H4. rewrite Hget //. unfold field_after.
      destruct (String.eqb_spec k "always_allow"); [done|].
      destruct (String.eqb_spec k "disable_security"); [done|].
      destruct (String.eqb_spec k "force_me"); [done|].
      by destruct (validate a).
    + intros Hb. rewrite Hget // H. unfold field_after. simpl. by rewrite Hb.
    + intros Hb. rewrite Hget // H. unfold field_after. simpl. by rewrite Hb.
    + intros Hb. rewrite Hget // H. unfold field_after. simpl. rewrite Hb.
      by destruct (is_list (always_allow a)).
  - intros r w1 Hv Hprep. split.
    { rewrite _edit_unit_unfold. by rewrite Hprep. }
    unfold prepare in Hprep. rewrite validate_with_reply_markup Hv in Hprep.
    destruct (update_unit_buttons
                (with_reply_markup (normalize_argument (reply_markup a)) a) w uid unit
                Huid Hunit) as (unit' & Hu' & Hb').
    destruct (update_unit _ w) as [unit_ref0 w0]. simpl in Hu'.
    exists unit'.
    destruct (resolve_inline_message_id _ _) as [id|e].
    + destruct (negb (truthy id)); [|done]. by injection Hprep as _ <-.
    + by injection Hprep as _ <-.
Qed.

(** ** [_edit_unit]: the calls a rate-limited edit makes *)

Lemma trace_generate_markup markup_obj w :
  trace (_generate_markup markup_obj w).2 = trace w.
Proof.
  unfold _generate_markup.
  destruct (negb (truthy markup_obj)); [done|].
  destruct (lookup_buttons markup_obj w) as [original|e]; [|done].
  destruct (compile_matrix _ _ _) as [[[r original'] n] cm].
  unfold write_back. destruct markup_obj; try done.
  by destruct (_units w !! s).
Qed.

Lemma trace_compile_reply_markup fr w :
  trace (compile_reply_markup fr w).2 = trace w.
Proof.
  unfold compile_reply_markup, generate_markup.
  destruct (is_list (reply_markup (locals fr))).
  - pose proof (trace_generate_markup (reply_markup (locals fr)) w) as Hg.
    destruct (_generate_markup _ w) as [[r rm] w1]. simpl in *.
    destruct (unit_ref fr) as [uid|]; [|done].
    by destruct (_units w1 !! uid).
  - pose proof (trace_generate_markup
                  (get_default (unit_of (unit_ref fr) w) "buttons" (VList [])) w) as Hg.
    by destruct (_generate_markup _ w) as [[r rm] w1].
Qed.

(** Up to the transport call nothing is sent. *)
Lemma trace_request fr w : trace (request fr w).2 = trace w.
Proof.
  unfold request. destruct (forallb id _).
  - pose proof (trace_compile_reply_markup fr w) as Hc.
    by destruct (compile_reply_markup fr w) as [[[markup|e] fr0] w0].
  - destruct (extension_of None) as [ext|e]; [|done].
    destruct (read_local _) as [media|e]; [|done].
    match goal with
    | |- context [compile_reply_markup ?f w] =>
        pose proof (trace_compile_reply_markup f w) as Hc;
        destruct (compile_reply_markup f w) as [[[markup|e] fr0] w0]
    end; done.
Qed.

Lemma trace_before_request a w fr w1 sent fr' w2 :
  prepare a w = (Go fr, w1) ->
  request fr w1 = (Ret sent, fr', w2) ->
  trace w2 = trace w.
Proof.
  intros Hprep Hreq.
  pose proof (prepare_world a w) as (Hp & _). rewrite Hprep in Hp.
  pose proof (trace_request fr w1) as Hr. rewrite Hreq in Hr.
  simpl in *. by rewrite Hr Hp.
Qed.

(** A call that reaches the dispatch issues its request first, whatever
    follows. *)
Lemma edit_unit_trace_after_request s :
  forall a w fr w1 sent fr' w2,
    prepare a w = (Go fr, w1) ->
    request fr w1 = (Ret sent, fr', w2) ->
    exists after, trace (_edit_unit s a w).2 = trace w2 ++ [sent] ++ after.
Proof.
  induction s as [|r s IH]; intros a w fr w1 sent fr' w2 Hprep Hreq.
  all: rewrite _edit_unit_unfold Hprep Hreq; unfold after_request.
  - by exists [].
  - destruct r as [e|]; [|by exists []].
    destruct e; try (by exists []).
    + destruct (is_text_request sent); [|by exists []].
      destruct (query a); [|by exists []].
      unfold answer. simpl. eexists.
      by destruct s as [|[e|] s]; [| destruct (is_InvalidQueryID e)|]; simpl;
        rewrite -app_assoc.
    + destruct (edit_retry_request a w fr w1 sent fr' w2 Hprep Hreq
                  (emit (asyncio_sleep timeout) (emit sent w2)) eq_refl eq_refl)
        as [Hp Hr].
      destruct (IH _ _ _ _ _ _ _ Hp Hr) as [after Hafter].
      exists (asyncio_sleep timeout :: sent :: after). rewrite Hafter. simpl.
      by rewrite -!app_assoc.
    + unfold answer. destruct (query a); simpl.
      * eexists.
        by destruct s as [|[e|] s]; [| destruct (is_Exception e)|]; simpl;
          rewrite -app_assoc.
      * by exists [].
Qed.

Lemma edit_unit_request_returns s a w fr w1 sent fr' w2 :
  prepare a w = (Go fr, w1) ->
  request fr w1 = (Ret sent, fr', w2) ->
  head s = None \/ head s = Some None ->
  _edit_unit s a w = (Ret VNone, emit sent w2).
Proof.
  intros Hprep Hreq Hs. rewrite _edit_unit_unfold Hprep Hreq. unfold after_request.
  destruct s as [|[e|] s]; simpl in Hs; try done. by destruct Hs.
Qed.

(** C6.  When the transport answers the request of an edit call with
    [RetryAfter timeout], the call sleeps for [timeout], exactly, right
    after the request, and then is the same call over again: the
    arguments of the retry are the arguments of the call (the buttons
    carrying the tokens written into them), it runs on the answers
    that are left, so a further [RetryAfter] repeats this, and what the
    retry returns or raises, and the world it leaves, are those of the
    call.  The retry finds the stores as the first attempt left them,
    writes nothing more before the dispatch, and sends the request that
    was sent.  So the calls the whole edit makes begin with the request,
    the sleep and the same request again; when the transport accepts
    that second request, the edit returns [None] having made these three
    calls and no other. *)
Theorem edit_unit_retry_after s a w fr w1 request_sent fr' w2 timeout :
  prepare a w = (Go fr, w1) ->
  request fr w1 = (Ret request_sent, fr', w2) ->
  let retry := get_kwargs a fr' in
  let w3 := emit (asyncio_sleep timeout) (emit request_sent w2) in
  _edit_unit (Some (RetryAfter timeout) :: s) a w = _edit_unit s retry w3
  /\ trace w3 = trace w2 ++ [request_sent; asyncio_sleep timeout]
  /\ _units w3 = _units w2
  /\ _custom_map w3 = _custom_map w2
  /\ (forall v, with_reply_markup v retry = with_reply_markup v a)
  /\ reply_markup retry = denormalize (reply_markup a) (reply_markup (locals fr'))
  /\ prepare retry w3 = (Go fr', w3)
  /\ request fr' w3 = (Ret request_sent, fr', w3)
  /\ trace w2 = trace w
  /\ (exists after,
        trace (_edit_unit (Some (RetryAfter timeout) :: s) a w).2
        = trace w ++ [request_sent; asyncio_sleep timeout; request_sent] ++ after)
  /\ (head s = None \/ head s = Some None ->
      _edit_unit (Some (RetryAfter timeout) :: s) a w
      = (Ret VNone,
         with_trace
           (trace w ++ [request_sent; asyncio_sleep timeout; request_sent]) w2)).
Proof.
  intros Hprep Hreq retry w3.
  pose proof (edit_retry_step s a w fr w1 request_sent fr' w2 timeout Hprep Hreq)
    as Hstep.
  destruct (edit_retry_request a w fr w1 request_sent fr' w2 Hprep Hreq w3
              eq_refl eq_refl) as [Hp Hr].
  pose proof (trace_before_request a w fr w1 request_sent fr' w2 Hprep Hreq) as Htr.
  split; [done|].
  split. { simpl. by rewrite -app_assoc. }
  do 7 (split; [done|]).
  split.
  - destruct (edit_unit_trace_after_request s retry w3 fr' w3 request_sent fr' w3
                Hp Hr) as [after Hafter].
    exists after. rewrite Hstep Hafter. simpl. by rewrite Htr -!app_assoc.
  - intros Hs. rewrite Hstep.
    rewrite (edit_unit_request_returns s retry w3 fr' w3 request_sent fr' w3 Hp Hr Hs).
    f_equal. unfold emit, with_trace, w3. simpl. by rewrite Htr -!app_assoc.
Qed.

(** Consecutive rate-limit answers: after the last sleep the call is to
    be made once more, in a world that differs from the one the first
    request left by the trace alone, which shows the request and the
    sleep of each round, and there it sends the same request again.
    So the calls the whole edit makes begin with the request and the
    sleep of every round, in order, and the request once more; when the
    transport accepts that last request the edit returns [None] having
    made these calls and no other. *)
Theorem edit_unit_consecutive_retries timeouts :
  forall timeout s a w fr w1 request_sent fr' w2,
    prepare a w = (Go fr, w1) ->
    request fr w1 = (Ret request_sent, fr', w2) ->
    let rounds :=
      flat_map (fun t => [request_sent; asyncio_sleep t]) (timeout :: timeouts) in
    let w' := with_trace (trace w2 ++ rounds) w2 in
    exists retry,
      (forall v, with_reply_markup v retry = with_reply_markup v a)
      /\ _edit_unit (map (fun t => Some (RetryAfter t)) (timeout :: timeouts) ++ s) a w
         = _edit_unit s retry w'
      /\ prepare retry w' = (Go fr', w')
      /\ request fr' w' = (Ret request_sent, fr', w')
      /\ trace w2 = trace w
      /\ (exists after,
            trace (_edit_unit
                     (map (fun t => Some (RetryAfter t)) (timeout :: timeouts) ++ s)
                     a w).2
            = trace w ++ rounds ++ [request_sent] ++ after)
      /\ (head s = None \/ head s = Some None ->
          _edit_unit (map (fun t => Some (RetryAfter t)) (timeout :: timeouts) ++ s) a w
          = (Ret VNone, with_trace (trace w ++ rounds ++ [request_sent]) w2)).
Proof.
  assert (forall timeout s a w fr w1 request_sent fr' w2,
    prepare a w = (Go fr, w1) ->
    request fr w1 = (Ret request_sent, fr', w2) ->
    let rounds :=
      flat_map (fun t => [request_sent; asyncio_sleep t]) (timeout :: timeouts) in
    let w' := with_trace (trace w2 ++ rounds) w2 in
    exists retry,
      (forall v, with_reply_markup v retry = with_reply_markup v a)
      /\ _edit_unit (map (fun t => Some (RetryAfter t)) (timeout :: timeouts) ++ s) a w
         = _edit_unit s retry w'
      /\ prepare retry w' = (Go fr', w')
      /\ request fr' w' = (Ret request_sent, fr', w')) as Hrounds.
  2: { intros timeout s a w fr w1 sent fr' w2 Hprep Hreq rounds w'.
       destruct (Hrounds timeout s a w fr w1 sent fr' w2 Hprep Hreq)
         as (retry & Hsame & Heq & Hp & Hr).
       pose proof (trace_before_request a w fr w1 sent fr' w2 Hprep Hreq) as Htr.
       exists retry. do 4 (split; [done|]). split; [done|]. split.
       - destruct (edit_unit_trace_after_request s retry _ fr' _ sent fr' _ Hp Hr)
           as [after Hafter].
         exists after. rewrite Heq Hafter. simpl. by rewrite Htr -!app_assoc.
       - intros Hs. rewrite Heq.
         rewrite (edit_unit_request_returns s retry _ fr' _ sent fr' _ Hp Hr Hs).
         f_equal. unfold emit, with_trace. simpl. by rewrite Htr -!app_assoc. }
  induction timeouts as [|t timeouts IH];
    intros timeout s a w fr w1 sent fr' w2 Hprep Hreq; cbv zeta.
  - exists (get_kwargs a fr'). split; [done|].
    pose proof (edit_retry_step s a w fr w1 sent fr' w2 timeout Hprep Hreq) as Heq.
    destruct (edit_retry_request a w fr w1 sent fr' w2 Hprep Hreq
                (emit (asyncio_sleep timeout) (emit sent w2)) eq_refl eq_refl)
      as [Hp Hr].
    assert (with_trace
              (trace w2 ++ flat_map (fun t => [sent; asyncio_sleep t]) [timeout]) w2
            = emit (asyncio_sleep timeout) (emit sent w2)) as ->.
    { unfold with_trace, emit. simpl. by rewrite -app_assoc. }
    done.
  - pose proof (edit_retry_step
                  (map (fun t => Some (RetryAfter t)) (t :: timeouts) ++ s)
                  a w fr w1 sent fr' w2 timeout Hprep Hreq) as Heq.
    destruct (edit_retry_request a w fr w1 sent fr' w2 Hprep Hreq
                (emit (asyncio_sleep timeout) (emit sent w2)) eq_refl eq_refl)
      as [Hp Hr].
    destruct (IH t s _ _ _ _ _ _ _ Hp Hr) as (retry & Hsame & Heq' & Hp' & Hr').
    exists retry. split; [by intros v; rewrite Hsame|].
    assert (with_trace
              (trace (emit (asyncio_sleep timeout) (emit sent w2))
                 ++ flat_map (fun t => [sent; asyncio_sleep t]) (t :: timeouts))
              (emit (asyncio_sleep timeout) (emit sent w2))
            = with_trace
                (trace w2
                   ++ flat_map (fun t => [sent; asyncio_sleep t])
                        (timeout :: t :: timeouts)) w2) as Hw.
    { unfold with_trace, emit. simpl. f_equal. by rewrite -!app_assoc. }
    rewrite Hw in Heq', Hp', Hr'.
    split; [|done].
    change (map (fun t => Some (RetryAfter t)) (timeout :: t :: timeouts) ++ s)
      with (Some (RetryAfter timeout)
              :: (map (fun t => Some (RetryAfter t)) (t :: timeouts) ++ s)).
    by rewrite Heq.
Qed.

(** ** Further properties *)

(** Compiling twice: the second compile of a matrix returns what the
    first returned and changes neither the buttons nor the world. *)
Theorem generate_markup_recompile markup_obj w r markup_obj' w' :
  _generate_markup markup_obj w = (Ret r, markup_obj', w') ->
  _generate_markup markup_obj' w' = (Ret r, markup_obj', w').
Proof.
  intros H. by apply (generate_markup_again markup_obj w r markup_obj' w' H w').
Qed.

(** With two or more media parameters set the call ends in the
    validation, having sent and stored nothing; it returns [False]
    unless a truthy [file] has raised the [TypeError] of line 263. *)
Theorem edit_unit_exclusive_media s a w :
  1 < count_False (media_params a) ->
  exists r,
    _edit_unit s a w = (r, w)
    /\ (r = Ret (VBool false) \/ r = Raise TypeError)
    /\ (truthy (file a) = false -> r = Ret (VBool false)).
Proof. apply edit_exclusive_media. Qed.

(** A text edit the transport answers with [MessageNotModified] is no
    failure: the call returns [None]; with a query it answers the query
    first, and an [InvalidQueryID] raised by the answer is swallowed. *)
Theorem edit_unit_message_not_modified s a w fr w1 request_sent fr' w2 :
  prepare a w = (Go fr, w1) ->
  request fr w1 = (Ret request_sent, fr', w2) ->
  is_text_request request_sent = true ->
  (query a = None ->
   _edit_unit (Some MessageNotModified :: s) a w = (Ret VNone, emit request_sent w2))
  /\ (forall q,
        query a = Some q ->
        head s = None \/ head s = Some None \/ head s = Some (Some InvalidQueryID) ->
        _edit_unit (Some MessageNotModified :: s) a w
        = (Ret VNone, emit (query_answer None) (emit request_sent w2))).
Proof.
  intros Hprep Hreq Htext.
  rewrite _edit_unit_unfold Hprep Hreq. unfold after_request. rewrite Htext.
  split.
  - by intros ->.
  - intros q -> Hs. unfold answer.
    destruct s as [|[e|] s]; simpl in Hs; try done.
    destruct Hs as [|[|[= ->]]]; done.
Qed.

(** An edit leaves every entry other than ["buttons"] of every other
    unit as it was. *)
Theorem edit_unit_other_units s a w uid k :
  unit_uid a <> Some uid ->
  k <> "buttons" ->
  field k uid (_edit_unit s a w).2 = field k uid w.
Proof.
  intros Hu Hk. rewrite field_edit_unit //.
  destruct (validate a); [done|]. by rewrite decide_False.
Qed.

(** ** [_normalize_markup]: normal forms *)

Lemma matrix_of_no_dict p rows :
  matrix_of p (VList rows) = true -> existsb is_dict rows = false.
Proof.
  simpl. induction rows as [|row rows IH]; simpl; [done|].
  intros [Hrow Hrows]%andb_prop. rewrite (IH Hrows). by destruct row.
Qed.

(** Normalizing is idempotent; a list of rows is left as it is; a single
    button and a non-empty list of buttons become a matrix of one row. *)
Theorem normalize_markup_normal_form m :
  _normalize_markup (_normalize_markup m) = _normalize_markup m
  /\ (matrix_of (fun _ => true) m = true -> _normalize_markup m = m)
  /\ (is_dict m = true -> _normalize_markup m = VList [VList [m]])
  /\ (forall button buttons,
        m = VList (button :: buttons) -> forallb is_dict (button :: buttons) = true ->
        _normalize_markup m = VList [m]
        /\ matrix_of is_dict (_normalize_markup m) = true).
Proof.
  split; [apply _normalize_markup_idempotent|]. split; [|split].
  - destruct m as [| | | | |rows| |]; try done.
    intros H. unfold _normalize_markup. by rewrite (matrix_of_no_dict _ _ H).
  - by destruct m.
  - intros button buttons -> Hall. simpl in Hall.
    apply andb_prop in Hall as [Hb Hall].
    unfold _normalize_markup. simpl existsb. rewrite Hb. simpl.
    split; [done|]. by rewrite Hb Hall.
Qed.

(** ** [_generate_markup]: edge cases *)

Lemma existsb_not_dict_forallb l :
  existsb (fun b => negb (is_dict b)) l = negb (forallb is_dict l).
Proof.
  induction l as [|b l IH]; simpl; [done|].
  rewrite IH. by destruct (is_dict b).
Qed.

(** A list that holds a button and something that is no button (a row
    among bare buttons, say) is taken for one row, and compiles to
    [None]. *)
Theorem generate_markup_mixed_list l w :
  existsb is_dict l = true ->
  forallb is_dict l = false ->
  (_generate_markup (VList l) w).1.1 = Ret MarkupNone.
Proof.
  intros Hd Hnd. unfold _generate_markup.
  destruct (negb (truthy (VList l))); [done|].
  simpl lookup_buttons. cbv iota.
  pose proof (compile_matrix_non_dict (VList l) (rand_calls w) (_custom_map w)) as Hc.
  destruct (compile_matrix _ _ _) as [[[r original'] n] cm]. simpl in Hc.
  rewrite Hc.
  - by destruct (write_back _ _ _).
  - unfold _normalize_markup. rewrite Hd. simpl.
    by rewrite existsb_not_dict_forallb Hnd.
Qed.

(** A name that is not the uid of a unit with buttons: the lookup of
    lines 49-53 raises [KeyError], outside the [try] of the second pass,
    so the call raises it; nothing has been written. *)
Theorem generate_markup_unknown_unit name w :
  name <> "" ->
  (forall unit, _units w !! name = Some unit -> dict_in "buttons" unit = false) ->
  _generate_markup (VStr name) w = (Raise KeyError, VStr name, w).
Proof.
  intros Hname Hunit. unfold _generate_markup.
  assert (truthy (VStr name) = true) as ->.
  { simpl. destruct (String.eqb_spec name ""); done. }
  simpl. destruct (_units w !! name) as [unit|]; [|done].
  specialize (Hunit unit eq_refl). unfold subscript, dict_in in *.
  by destruct (dict_get "buttons" unit).
Qed.

(** ** [_generate_markup]: the registry and the token counter *)

Lemma mint_button_count button n setup : n <= (mint_button button n setup).1.2.
Proof.
  unfold mint_button.
  destruct (dict_in "callback" button && negb (dict_in "_callback_data" button));
    destruct (dict_in "input" _ && negb (dict_in "_switch_query" _)); simpl; lia.
Qed.

Lemma mint_row_count row n setup : n <= (mint_row row n setup).1.1.2.
Proof.
  revert n setup. induction row as [|b row IH]; intros n setup; simpl; [done|].
  destruct b; try done.
  pose proof (mint_button_count d n setup) as H1.
  destruct (mint_button d n setup) as [[d' n'] setup'].
  specialize (IH n' setup').
  destruct (mint_row row n' setup') as [[[row' n''] setup''] ok].
  simpl in *. lia.
Qed.

Lemma mint_rows_count rows n setup : n <= (mint_rows rows n setup).1.1.2.
Proof.
  revert n setup. induction rows as [|row rows IH]; intros n setup; simpl; [done|].
  destruct (py_iter row) as [buttons|e]; [|done].
  pose proof (mint_row_count buttons n setup) as H1.
  destruct (mint_row buttons n setup) as [[[buttons' n'] setup'] ok].
  destruct ok; [|done].
  specialize (IH n' setup').
  destruct (mint_rows rows n' setup') as [[[rows' n''] setup''] st].
  simpl in *. lia.
Qed.

Lemma translate_button_registry setup button cm control cm' :
  translate_button setup button cm = Ret (control, cm') -> dom cm ⊆ dom cm'.
Proof.
  unfold translate_button, setitem, obind.
  intros H. repeat case_match; simplify_eq; try done.
  apply dom_insert_subseteq.
Qed.

Lemma translate_row_registry setup row line cm :
  dom cm ⊆ dom (registry (translate_row setup row line cm)).
Proof.
  revert line cm. induction row as [|b row IH]; intros line cm; simpl; [done|].
  destruct b; try done.
  destruct (translate_button setup d cm) as [[control cm']|e] eqn:Hb.
  - apply translate_button_registry in Hb.
    destruct control; (etrans; [exact Hb|apply IH]).
  - by destruct e.
Qed.

Lemma translate_rows_registry setup rows markup cm :
  dom cm ⊆ dom (registry (translate_rows setup rows markup cm)).
Proof.
  revert markup cm. induction rows as [|row rows IH]; intros markup cm; simpl; [done|].
  destruct (py_iter row) as [buttons|e]; [|done].
  pose proof (translate_row_registry setup buttons [] cm) as Hrow.
  destruct (translate_row setup buttons [] cm) as [line cm'|cm'|e cm']; simpl in Hrow;
    [|done|done].
  etrans; [exact Hrow|apply IH].
Qed.

Lemma compile_matrix_grows original n cm :
  n <= (compile_matrix original n cm).1.2
  /\ dom cm ⊆ dom (compile_matrix original n cm).2.
Proof.
  unfold compile_matrix.
  destruct (py_iter (_normalize_markup original)) as [rows|e]; [|done].
  pose proof (mint_rows_count rows n false) as Hn.
  destruct (mint_rows rows n false) as [[[rows' n'] setup] st]. simpl in Hn.
  destruct st; try done.
  pose proof (translate_rows_registry setup rows' [] cm) as Hcm.
  by destruct (translate_rows setup rows' [] cm).
Qed.

(** A compile never removes a registration and never rewinds the token
    counter, whatever it returns or raises. *)
Theorem generate_markup_registry_grows markup_obj w :
  dom (_custom_map w) ⊆ dom (_custom_map (_generate_markup markup_obj w).2)
  /\ rand_calls w <= rand_calls (_generate_markup markup_obj w).2.
Proof.
  unfold _generate_markup.
  destruct (negb (truthy markup_obj)); [done|].
  destruct (lookup_buttons markup_obj w) as [original|e]; [|done].
  pose proof (compile_matrix_grows original (rand_calls w) (_custom_map w)) as [Hn Hcm].
  destruct (compile_matrix _ _ _) as [[[r original'] n] cm]. simpl in Hn, Hcm.
  by destruct (write_back _ _ _).
Qed.

(** ** [_generate_markup]: the rows of the keyboard *)

Lemma mint_row_length row n setup : length (mint_row row n setup).1.1.1 = length row.
Proof.
  revert n setup. induction row as [|b row IH]; intros n setup; simpl; [done|].
  destruct b; try done.
  destruct (mint_button d n setup) as [[d' n'] setup'].
  specialize (IH n' setup').
  destruct (mint_row row n' setup') as [[[row' n''] setup''] ok]. simpl in *.
  by rewrite IH.
Qed.

Lemma mint_rows_rows rows n setup rows' n' setup' :
  mint_rows rows n setup = (rows', n', setup', Completed) ->
  Forall2
    (fun row' row =>
       exists buttons buttons',
         py_iter row = Ret buttons /\ py_iter row' = Ret buttons'
         /\ length buttons' = length buttons)
    rows' rows.
Proof.
  revert n setup rows' n' setup'.
  induction rows as [|row rows IH]; intros n setup rows' n' setup'; simpl.
  { intros [= <- _ _]. constructor. }
  destruct (py_iter row) as [buttons|e] eqn:Hiter; [|done].
  pose proof (mint_row_length buttons n setup) as Hlen.
  destruct (mint_row buttons n setup) as [[[buttons' n1] setup1] ok]. simpl in Hlen.
  destruct ok; [|done].
  destruct (mint_rows rows n1 setup1) as [[[rest' n2] setup2] st] eqn:Hrest.
  intros [= <- _ _ ->]. constructor; [|by eapply IH].
  destruct row; try (by exists buttons, buttons).
  simpl in Hiter. injection Hiter as <-. by exists l, buttons'.
Qed.

Lemma translate_row_length setup row line cm line' cm' :
  translate_row setup row line cm = Built line' cm' ->
  length line' <= length line + length row.
Proof.
  revert line cm. induction row as [|b row IH]; intros line cm; simpl.
  { intros [= <- _]. lia. }
  destruct b; try done.
  destruct (translate_button setup d cm) as [[[control|] cm0]|e].
  - intros H%IH. rewrite length_app in H. simpl in H. lia.
  - intros H%IH. lia.
  - by destruct e.
Qed.

Lemma translate_rows_rows setup rows markup cm keyboard cm' :
  translate_rows setup rows markup cm = Built keyboard cm' ->
  exists new, keyboard = markup ++ new /\ rows_of new rows.
Proof.
  revert markup cm. induction rows as [|row rows IH]; intros markup cm; simpl.
  { intros [= <- _]. exists []. split; [by rewrite app_nil_r|constructor]. }
  destruct (py_iter row) as [buttons|e] eqn:Hiter; [|done].
  destruct (translate_row setup buttons [] cm) as [line cm0|cm0|e cm0] eqn:Hrow;
    [|done|done].
  intros (new & -> & Hnew)%IH. exists (line :: new).
  split; [by rewrite -app_assoc|].
  constructor; [|done]. exists buttons. split; [done|].
  apply translate_row_length in Hrow. simpl in Hrow. lia.
Qed.

Lemma compile_matrix_rows original n cm rows keyboard :
  py_iter (_normalize_markup original) = Ret rows ->
  (compile_matrix original n cm).1.1.1 = Ret (InlineKeyboardMarkup keyboard) ->
  rows_of keyboard rows.
Proof.
  intros Hiter. unfold compile_matrix. rewrite Hiter.
  destruct (mint_rows rows n false) as [[[rows' n'] setup] st] eqn:Hmint.
  destruct st; try done.
  apply mint_rows_rows in Hmint.
  destruct (translate_rows setup rows' [] cm) as [markup cm'|cm'|e cm'] eqn:Htr;
    try done.
  simpl. intros [= ->].
  apply translate_rows_rows in Htr as (new & -> & Hnew). simpl.
  clear -Hmint Hnew. revert rows Hmint.
  induction Hnew as [|line row' new rows' (buttons' & Hb' & Hlen) Hnew IH];
    intros rows Hmint; inversion Hmint as [|? row ? rest (b & b' & Hb & Hb2 & Hl)];
    subst; constructor; [|by apply IH].
  exists b. split; [done|]. rewrite Hb' in Hb2. injection Hb2 as <-. lia.
Qed.

(** The keyboard follows the matrix row by row: it has a row for every
    row of the normalized matrix, in order, empty rows included, and a
    row never has more controls than the matrix row has buttons. *)
Theorem generate_markup_rows markup_obj original rows keyboard w :
  lookup_buttons markup_obj w = Ret original ->
  py_iter (_normalize_markup original) = Ret rows ->
  (_generate_markup markup_obj w).1.1 = Ret (InlineKeyboardMarkup keyboard) ->
  rows_of keyboard rows.
Proof.
  intros Hlookup Hiter. unfold _generate_markup.
  destruct (negb (truthy markup_obj)); [done|].
  rewrite Hlookup.
  pose proof (compile_matrix_rows original (rand_calls w) (_custom_map w) rows keyboard
                Hiter) as Hc.
  destruct (compile_matrix _ _ _) as [[[r original'] n] cm]. simpl in Hc.
  destruct (write_back _ _ _). simpl. exact Hc.
Qed.

(** ** [_generate_markup]: what a fresh button compiles to *)

Lemma dict_get_app k (d1 d2 : dict) :
  dict_get k (d1 ++ d2) =
  match dict_get k d1 with Some v => Some v | None => dict_get k d2 end.
Proof.
  induction d1 as [|[k' v'] d1 IH]; simpl; [done|].
  by destruct (String.eqb k k').
Qed.

Lemma optional_entry_subscript button k :
  optional_entry button k (subscript button k)
  = Ret (if truthy (get_default button k (VBool false))
         then [(k, get_default button k (VBool false))] else []).
Proof.
  unfold optional_entry, subscript, get_default.
  by destruct (dict_get k button) as [v|]; simpl; [destruct (truthy v)|].
Qed.

Lemma registration_entries button handler :
  dict_get "callback" button = Some handler ->
  exists reg,
    registration button = Ret reg
    /\ dict_get "handler" reg = Some handler
    /\ dict_get "always_allow" reg = registered_entry button "always_allow" false
    /\ dict_get "args" reg = registered_entry button "args" false
    /\ dict_get "kwargs" reg = registered_entry button "kwargs" false
    /\ dict_get "force_me" reg = registered_entry button "force_me" true
    /\ dict_get "disable_security" reg = registered_entry button "disable_security" true.
Proof.
  intros Hcb. unfold registration. rewrite !optional_entry_subscript.
  unfold subscript, optional_entry, registered_entry. rewrite Hcb. simpl.
  destruct (truthy (get_default button "always_allow" (VBool false)));
    destruct (truthy (get_default button "args" (VBool false)));
    destruct (truthy (get_default button "kwargs" (VBool false)));
    destruct (truthy (get_default button "force_me" (VBool false)));
    destruct (truthy (get_default button "disable_security" (VBool false)));
    simpl; eexists; (split; [reflexivity|]); by repeat split.
Qed.

Lemma get_default_mint_button k button n setup x :
  k <> "_callback_data" -> k <> "_switch_query" ->
  get_default (mint_button button n setup).1.1 k x = get_default button k x.
Proof. intros H1 H2. unfold get_default. by rewrite mint_button_get. Qed.

Lemma mint_button_fresh_callback button n setup :
  dict_in "callback" button = true ->
  dict_in "_callback_data" button = false ->
  (mint_button button n setup).2 = true
  /\ dict_get "_callback_data" (mint_button button n setup).1.1 = Some (VStr (rand 30 n)).
Proof.
  intros Hc Hd. unfold mint_button. rewrite Hc Hd. simpl.
  destruct (dict_in "input" _ && negb (dict_in "_switch_query" _)); simpl;
    by dict_simpl.
Qed.

(** Compiling one button, in the two passes. *)
Lemma generate_markup_button button w :
  truthy (VDict button) = true ->
  _generate_markup (VDict button) w =
  let minted := mint_button button (rand_calls w) false in
  match translate_button minted.2 minted.1.1 (_custom_map w) with
  | Ret (control, cm) =>
      (Ret (InlineKeyboardMarkup [option_list control]), VDict minted.1.1,
       set_custom_map cm (set_rand_calls minted.1.2 w))
  | Raise e =>
      (match e with KeyError => Ret MarkupFalse | _ => Raise e end, VDict minted.1.1,
       set_custom_map (_custom_map w) (set_rand_calls minted.1.2 w))
  end.
Proof.
  intros Ht. unfold _generate_markup, compile_matrix. rewrite Ht. simpl.
  destruct (mint_button button (rand_calls w) false) as [[button' n'] setup'].
  simpl.
  destruct (translate_button setup' button' (_custom_map w)) as [[[control|] cm]|e];
    try done.
  by destruct e.
Qed.

Lemma truthy_has_text button text :
  dict_get "text" button = Some text -> truthy (VDict button) = true.
Proof. by destruct button. Qed.

(** A callback button that carries no token yet: the first pass draws a
    token of size 30 and writes it into the button, the control carries
    the token as its callback data, and the registry maps the token to
    the button's handler, with [force_me] and [disable_security] stored
    as [True] when truthy and [always_allow], [args], [kwargs] stored as
    they are when truthy; every other registration is kept. *)
Theorem generate_markup_registers_callback button text handler w :
  dict_get "text" button = Some text ->
  dict_get "callback" button = Some handler ->
  dict_in "url" button = false ->
  dict_in "_callback_data" button = false ->
  let token := rand 30 (rand_calls w) in
  let res := _generate_markup (VDict button) w in
  res.1.1 = Ret (InlineKeyboardMarkup [[Button_callback_data text (VStr token)]])
  /\ (exists button',
        res.1.2 = VDict button'
        /\ dict_get "_callback_data" button' = Some (VStr token))
  /\ (exists reg,
        _custom_map res.2 !! KStr token = Some reg
        /\ dict_get "handler" reg = Some handler
        /\ dict_get "always_allow" reg = registered_entry button "always_allow" false
        /\ dict_get "args" reg = registered_entry button "args" false
        /\ dict_get "kwargs" reg = registered_entry button "kwargs" false
        /\ dict_get "force_me" reg = registered_entry button "force_me" true
        /\ dict_get "disable_security" reg
           = registered_entry button "disable_security" true)
  /\ (forall k, k <> KStr token -> _custom_map res.2 !! k = _custom_map w !! k).
Proof.
  intros Htext Hcb Hurl Hdata token res. subst res.
  rewrite (generate_markup_button _ _ (truthy_has_text _ _ Htext)). cbv zeta.
  assert (dict_in "callback" button = true) as Hcb' by (unfold dict_in; by rewrite Hcb).
  destruct (mint_button_fresh_callback button (rand_calls w) false Hcb' Hdata)
    as [Hsetup Htoken].
  pose proof (fun k => mint_button_get k button (rand_calls w) false) as Hget.
  pose proof (fun k x => get_default_mint_button k button (rand_calls w) false x) as Hdef.
  destruct (mint_button button (rand_calls w) false) as [[button' n'] setup'].
  simpl in Hsetup, Htoken, Hget, Hdef. subst setup'. cbn [fst snd].
  destruct (registration_entries button' handler) as (reg & Hreg & Hentries).
  { by rewrite Hget. }
  assert (translate_button true button' (_custom_map w)
          = Ret (Some (Button_callback_data text (VStr token)),
                 <[KStr token := reg]> (_custom_map w))) as ->.
  { unfold translate_button, dict_in, subscript, setitem in *.
    rewrite (Hget "url") // (Hget "callback") // (Hget "text") //.
    destruct (dict_get "url" button); [done|].
    by rewrite Hcb Htext Htoken /= Hreg. }
  simpl. split; [done|]. split; [by exists button'|]. split.
  - exists reg. rewrite lookup_insert_eq. split; [done|].
    unfold registered_entry in *. by rewrite !Hdef // in Hentries.
  - intros k Hk. by rewrite lookup_insert_ne.
Qed.

(** An input button that carries no token yet, and is no url or callback
    button: one token of size 10 is drawn and written into the button,
    the control switches to the inline query made of the token and a
    space, whatever the value under ["input"], and nothing is
    registered. *)
Theorem generate_markup_input_button button text w :
  dict_get "text" button = Some text ->
  dict_in "input" button = true ->
  dict_in "url" button = false ->
  dict_in "callback" button = false ->
  dict_in "_switch_query" button = false ->
  let token := rand 10 (rand_calls w) in
  _generate_markup (VDict button) w =
  (Ret (InlineKeyboardMarkup
          [[Button_switch_inline_query_current_chat text (VStr (token ++ " "))]]),
   VDict (dict_set "_switch_query" (VStr token) button),
   set_rand_calls (S (rand_calls w)) w).
Proof.
  intros Htext Hin Hurl Hcb Hsq token.
  rewrite (generate_markup_button _ _ (truthy_has_text _ _ Htext)). cbv zeta.
  unfold mint_button. rewrite Hcb. cbn [andb negb]. rewrite Hin Hsq.
  cbn [andb negb fst snd].
  unfold translate_button, dict_in, subscript in *.
  dict_simpl.
  destruct (dict_get "url" button); [done|].
  destruct (dict_get "callback" button); [done|].
  destruct (dict_get "input" button); [|done].
  rewrite Htext. simpl. by destruct w.
Qed.

(** ** [_generate_markup]: buttons without a text *)

(** A matrix with a button that calls for a control and has no ["text"]
    never compiles to a keyboard; such a button on its own compiles to
    [False], with the tokens of the first pass drawn and written. *)
Theorem generate_markup_textless_button markup_obj original w :
  lookup_buttons markup_obj w = Ret original ->
  has_textless_button (_normalize_markup original) = true ->
  (forall keyboard,
     (_generate_markup markup_obj w).1.1 <> Ret (InlineKeyboardMarkup keyboard))
  /\ (forall d,
        original = VDict d -> markup_obj = original ->
        _generate_markup markup_obj w =
        (Ret MarkupFalse, VDict (mint_button d (rand_calls w) false).1.1,
         set_rand_calls (mint_button d (rand_calls w) false).1.2 w)).
Proof.
  intros Hlookup Hbad. split.
  - intros keyboard. unfold _generate_markup.
    destruct (negb (truthy markup_obj)); [done|].
    rewrite Hlookup. unfold compile_matrix.
    destruct (_normalize_markup original) as [| | | | |rows| |] eqn:Hnorm; try done.
    simpl py_iter. cbv iota.
    pose proof (mint_rows_textless rows (rand_calls w) false) as Hmint.
    destruct (mint_rows rows (rand_calls w) false) as [[[rows' n'] setup] st].
    cbn [fst snd] in Hmint. rewrite Hbad in Hmint.
    destruct st; try (by destruct (write_back _ _ _)).
    pose proof (translate_rows_textless setup rows' [] (_custom_map w)) as Htr.
    destruct (translate_rows setup rows' [] (_custom_map w)) as [markup cm'|cm'|e cm'].
    + by destruct (Htr markup cm' Hmint).
    + by destruct (write_back _ _ _).
    + by destruct (write_back _ _ _).
  - intros d -> ->. simpl in Hbad. rewrite orb_false_r orb_false_r in Hbad.
    assert (truthy (VDict d) = true) as Ht.
    { destruct d; [|done]. by vm_compute in Hbad. }
    rewrite (generate_markup_button _ _ Ht). cbv zeta.
    rewrite translate_button_textless; [by destruct w|].
    by rewrite mint_button_textless.
Qed.

(** ** [_generate_markup]: one fresh callback button *)

Lemma registered_mono cm cm' button :
  dom cm ⊆ dom cm' -> registered cm button -> registered cm' button.
Proof.
  intros Hsub. destruct button; try done.
  intros (v & k & Hv & Hk & Hin). exists v, k. repeat split; try done.
  apply elem_of_dom. apply elem_of_dom in Hin. by apply Hsub.
Qed.

Lemma mint_button_setup button n setup :
  (mint_button button n setup).2 = setup || fresh_callback (VDict button).
Proof.
  unfold mint_button, fresh_callback.
  destruct (dict_in "callback" button && negb (dict_in "_callback_data" button));
    destruct (dict_in "input" _ && negb (dict_in "_switch_query" _)); simpl;
    by rewrite ?orb_true_r ?orb_false_r.
Qed.

Lemma mint_row_setup row n setup :
  (mint_row row n setup).2 = true ->
  (mint_row row n setup).1.2 = setup || existsb fresh_callback row.
Proof.
  revert n setup. induction row as [|b row IH]; intros n setup.
  { simpl. by rewrite orb_false_r. }
  destruct b; try done. cbn [mint_row].
  pose proof (mint_button_setup d n setup) as Hb.
  destruct (mint_button d n setup) as [[d' n'] setup']. cbn [fst snd] in Hb.
  specialize (IH n' setup').
  destruct (mint_row row n' setup') as [[[row' n''] setup''] ok].
  cbn [fst snd existsb] in *. intros Hok. rewrite (IH Hok) Hb. by rewrite orb_assoc.
Qed.

Lemma fresh_callback_no_dict l :
  existsb is_dict l = false -> existsb fresh_callback l = false.
Proof.
  induction l as [|b l IH]; simpl; [done|].
  intros [Hb Hl]%orb_false_elim. rewrite (IH Hl). by destruct b.
Qed.

Lemma mint_rows_setup rows n setup rows' n' setup' :
  mint_rows rows n setup = (rows', n', setup', Completed) ->
  setup' = setup || existsb fresh_callback (buttons_of (VList rows)).
Proof.
  revert n setup rows' n' setup'.
  induction rows as [|row rows IH]; intros n setup rows' n' setup'.
  { simpl. intros [= _ _ <-]. by rewrite orb_false_r. }
  cbn [mint_rows].
  destruct (py_iter row) as [buttons|e] eqn:Hiter; [|done].
  pose proof (mint_row_setup buttons n setup) as Hrow.
  pose proof (mint_row_ok buttons n setup) as Hok.
  destruct (mint_row buttons n setup) as [[[buttons' n1] setup1] ok].
  cbn [fst snd] in Hrow, Hok. destruct ok; [|done].
  destruct (mint_rows rows n1 setup1) as [[[rest' n2] setup2] st] eqn:Hrest.
  intros [= _ _ <- ->]. rewrite (IH _ _ _ _ _ Hrest) (Hrow eq_refl).
  cbn [buttons_of flat_map]. rewrite existsb_app -orb_assoc. do 2 f_equal.
  destruct (is_list row) eqn:Hl.
  - destruct row; try done. simpl in Hiter. by injection Hiter as <-.
  - rewrite (fresh_callback_no_dict _ (py_iter_no_dict _ _ Hiter Hl)).
    by destruct row.
Qed.

Lemma translate_button_registered d cm control cm' :
  callback_button (VDict d) = true ->
  translate_button true d cm = Ret (control, cm') ->
  registered cm' (VDict d).
Proof.
  unfold callback_button, translate_button, setitem, dict_in, subscript, obind.
  destruct (dict_get "url" d); [by rewrite andb_false_r|].
  destruct (dict_get "callback" d); [|done]. intros _.
  destruct (dict_get "text" d); [|done].
  destruct (dict_get "_callback_data" d) as [v|] eqn:Hv; [|done].
  destruct (registration d) as [reg|e]; [|done].
  simpl. rewrite Hv.
  destruct (to_key v) as [k|e] eqn:Hk; [|done].
  intros [= _ <-]. exists v, k. repeat split; try done.
  by rewrite lookup_insert_eq.
Qed.

Lemma translate_row_registered row line cm line' cm' :
  translate_row true row line cm = Built line' cm' ->
  Forall (fun b => callback_button b = true -> registered cm' b) row.
Proof.
  revert line cm. induction row as [|b row IH]; intros line cm; simpl.
  { constructor. }
  destruct b; try done.
  destruct (translate_button true d cm) as [[control cm0]|e] eqn:Hb; [|by destruct e].
  intros Hrow.
  assert (translate_row true row (line ++ option_list control) cm0 = Built line' cm')
    as Hrest.
  { destruct control; [done|]. by rewrite app_nil_r. }
  clear Hrow. constructor; [|by eapply IH].
  intros Hcb. apply (registered_mono cm0).
  - pose proof (translate_row_registry true row (line ++ option_list control) cm0) as H.
    by rewrite Hrest in H.
  - by apply (translate_button_registered d cm control).
Qed.

Lemma translate_rows_registered rows markup cm keyboard cm' :
  translate_rows true rows markup cm = Built keyboard cm' ->
  Forall (fun b => callback_button b = true -> registered cm' b)
    (buttons_of (VList rows)).
Proof.
  revert markup cm. induction rows as [|row rows IH]; intros markup cm; simpl.
  { constructor. }
  destruct (py_iter row) as [buttons|e] eqn:Hiter; [|done].
  destruct (translate_row true buttons [] cm) as [line cm0|cm0|e cm0] eqn:Hrow;
    [|done|done].
  intros Hrest. apply Forall_app. split; [|by eapply IH].
  destruct row; try by constructor.
  simpl in Hiter. injection Hiter as <-.
  apply translate_row_registered in Hrow.
  eapply Forall_impl; [exact Hrow|]. intros b Hb Hcb.
  apply (registered_mono cm0); [|by apply Hb].
  pose proof (translate_rows_registry true rows (markup ++ [line]) cm0) as H.
  by rewrite Hrest in H.
Qed.

(** The flag [setup_callbacks] is one for the whole matrix: when a
    single callback button has no token yet and the compile yields a
    keyboard, every callback button of the matrix, those that carried a
    token already included, has an entry in the registry under its
    token afterwards. *)
Theorem generate_markup_registers_all markup_obj keyboard markup_obj' w' w :
  is_str markup_obj = false ->
  existsb fresh_callback (buttons_of (_normalize_markup markup_obj)) = true ->
  _generate_markup markup_obj w = (Ret (InlineKeyboardMarkup keyboard), markup_obj', w') ->
  Forall (fun b => callback_button b = true -> registered (_custom_map w') b)
    (buttons_of (_normalize_markup markup_obj')).
Proof.
  intros Hstr Hfresh. unfold _generate_markup.
  destruct (negb (truthy markup_obj)); [done|].
  rewrite lookup_buttons_not_str //. unfold compile_matrix.
  destruct (py_iter (_normalize_markup markup_obj)) as [rows|e] eqn:Hiter.
  2: { destruct markup_obj; done. }
  pose proof (normalize_denormalize markup_obj (rand_calls w) false rows Hiter)
    as [Hnorm _].
  destruct (_normalize_markup markup_obj) as [| | | | |rows0| |] eqn:Hn; try done.
  simpl in Hiter. injection Hiter as ->.
  destruct (mint_rows rows (rand_calls w) false) as [[[rows' n'] setup] st] eqn:Hmint.
  cbn [fst snd] in Hnorm.
  destruct st; try (destruct markup_obj; done).
  apply mint_rows_setup in Hmint. rewrite Hfresh in Hmint. simpl in Hmint. subst setup.
  destruct (translate_rows true rows' [] (_custom_map w)) as [markup cm'|cm'|e cm']
    eqn:Htr; try (destruct markup_obj; done).
  apply translate_rows_registered in Htr.
  destruct markup_obj; try done; simpl write_back; intros [= _ <- <-];
    rewrite Hnorm; exact Htr.
Qed.

(** ** [_edit_unit]: what the transport answers *)

(** An edit the transport answers with [MessageIdInvalid] returns
    [None], text or media alike: the query is answered with a notice,
    whatever exception the answer raises is swallowed, and with no query
    the [AttributeError] of [query.answer] is swallowed as well. *)
Theorem edit_unit_message_id_invalid s a w fr w1 request_sent fr' w2 :
  prepare a w = (Go fr, w1) ->
  request fr w1 = (Ret request_sent, fr', w2) ->
  let notice := Some "I should have edited some message, but it is deleted :(" in
  (query a = None ->
   _edit_unit (Some MessageIdInvalid :: s) a w = (Ret VNone, emit request_sent w2))
  /\ (forall q,
        query a = Some q ->
        (forall e, head s = Some (Some e) -> is_Exception e = true) ->
        _edit_unit (Some MessageIdInvalid :: s) a w
        = (Ret VNone, emit (query_answer notice) (emit request_sent w2))).
Proof.
  intros Hprep Hreq notice.
  rewrite _edit_unit_unfold Hprep Hreq. unfold after_request, answer.
  split.
  - by intros ->.
  - intros q -> Hs. destruct s as [|[e|] s]; try done.
    by rewrite (Hs e eq_refl).
Qed.

(** An exception of the transport that has no [except] clause leaves
    the call as it is, the request having been sent: among them
    [MessageNotModified] after [edit_message_media], which only the text
    branch handles. *)
Theorem edit_unit_transport_error s a w fr w1 request_sent fr' w2 e :
  prepare a w = (Go fr, w1) ->
  request fr w1 = (Ret request_sent, fr', w2) ->
  has_except_clause request_sent e = false ->
  _edit_unit (Some e :: s) a w = (Raise e, emit request_sent w2).
Proof.
  intros Hprep Hreq He.
  rewrite _edit_unit_unfold Hprep Hreq. unfold after_request.
  destruct e; simpl in He; try done. by rewrite He.
Qed.

(** ** [_edit_unit]: the message that is edited *)

Lemma update_unit_stored_id a w x :
  get_default (unit_of (update_unit a w).1 (update_unit a w).2) "inline_message_id" x
  = get_default (unit_of (unit_uid a) w) "inline_message_id" x.
Proof.
  unfold update_unit, unit_of.
  destruct (unit_uid a) as [uid|]; [|done].
  destruct (_units w !! uid) as [unit|] eqn:Hu; simpl; [|done].
  rewrite lookup_insert_eq. simpl.
  destruct (is_list (always_allow a)), (is_bool (disable_security a)),
    (is_bool (force_me a)); by rewrite !get_default_set_ne.
Qed.

Lemma request_target fr w ev fr' w' :
  request fr w = (Ret ev, fr', w') -> target ev = Some (inline_message_id (locals fr)).
Proof.
  unfold request. destruct (forallb id _).
  - destruct (compile_reply_markup fr w) as [[[markup|e] fr0] w0]; [|done].
    by intros [= <- _ _].
  - simpl. rewrite andb_false_r.
    destruct (read_local _) as [media|e]; [|done].
    destruct (compile_reply_markup _ w) as [[[markup|e] fr0] w0]; [|done].
    by intros [= <- _ _].
Qed.

(** The message a request addresses: the [inline_message_id] argument
    when it is truthy, else the one stored for the unit when that is
    truthy, else the one of the query; the id found is truthy. *)
Theorem edit_unit_message_id_priority a w fr w1 request_sent fr' w2 :
  prepare a w = (Go fr, w1) ->
  request fr w1 = (Ret request_sent, fr', w2) ->
  let stored := get_default (unit_of (unit_uid a) w) "inline_message_id" (VBool false) in
  exists id,
    target request_sent = Some id
    /\ truthy id = true
    /\ id = (if truthy (inline_message_id a) then inline_message_id a
             else if truthy stored then stored
             else match query a with
                  | Some q => q_inline_message_id q
                  | None => VNone
                  end)
    /\ (truthy (inline_message_id a) = false -> truthy stored = false ->
        query a <> None).
Proof.
  intros Hprep Hreq stored.
  destruct (prepare_Go _ _ _ _ Hprep) as (_ & Hupd & Hres & Hid & _ & _).
  exists (inline_message_id (locals fr)).
  split; [by apply (request_target fr w1 _ fr' w2)|]. split; [done|].
  pose proof (update_unit_stored_id
                (with_reply_markup (normalize_argument (reply_markup a)) a) w
                (VBool false)) as Hst.
  rewrite Hupd in Hst. simpl in Hst.
  unfold resolve_inline_message_id in Hres. simpl in Hres. rewrite Hst in Hres.
  fold stored in Hres.
  destruct (truthy (inline_message_id a)); [by injection Hres as <-|].
  destruct (truthy stored); [by injection Hres as <-|].
  destruct (query a); [by injection Hres as <-|done].
Qed.

(** ** [_edit_unit]: an edit without [reply_markup] *)

(** A text edit that passes no [reply_markup] sends a keyboard of one
    empty row and stores [[[]]] as the buttons of the unit: the buttons
    the unit had are gone.  Nothing is registered. *)
Theorem edit_unit_without_markup s a w :
  reply_markup a = VNone ->
  validate a = None ->
  forallb id (media_params a) = true ->
  truthy (inline_message_id a) = true ->
  head s = None \/ head s = Some None ->
  exists w',
    _edit_unit s a w = (Ret VNone, w')
    /\ trace w' = trace w ++ [edit_message_text (text a) (inline_message_id a)
                                (disable_web_page_preview a)
                                (InlineKeyboardMarkup [[]])]
    /\ _custom_map w' = _custom_map w
    /\ (forall uid,
          unit_uid a = Some uid -> is_Some (_units w !! uid) ->
          field "buttons" uid w' = Some (Some (VList [VList []]))).
Proof.
  intros Hrm Hv Hmedia Hid Hs.
  rewrite _edit_unit_unfold. unfold prepare.
  rewrite validate_with_reply_markup Hv Hrm.
  change (normalize_argument VNone) with (VList [VList []]).
  set (a_n := with_reply_markup (VList [VList []]) a).
  pose proof (update_unit_frame a_n w) as (Htr & Hcm & _).
  pose proof (update_unit_stored a_n w) as Hst.
  assert (forall uid, unit_uid a = Some uid -> is_Some (_units w !! uid) ->
            (update_unit a_n w).1 = Some uid) as Href.
  { intros uid Hu [unit Hunit]. unfold update_unit. simpl. by rewrite Hu Hunit. }
  destruct (update_unit a_n w) as [u w1]. simpl in Htr, Hcm, Hst, Href.
  unfold resolve_inline_message_id. simpl inline_message_id. rewrite Hid. simpl.
  rewrite Hid. simpl.
  unfold request. simpl locals.
  change (media_params (with_inline_message_id (inline_message_id a) a_n))
    with (media_params a).
  rewrite Hmedia. unfold compile_reply_markup, generate_markup. simpl.
  rewrite !set_rand_calls_id !set_custom_map_id.
  set (w2 := match u with
             | Some uid =>
                 match _units w1 !! uid with
                 | Some unit =>
                     set_units (<[uid := dict_set "buttons" (VList [VList []]) unit]>
                                  (_units w1)) w1
                 | None => w1
                 end
             | None => w1
             end).
  assert (trace w2 = trace w1 /\ _custom_map w2 = _custom_map w1
          /\ forall uid, u = Some uid ->
               field "buttons" uid w2 = Some (Some (VList [VList []]))) as (Htr2 & Hcm2 & Hf2).
  { subst w2. destruct u as [uid|]; [|done].
    specialize (Hst uid eq_refl).
    destruct (field_Some_lookup _ _ _ _ Hst) as (unit & Hu & Hb).
    rewrite Hu. repeat split. intros ? [= <-]. unfold field. simpl.
    by rewrite lookup_insert_eq /= dict_get_set_eq. }
  eexists. split.
  { unfold after_request. destruct s as [|[e|] s]; simpl in Hs; try done.
    by destruct Hs. }
  simpl. rewrite Htr2 Htr Hcm2 Hcm. repeat split.
  intros uid Hu Hin. rewrite field_emit. apply Hf2. by apply Href.
Qed.

(** ** [_edit_unit]: what [False] means *)

Lemma answer_not_False q message suppressed s w :
  (answer q message suppressed s w).1 <> Ret (VBool false).
Proof. unfold answer. by repeat case_match. Qed.

(** [False] is returned before anything is sent: a call that returns
    [False], the transport not having asked for a retry, has made no
    call to the transport, to the query or to [asyncio.sleep], has drawn
    no token and has registered nothing. *)
Theorem edit_unit_false_sends_nothing s a w w' :
  (forall timeout, head s <> Some (Some (RetryAfter timeout))) ->
  _edit_unit s a w = (Ret (VBool false), w') ->
  trace w' = trace w /\ _custom_map w' = _custom_map w /\ rand_calls w' = rand_calls w.
Proof.
  intros Hs H. pose proof (prepare_world a w) as Hp.
  rewrite _edit_unit_unfold in H.
  destruct (prepare a w) as [[r|fr] w1] eqn:Hprep.
  - by injection H as _ <-.
  - destruct (request fr w1) as [[[sent|e] fr'] w2] eqn:Hreq; [|done].
    unfold after_request in H.
    destruct s as [|[e|] s]; try done.
    destruct e; try done.
    + destruct (is_text_request sent); [|done].
      destruct (query a); [|done].
      pose proof (answer_not_False (Some c) None is_InvalidQueryID s (emit sent w2)) as Hn.
      by rewrite H in Hn.
    + by destruct (Hs timeout).
    + pose proof (answer_not_False (query a)
                    (Some "I should have edited some message, but it is deleted :(")
                    is_Exception s (emit sent w2)) as Hn.
      by rewrite H in Hn.
Qed.

(** ** Unit lifecycle: further properties *)

(** [_unload_unit] returns [True] only when it has removed the unit:
    the uid is then absent, and unloading it again returns [False] and
    does nothing. *)
Theorem unload_unit_true_removed unit_uid w w' :
  _unload_unit unit_uid w = (Ret (VBool true), w') ->
  units_getitem unit_uid w' = Raise KeyError
  /\ _unload_unit unit_uid w' = (Ret (VBool false), w').
Proof.
  intros H.
  assert (units_getitem unit_uid w' = Raise KeyError) as Habs.
  { unfold _unload_unit, except_Exception, remove_unit in H.
    destruct (run_on_unload unit_uid w) as [[v|e] w0].
    - destruct unit_uid as [uid|]; [|done].
      destruct (_units w0 !! uid); [|done].
      injection H as <-. unfold units_getitem. simpl. by rewrite lookup_delete_eq.
    - by destruct (is_Exception e). }
  split; [done|]. by apply _unload_unit_absent.
Qed.

Lemma except_Exception_raises body r e w' :
  except_Exception body r = (Raise e, w') -> is_Exception e = false.
Proof.
  destruct body as [[v|e0] w0]; simpl; [done|].
  destruct (is_Exception e0) eqn:He; [done|]. by intros [= <- _].
Qed.

Lemma except_Exception_returns body r v w' :
  except_Exception body r = (Ret v, w') -> body.1 = Ret v \/ v = r.
Proof.
  destruct body as [[v0|e0] w0]; simpl.
  - intros [= <- _]. by left.
  - destruct (is_Exception e0); [|done]. intros [= <- _]. by right.
Qed.

Lemma _delete_unit_message_raises s unit_uid w e w' :
  _delete_unit_message s unit_uid w = (Raise e, w') -> is_Exception e = false.
Proof. unfold _delete_unit_message. apply except_Exception_raises. Qed.

(** The lifecycle operations report with a [bool]: no [Exception] gets
    out of them, whatever the store holds and whatever the teardown hook
    and the client do. *)
Theorem lifecycle_returns_bool s unit_uid w :
  bool_or_interrupt (_unload_unit unit_uid w).1
  /\ bool_or_interrupt (_delete_unit_message s unit_uid w).1.
Proof.
  split.
  - destruct (_unload_unit unit_uid w) as [[v|e] w'] eqn:H; simpl.
    + unfold _unload_unit, except_Exception, remove_unit in H.
      destruct (run_on_unload unit_uid w) as [[v0|e0] w0].
      * by repeat case_match; simplify_eq.
      * by destruct (is_Exception e0); simplify_eq.
    + by apply _unload_unit_raises in H.
  - destruct (_delete_unit_message s unit_uid w) as [[v|e] w'] eqn:H; simpl.
    + unfold _delete_unit_message in H.
      apply except_Exception_returns in H as [H| ->]; [|done].
      destruct (unit <~ units_getitem unit_uid w ;; _) as [request|e0]; [|done].
      destruct (_unload_unit unit_uid (emit request w)) as [[v1|e1] w1];
        destruct s as [|[e2|] s]; simpl in H; by simplify_eq.
    + by apply _delete_unit_message_raises in H.
Qed.

(** Deleting the message of a unit that is not in the store, or that
    records no ["chat"] or no ["message_id"]: the [KeyError] is caught,
    the call returns [False], the client is not called and nothing
    changes. *)
Theorem delete_unit_message_missing s unit_uid w :
  (forall unit,
     units_getitem unit_uid w = Ret unit ->
     dict_in "chat" unit && dict_in "message_id" unit = false) ->
  _delete_unit_message s unit_uid w = (Ret (VBool false), w).
Proof.
  intros H. unfold _delete_unit_message.
  destruct (units_getitem unit_uid w) as [unit|e] eqn:Hu; simpl.
  - specialize (H unit eq_refl). unfold dict_in, subscript in *.
    destruct (dict_get "chat" unit); simpl in *; [|done].
    by destruct (dict_get "message_id" unit).
  - assert (e = KeyError) as ->; [|done].
    unfold units_getitem in Hu. by repeat case_match; simplify_eq.
Qed.

(** Deleting twice: for a unit without a callable teardown hook the
    first call asks the client to delete the message, removes the unit
    and returns [True]; the second returns [False] without calling the
    client. *)
Theorem delete_unit_message_twice s s' uid w unit chat message_id :
  head s = None \/ head s = Some None ->
  _units w !! uid = Some unit ->
  dict_get "chat" unit = Some chat ->
  dict_get "message_id" unit = Some message_id ->
  callable (get_default unit "on_unload" VNone) = false ->
  exists w1,
    _delete_unit_message s (Some uid) w = (Ret (VBool true), w1)
    /\ trace w1 = trace w ++ [delete_messages chat message_id]
    /\ _units w1 = delete uid (_units w)
    /\ _delete_unit_message s' (Some uid) w1 = (Ret (VBool false), w1).
Proof.
  intros Hs Hu Hchat Hmsg Hhook.
  set (w0 := emit (delete_messages chat message_id) w).
  assert (_unload_unit (Some uid) w0
          = (Ret (VBool true), set_units (delete uid (_units w0)) w0)) as Hun.
  { unfold _unload_unit, run_on_unload, units_getitem, dict_in, subscript, get_default in *.
    simpl. rewrite Hu. destruct (dict_get "on_unload" unit) as [v|]; simpl.
    - destruct v; try done; simpl; by rewrite Hu.
    - by rewrite Hu. }
  exists (set_units (delete uid (_units w0)) w0).
  rewrite (_delete_unit_message_deleted s (Some uid) w unit chat message_id Hs);
    [|by unfold units_getitem; rewrite Hu|done|done].
  fold w0. rewrite Hun. simpl. repeat split.
  unfold _delete_unit_message, units_getitem. simpl. by rewrite lookup_delete_eq.
Qed.

(** ** [_find_caller_sec_map] *)

(** The innermost frame of a command or an inline handler decides: the
    frames above it are skipped, the frames below it are not looked at,
    whether or not its module yields a class. *)
Theorem find_caller_sec_map_innermost before stack_entry after :
  forallb (fun e => negb (is_handler (function e))) before = true ->
  is_handler (function stack_entry) = true ->
  _find_caller_sec_map (before ++ stack_entry :: after)
  = _find_caller_sec_map [stack_entry].
Proof.
  intros Hbefore Hentry. induction before as [|e before IH]; simpl.
  - by rewrite Hentry.
  - simpl in Hbefore. apply andb_prop in Hbefore as [He Hbefore].
    apply negb_true_iff in He. rewrite He. by apply IH.
Qed.

Lemma next_module_yielded fn items f :
  next_module fn items = Yielded f ->
  sec_function f = fn
  /\ exists skipped name rest,
       items = skipped ++ (name, Class (sec_cls f) true) :: rest
       /\ endswith name "Mod" = true
       /\ Forall (fun g => endswith g.1 "Mod" = true -> exists c, g.2 = Class c false)
            skipped.
Proof.
  induction items as [|[name cls_] items IH]; simpl; [done|].
  destruct (endswith name "Mod") eqn:Hname.
  - destruct cls_ as [cls [|]|]; [| |done].
    + intros [= <-]. split; [done|]. exists [], name, items. by repeat split.
    + intros (Hf & skipped & name' & rest & -> & Hn & Hsk)%IH. split; [done|].
      exists ((name, Class cls false) :: skipped), name', rest.
      repeat split; [done|]. constructor; [by eexists|done].
  - intros (Hf & skipped & name' & rest & -> & Hn & Hsk)%IH. split; [done|].
    exists ((name, cls_) :: skipped), name', rest.
    repeat split; [done|]. constructor; [|done]. simpl. by rewrite Hname.
Qed.

(** What the lookup returns: the function of the innermost handler frame
    and, of the globals of that frame whose name ends in [Mod], the first
    class that derives from [Module]; every such global before it is a
    class that does not. *)
Theorem find_caller_sec_map_sound stack f :
  _find_caller_sec_map stack = Some f ->
  exists before stack_entry after skipped name rest,
    stack = before ++ stack_entry :: after
    /\ forallb (fun e => negb (is_handler (function e))) before = true
    /\ is_handler (function stack_entry) = true
    /\ sec_function f = function stack_entry
    /\ f_globals stack_entry = skipped ++ (name, Class (sec_cls f) true) :: rest
    /\ endswith name "Mod" = true
    /\ Forall (fun g => endswith g.1 "Mod" = true -> exists c, g.2 = Class c false)
         skipped.
Proof.
  induction stack as [|e stack IH]; simpl; [done|].
  destruct (is_handler (function e)) eqn:He.
  - destruct (next_module (function e) (f_globals e)) as [f0| |] eqn:Hnext; try done.
    intros [= ->].
    apply next_module_yielded in Hnext as (Hf & skipped & name & rest & Hg & Hn & Hsk).
    by exists [], e, stack, skipped, name, rest.
  - intros (before & entry & after & skipped & name & rest & -> & Hb & H)%IH.
    exists (e :: before), entry, after, skipped, name, rest.
    split; [done|]. split; [|done]. simpl. by rewrite He.
Qed.

End Utils.

(** * The properties on the example data *)

(** C1 fails on the code: with [photo] and [file] both set the call does
    not return [False], it raises the [TypeError] of line 263. *)
Theorem edit_photo_and_file_raises (s : script) (w : world) :
  _edit_unit demo_rand demo_check_url demo_url_extension s demo_photo_and_file w
  = (Raise TypeError, w).
Proof. apply edit_file_raises; reflexivity. Qed.

(** C2 fails on the code: a [photo] whose URL ends in [.gif] is sent as
    an [InputMediaPhoto], whatever the extension function and the world. *)
Theorem edit_gif_photo_is_sent_as_photo
    (url_extension : InputMedia -> outcome pyval) (w : world) :
  (_edit_unit demo_rand demo_check_url url_extension [] demo_gif_photo w).1 = Ret VNone
  /\ trace (_edit_unit demo_rand demo_check_url url_extension [] demo_gif_photo w).2
     = trace w
         ++ [edit_message_media (VStr "42")
               (InputMediaPhoto (VStr "https://example.org/a.gif") (VStr "caption"))
               (InlineKeyboardMarkup [[]])].
Proof. split; reflexivity. Qed.

(** C7 fails on the code: a [file] that is set ends the call with an
    uncaught [TypeError], and a call that finds no [inline_message_id]
    and has no query ends with an uncaught [AttributeError]. *)
Theorem edit_raises_uncaught (s : script) (w : world) :
  _edit_unit demo_rand demo_check_url demo_url_extension s demo_file w
  = (Raise TypeError, w)
  /\ (_edit_unit demo_rand demo_check_url demo_url_extension s
        (default_args (VStr "hello")) w).1
     = Raise AttributeError.
Proof.
  split; [apply edit_file_raises; reflexivity|].
  apply edit_without_query_raises; reflexivity.
Qed.

(** C3 fails on the code: the edit of [form] returns [False], nothing
    has been sent, and the stored unit has changed all the same. *)
Lemma edit_failure_updates_unit_counterexample :
  let r :=
    _edit_unit demo_rand demo_check_url demo_url_extension [] demo_unresolvable
      demo_world in
  r.1 = Ret (VBool false)
  /\ trace r.2 = []
  /\ _units r.2 !! "form" <> _units demo_world !! "form"
  /\ dict_get "force_me" <$> _units demo_world !! "form" = Some (Some (VBool false))
  /\ dict_get "force_me" <$> _units r.2 !! "form" = Some (Some (VBool true))
  /\ dict_get "buttons" <$> _units r.2 !! "form" = Some (Some (VList [VList []])).
Proof. vm_compute. repeat split; done. Qed.

Lemma edit_unit_store_update_witness :
  unit_uid demo_unresolvable = Some "form"
  /\ _units demo_world !! "form" = Some demo_unit
  /\ exists unit',
      _units (_edit_unit demo_rand demo_check_url demo_url_extension []
                demo_unresolvable demo_world).2 !! "form" = Some unit'
      /\ dict_get "chat" unit' = dict_get "chat" demo_unit
      /\ dict_get "force_me" unit' = Some (VBool true)
      /\ exists unit'',
          _units (_edit_unit demo_rand demo_check_url demo_url_extension
                    [Some MessageIdInvalid] demo_text_edit demo_world).2 !! "form"
          = Some unit''
          /\ dict_get "buttons" unit''
             = Some (VList [VList [VDict [("text", VStr "Close");
                                          ("callback", VFunc "close");
                                          ("_callback_data", VStr "token0")]]]).
Proof.
  split; [reflexivity|]. split; [reflexivity|].
  destruct (edit_unit_store_update demo_rand demo_check_url demo_url_extension []
              demo_unresolvable demo_world "form" demo_unit eq_refl eq_refl)
    as (_ & (unit' & Hu & _ & _ & _ & Hk & Hv) & _).
  exists unit'. split; [exact Hu|]. split; [apply Hk; discriminate|].
  split; [exact (proj1 (Hv eq_refl) eq_refl)|].
  set (p := prepare demo_check_url demo_text_edit demo_world).
  set (fr := match p.1 with Go fr => fr | Stop _ => Frame demo_text_edit None end).
  assert (p = (Go fr, p.2)) as Hp by (vm_compute; reflexivity).
  exact (proj2 (proj2 (proj2
           (edit_unit_store_update demo_rand demo_check_url demo_url_extension
              [Some MessageIdInvalid] demo_text_edit demo_world "form" demo_unit
              eq_refl eq_refl))) fr p.2 Hp).
Defined.

(** C4 fails on the code: the hook of [form] raises, [_unload_unit]
    returns [False], and [form] is still in the store. *)
Lemma unload_with_raising_hook_counterexample :
  let r := _unload_unit demo_call (Some "form") demo_world in
  r.1 = Ret (VBool false)
  /\ _units r.2 !! "form" = Some demo_unit
  /\ trace r.2 = [hook_call "failing_hook"].
Proof. vm_compute. repeat split; done. Qed.

Lemma unload_unit_failure_witness :
  _unload_unit demo_call (Some "missing") demo_world = (Ret (VBool false), demo_world)
  /\ _unload_unit demo_call (Some "form") demo_world
     = (Ret (VBool false), emit (hook_call "failing_hook") demo_world).
Proof.
  split.
  - apply (unload_unit_failure demo_call (Some "missing") demo_world). reflexivity.
  - apply (proj2 (unload_unit_failure demo_call (Some "form") demo_world)
             demo_unit "failing_hook" RPCError); reflexivity.
Defined.

Lemma delete_unit_message_unloads_after_delete_witness :
  is_Exception RPCError = true
  /\ (exists w',
        (_delete_unit_message demo_call [Some RPCError] (Some "form") demo_world).2 = w'
        /\ (is_Exception RPCError = true ->
            _delete_unit_message demo_call [Some RPCError] (Some "form") demo_world
            = (Ret (VBool false), w'))
        /\ _units w' = _units demo_world
        /\ _custom_map w' = _custom_map demo_world
        /\ (forall f, hook_call f ∈ trace w' -> hook_call f ∈ trace demo_world)).
Proof.
  split; [reflexivity|].
  exact (proj1 (delete_unit_message_unloads_after_delete demo_call (Some "form")
                  demo_world) RPCError []).
Defined.

Lemma generate_markup_tokenized_idempotent_witness :
  tokenized_matrix (_normalize_markup demo_tokenized) = true
  /\ exists r,
      forall w,
        lookup_buttons demo_tokenized w = Ret demo_tokenized ->
        _generate_markup demo_rand demo_check_url demo_tokenized w
        = (r, demo_tokenized, w)
        /\ _custom_map (_generate_markup demo_rand demo_check_url demo_tokenized w).2
           = _custom_map w.
Proof.
  split; [reflexivity|].
  apply (generate_markup_tokenized_idempotent demo_rand demo_check_url
           demo_tokenized demo_tokenized).
  reflexivity.
Defined.

Lemma generate_markup_non_dict_button_witness :
  lookup_buttons demo_malformed demo_world = Ret demo_malformed
  /\ has_non_dict_button (_normalize_markup demo_malformed) = true
  /\ (_generate_markup demo_rand demo_check_url demo_malformed demo_world).1.1
     = Ret MarkupNone.
Proof.
  split; [reflexivity|]. split; [reflexivity|].
  exact (proj1 (generate_markup_non_dict_button demo_rand demo_check_url
                  demo_malformed demo_malformed demo_world eq_refl eq_refl)).
Defined.

(** C9 fails on the code: the button with [url] and [callback] is not
    rejected, the keyboard has its url control. *)
Lemma url_with_callback_counterexample :
  dict_in "url" demo_url_callback_button = true
  /\ dict_in "callback" demo_url_callback_button = true
  /\ (_generate_markup demo_rand demo_check_url
        (VList [VList [VDict demo_url_callback_button]]) demo_world).1.1
     = Ret (InlineKeyboardMarkup
              [[Button_url (VStr "Docs") (VStr "https://example.org/docs")]]).
Proof. vm_compute. repeat split; done. Qed.

Lemma url_with_callback_is_compiled_as_url_witness :
  dict_get "url" demo_url_callback_button = Some (VStr "https://example.org/docs")
  /\ dict_in "callback" demo_url_callback_button = true
  /\ dict_get "text" demo_url_callback_button = Some (VStr "Docs")
  /\ translate_button demo_check_url true demo_url_callback_button ∅
     = Ret (Some (Button_url (VStr "Docs") (VStr "https://example.org/docs")), ∅)
  /\ (_generate_markup demo_rand demo_check_url (VDict demo_url_callback_button)
        demo_world).1.1
     = Ret (InlineKeyboardMarkup
              [[Button_url (VStr "Docs") (VStr "https://example.org/docs")]])
  /\ has_textless_button demo_check_url demo_url_callback_textless = true
  /\ (_generate_markup demo_rand demo_check_url demo_url_callback_textless
        demo_world).1.1
     = Ret MarkupFalse.
Proof.
  split; [reflexivity|]. split; [reflexivity|]. split; [reflexivity|].
  destruct (url_with_callback_is_compiled_as_url demo_rand demo_check_url true
              demo_url_callback_button (VStr "Docs")
              (VStr "https://example.org/docs") ∅ [] [] demo_world
              eq_refl eq_refl eq_refl) as (Hb & _ & Hm & _ & _ & _ & Hfalse).
  split; [exact Hb|]. split; [exact Hm|]. split; [reflexivity|].
  exact (proj1 (Hfalse demo_url_callback_textless demo_url_callback_textless
                  eq_refl eq_refl eq_refl) eq_refl).
Defined.

Lemma edit_unit_retry_after_witness :
  let p := prepare demo_check_url demo_text_edit demo_world in
  let fr := match p.1 with Go fr => fr | Stop _ => Frame demo_text_edit None end in
  let q := request demo_rand demo_check_url demo_url_extension fr p.2 in
  let sent := match q.1.1 with Ret ev => ev | Raise _ => asyncio_sleep 0 end in
  p = (Go fr, p.2)
  /\ q = (Ret sent, q.1.2, q.2)
  /\ _edit_unit demo_rand demo_check_url demo_url_extension
       [Some (RetryAfter 5)] demo_text_edit demo_world
     = _edit_unit demo_rand demo_check_url demo_url_extension []
         (get_kwargs demo_text_edit q.1.2)
         (emit (asyncio_sleep 5) (emit sent q.2))
  /\ _edit_unit demo_rand demo_check_url demo_url_extension
       [Some (RetryAfter 5)] demo_text_edit demo_world
     = (Ret VNone, with_trace [sent; asyncio_sleep 5; sent] q.2).
Proof.
  intros p fr q sent.
  assert (p = (Go fr, p.2)) as Hp by (vm_compute; reflexivity).
  assert (q = (Ret sent, q.1.2, q.2)) as Hq by (vm_compute; reflexivity).
  split; [exact Hp|]. split; [exact Hq|].
  destruct (edit_unit_retry_after demo_rand demo_check_url demo_url_extension []
              demo_text_edit demo_world fr p.2 sent q.1.2 q.2 5 Hp Hq)
    as (Hstep & _ & _ & _ & _ & _ & _ & _ & _ & _ & Hret).
  split; [exact Hstep|exact (Hret (or_introl eq_refl))].
Defined.

Lemma generate_markup_recompile_witness :
  let first :=
    _generate_markup demo_rand demo_check_url
      (VDict [("text", VStr "Close"); ("callback", VFunc "close")]) demo_world in
  first.1.1 = Ret (InlineKeyboardMarkup [[Button_callback_data (VStr "Close") (VStr "token0")]])
  /\ _generate_markup demo_rand demo_check_url first.1.2 first.2 = first.
Proof.
  intros first.
  assert (first = (Ret (InlineKeyboardMarkup
                          [[Button_callback_data (VStr "Close") (VStr "token0")]]),
                   first.1.2, first.2)) as H by (vm_compute; reflexivity).
  split; [by rewrite H|].
  rewrite {3}H.
  exact (generate_markup_recompile demo_rand demo_check_url _ _ _ _ _ H).
Defined.

Lemma edit_unit_exclusive_media_witness :
  1 < count_False (media_params demo_photo_and_video)
  /\ exists r,
      _edit_unit demo_rand demo_check_url demo_url_extension [] demo_photo_and_video
        demo_world = (r, demo_world)
      /\ (r = Ret (VBool false) \/ r = Raise TypeError)
      /\ (truthy (file demo_photo_and_video) = false -> r = Ret (VBool false)).
Proof.
  assert (1 < count_False (media_params demo_photo_and_video)) as H
    by (vm_compute; lia).
  split; [exact H|].
  exact (edit_unit_exclusive_media demo_rand demo_check_url demo_url_extension []
           demo_photo_and_video demo_world H).
Defined.

Lemma delete_unit_message_ignores_unload_witness :
  _delete_unit_message demo_call [] (Some "form") demo_world
  = (Ret (VBool true),
     emit (hook_call "failing_hook") (emit (delete_messages (VInt 1) (VInt 2)) demo_world))
  /\ units_getitem (Some "form")
       (emit (hook_call "failing_hook")
          (emit (delete_messages (VInt 1) (VInt 2)) demo_world))
     = Ret demo_unit.
Proof.
  destruct (delete_unit_message_ignores_unload demo_call [] (Some "form") demo_world
              demo_unit (VInt 1) (VInt 2) "failing_hook" RPCError
              (emit (hook_call "failing_hook")
                 (emit (delete_messages (VInt 1) (VInt 2)) demo_world))
              (or_introl eq_refl) eq_refl eq_refl eq_refl eq_refl eq_refl eq_refl)
    as [H1 H2].
  split; [exact H1|exact (H2 eq_refl)].
Defined.

Lemma unload_unit_removes_witness :
  _units demo_world_no_hook !! "form" = Some demo_unit_no_hook
  /\ _units (_unload_unit demo_call (Some "form") demo_world_no_hook).2 !! "form" = None
  /\ (_unload_unit demo_call (Some "form") demo_world_no_hook).1 = Ret (VBool true).
Proof.
  split; [reflexivity|].
  destruct (unload_unit_removes demo_call "form" demo_world_no_hook demo_unit_no_hook
              eq_refl eq_refl) as [H1 H2].
  split; [exact H2|]. by rewrite H1.
Defined.

Lemma edit_unit_consecutive_retries_witness :
  let p := prepare demo_check_url demo_text_edit demo_world in
  let fr := match p.1 with Go fr => fr | Stop _ => Frame demo_text_edit None end in
  let q := request demo_rand demo_check_url demo_url_extension fr p.2 in
  let sent := match q.1.1 with Ret ev => ev | Raise _ => asyncio_sleep 0 end in
  p = (Go fr, p.2)
  /\ q = (Ret sent, q.1.2, q.2)
  /\ exists retry,
      (forall v, with_reply_markup v retry = with_reply_markup v demo_text_edit)
      /\ _edit_unit demo_rand demo_check_url demo_url_extension
           [Some (RetryAfter 5); Some (RetryAfter 7)] demo_text_edit demo_world
         = _edit_unit demo_rand demo_check_url demo_url_extension [] retry
             (with_trace (trace q.2 ++ [sent; asyncio_sleep 5; sent; asyncio_sleep 7]) q.2)
      /\ _edit_unit demo_rand demo_check_url demo_url_extension
           [Some (RetryAfter 5); Some (RetryAfter 7)] demo_text_edit demo_world
         = (Ret VNone,
            with_trace [sent; asyncio_sleep 5; sent; asyncio_sleep 7; sent] q.2).
Proof.
  intros p fr q sent.
  assert (p = (Go fr, p.2)) as Hp by (vm_compute; reflexivity).
  assert (q = (Ret sent, q.1.2, q.2)) as Hq by (vm_compute; reflexivity).
  split; [exact Hp|]. split; [exact Hq|].
  destruct (edit_unit_consecutive_retries demo_rand demo_check_url demo_url_extension
              [7%Z] 5%Z [] demo_text_edit demo_world fr p.2 sent q.1.2 q.2 Hp Hq)
    as (retry & Hsame & Heq & _ & _ & _ & _ & Hret).
  exists retry. split; [exact Hsame|]. split; [exact Heq|].
  exact (Hret (or_introl eq_refl)).
Defined.

Lemma edit_unit_message_not_modified_witness :
  let p := prepare demo_check_url demo_text_edit demo_world in
  let fr := match p.1 with Go fr => fr | Stop _ => Frame demo_text_edit None end in
  let q := request demo_rand demo_check_url demo_url_extension fr p.2 in
  let sent := match q.1.1 with Ret ev => ev | Raise _ => asyncio_sleep 0 end in
  p = (Go fr, p.2)
  /\ q = (Ret sent, q.1.2, q.2)
  /\ is_text_request sent = true
  /\ _edit_unit demo_rand demo_check_url demo_url_extension
       [Some MessageNotModified] demo_text_edit demo_world
     = (Ret VNone, emit sent q.2).
Proof.
  intros p fr q sent.
  assert (p = (Go fr, p.2)) as Hp by (vm_compute; reflexivity).
  assert (q = (Ret sent, q.1.2, q.2)) as Hq by (vm_compute; reflexivity).
  split; [exact Hp|]. split; [exact Hq|]. split; [reflexivity|].
  exact (proj1 (edit_unit_message_not_modified demo_rand demo_check_url
                  demo_url_extension [] demo_text_edit demo_world fr p.2 sent q.1.2 q.2
                  Hp Hq eq_refl) eq_refl).
Defined.

Lemma edit_unit_other_units_witness :
  unit_uid demo_text_edit <> Some "other"
  /\ field "chat" "other"
       (_edit_unit demo_rand demo_check_url demo_url_extension [] demo_text_edit
          demo_world).2
     = field "chat" "other" demo_world.
Proof.
  assert (unit_uid demo_text_edit <> Some "other") as H by discriminate.
  split; [exact H|].
  apply (edit_unit_other_units demo_rand demo_check_url demo_url_extension []
           demo_text_edit demo_world "other" "chat" H).
  discriminate.
Defined.

Lemma generate_markup_mixed_list_witness :
  existsb is_dict demo_mixed = true
  /\ forallb is_dict demo_mixed = false
  /\ (_generate_markup demo_rand demo_check_url (VList demo_mixed) demo_world).1.1
     = Ret MarkupNone.
Proof.
  split; [reflexivity|]. split; [reflexivity|].
  apply (generate_markup_mixed_list demo_rand demo_check_url); reflexivity.
Defined.

Lemma generate_markup_unknown_unit_witness :
  _units demo_world !! "missing" = None
  /\ _generate_markup demo_rand demo_check_url (VStr "missing") demo_world
     = (Raise KeyError, VStr "missing", demo_world).
Proof.
  split; [reflexivity|].
  apply (generate_markup_unknown_unit demo_rand demo_check_url); [discriminate|].
  intros unit H. vm_compute in H. discriminate H.
Defined.

Lemma generate_markup_rows_witness :
  (_generate_markup demo_rand demo_check_url demo_rows demo_world).1.1
  = Ret (InlineKeyboardMarkup [[Button_callback_data (VStr "Open") (VStr "open")]; []])
  /\ rows_of [[Button_callback_data (VStr "Open") (VStr "open")]; []]
       [VList [VDict [("text", VStr "Open"); ("data", VStr "open")];
               VDict [("text", VStr "Site"); ("url", VStr "ftp://example.org")]];
        VList []].
Proof.
  split; [reflexivity|].
  apply (generate_markup_rows demo_rand demo_check_url demo_rows demo_rows _ _
           demo_world); reflexivity.
Defined.

Lemma generate_markup_registers_callback_witness :
  let res :=
    _generate_markup demo_rand demo_check_url (VDict demo_fresh_button) demo_world in
  res.1.1
  = Ret (InlineKeyboardMarkup [[Button_callback_data (VStr "Close") (VStr "token0")]])
  /\ exists reg,
       _custom_map res.2 !! KStr "token0" = Some reg
       /\ dict_get "handler" reg = Some (VFunc "close")
       /\ dict_get "always_allow" reg = Some (VList [VInt 7])
       /\ dict_get "force_me" reg = Some (VBool true)
       /\ dict_get "disable_security" reg = None.
Proof.
  destruct (generate_markup_registers_callback demo_rand demo_check_url
              demo_fresh_button (VStr "Close") (VFunc "close") demo_world
              eq_refl eq_refl eq_refl eq_refl)
    as (H1 & _ & (reg & Hr & Hh & Ha & _ & _ & Hf & Hd) & _).
  split; [exact H1|]. exists reg.
  split; [exact Hr|]. split; [exact Hh|]. split; [exact Ha|].
  split; [exact Hf|exact Hd].
Defined.

Lemma generate_markup_input_button_witness :
  _generate_markup demo_rand demo_check_url (VDict demo_input_button) demo_world
  = (Ret (InlineKeyboardMarkup
            [[Button_switch_inline_query_current_chat (VStr "Ask") (VStr "token0 ")]]),
     VDict [("text", VStr "Ask"); ("input", VStr "question");
            ("_switch_query", VStr "token0")],
     set_rand_calls 1 demo_world).
Proof.
  exact (generate_markup_input_button demo_rand demo_check_url demo_input_button
           (VStr "Ask") demo_world eq_refl eq_refl eq_refl eq_refl eq_refl).
Defined.

Lemma generate_markup_textless_button_witness :
  has_textless_button demo_check_url (_normalize_markup (VDict demo_textless)) = true
  /\ (_generate_markup demo_rand demo_check_url (VDict demo_textless) demo_world).1.1
     = Ret MarkupFalse.
Proof.
  split; [reflexivity|].
  destruct (generate_markup_textless_button demo_rand demo_check_url
              (VDict demo_textless) (VDict demo_textless) demo_world eq_refl eq_refl)
    as [_ H].
  by rewrite (H demo_textless eq_refl eq_refl).
Defined.

Lemma generate_markup_registers_all_witness :
  let res := _generate_markup demo_rand demo_check_url demo_two_callbacks demo_world in
  existsb fresh_callback (buttons_of (_normalize_markup demo_two_callbacks)) = true
  /\ res.1.1
     = Ret (InlineKeyboardMarkup
              [[Button_callback_data (VStr "Old") (VStr "kept");
                Button_callback_data (VStr "New") (VStr "token0")]])
  /\ Forall (fun b => callback_button b = true -> registered (_custom_map res.2) b)
       (buttons_of (_normalize_markup res.1.2)).
Proof.
  intros res.
  assert (res = (Ret (InlineKeyboardMarkup
                        [[Button_callback_data (VStr "Old") (VStr "kept");
                          Button_callback_data (VStr "New") (VStr "token0")]]),
                 res.1.2, res.2)) as H by (vm_compute; reflexivity).
  split; [reflexivity|]. split; [by rewrite H|].
  exact (generate_markup_registers_all demo_rand demo_check_url demo_two_callbacks
           _ res.1.2 res.2 demo_world eq_refl eq_refl H).
Defined.

Lemma edit_unit_message_id_invalid_witness :
  let p := prepare demo_check_url demo_text_edit demo_world in
  let fr := match p.1 with Go fr => fr | Stop _ => Frame demo_text_edit None end in
  let q := request demo_rand demo_check_url demo_url_extension fr p.2 in
  let sent := match q.1.1 with Ret ev => ev | Raise _ => asyncio_sleep 0 end in
  p = (Go fr, p.2)
  /\ q = (Ret sent, q.1.2, q.2)
  /\ _edit_unit demo_rand demo_check_url demo_url_extension
       [Some MessageIdInvalid] demo_text_edit demo_world
     = (Ret VNone, emit sent q.2).
Proof.
  intros p fr q sent.
  assert (p = (Go fr, p.2)) as Hp by (vm_compute; reflexivity).
  assert (q = (Ret sent, q.1.2, q.2)) as Hq by (vm_compute; reflexivity).
  split; [exact Hp|]. split; [exact Hq|].
  exact (proj1 (edit_unit_message_id_invalid demo_rand demo_check_url
                  demo_url_extension [] demo_text_edit demo_world fr p.2 sent q.1.2 q.2
                  Hp Hq) eq_refl).
Defined.

Lemma edit_unit_transport_error_witness :
  let p := prepare demo_check_url demo_gif_photo demo_world in
  let fr := match p.1 with Go fr => fr | Stop _ => Frame demo_gif_photo None end in
  let q := request demo_rand demo_check_url demo_url_extension fr p.2 in
  let sent := match q.1.1 with Ret ev => ev | Raise _ => asyncio_sleep 0 end in
  p = (Go fr, p.2)
  /\ q = (Ret sent, q.1.2, q.2)
  /\ has_except_clause sent MessageNotModified = false
  /\ _edit_unit demo_rand demo_check_url demo_url_extension
       [Some MessageNotModified] demo_gif_photo demo_world
     = (Raise MessageNotModified, emit sent q.2).
Proof.
  intros p fr q sent.
  assert (p = (Go fr, p.2)) as Hp by (vm_compute; reflexivity).
  assert (q = (Ret sent, q.1.2, q.2)) as Hq by (vm_compute; reflexivity).
  split; [exact Hp|]. split; [exact Hq|]. split; [reflexivity|].
  exact (edit_unit_transport_error demo_rand demo_check_url demo_url_extension []
           demo_gif_photo demo_world fr p.2 sent q.1.2 q.2 MessageNotModified
           Hp Hq eq_refl).
Defined.

Lemma edit_unit_message_id_priority_witness :
  let p := prepare demo_check_url demo_edit_by_query demo_world_sent in
  let fr := match p.1 with Go fr => fr | Stop _ => Frame demo_edit_by_query None end in
  let q := request demo_rand demo_check_url demo_url_extension fr p.2 in
  let sent := match q.1.1 with Ret ev => ev | Raise _ => asyncio_sleep 0 end in
  p = (Go fr, p.2)
  /\ q = (Ret sent, q.1.2, q.2)
  /\ target sent = Some (VStr "stored-id").
Proof.
  intros p fr q sent.
  assert (p = (Go fr, p.2)) as Hp by (vm_compute; reflexivity).
  assert (q = (Ret sent, q.1.2, q.2)) as Hq by (vm_compute; reflexivity).
  split; [exact Hp|]. split; [exact Hq|].
  destruct (edit_unit_message_id_priority demo_rand demo_check_url demo_url_extension
              demo_edit_by_query demo_world_sent fr p.2 sent q.1.2 q.2 Hp Hq)
    as (id & Ht & _ & Hid & _).
  rewrite Ht Hid. reflexivity.
Defined.

Lemma edit_unit_without_markup_witness :
  reply_markup demo_plain_edit = VNone
  /\ field "buttons" "form" demo_world
     = Some (Some (VList [VList [VDict [("text", VStr "Open"); ("data", VStr "open")]]]))
  /\ exists w',
       _edit_unit demo_rand demo_check_url demo_url_extension [] demo_plain_edit
         demo_world = (Ret VNone, w')
       /\ trace w'
          = [edit_message_text (VStr "hello") (VStr "42") (VBool true)
               (InlineKeyboardMarkup [[]])]
       /\ field "buttons" "form" w' = Some (Some (VList [VList []])).
Proof.
  split; [reflexivity|]. split; [reflexivity|].
  destruct (edit_unit_without_markup demo_rand demo_check_url demo_url_extension []
              demo_plain_edit demo_world eq_refl eq_refl eq_refl eq_refl
              (or_introl eq_refl)) as (w' & H & Ht & _ & Hf).
  exists w'. split; [exact H|]. split; [exact Ht|].
  apply Hf; [reflexivity|]. exists demo_unit. reflexivity.
Defined.

Lemma edit_unit_false_sends_nothing_witness :
  let r :=
    _edit_unit demo_rand demo_check_url demo_url_extension [Some MessageNotModified]
      demo_unresolvable demo_world in
  r.1 = Ret (VBool false)
  /\ trace r.2 = trace demo_world
  /\ _custom_map r.2 = _custom_map demo_world
  /\ rand_calls r.2 = rand_calls demo_world.
Proof.
  intros r.
  assert (r = (Ret (VBool false), r.2)) as H by (vm_compute; reflexivity).
  split; [by rewrite H|].
  apply (edit_unit_false_sends_nothing demo_rand demo_check_url demo_url_extension
           [Some MessageNotModified] demo_unresolvable demo_world r.2); [|exact H].
  intros timeout. discriminate.
Defined.

Lemma unload_unit_true_removed_witness :
  let r := _unload_unit demo_call (Some "form") demo_world_no_hook in
  r.1 = Ret (VBool true)
  /\ units_getitem (Some "form") r.2 = Raise KeyError
  /\ _unload_unit demo_call (Some "form") r.2 = (Ret (VBool false), r.2).
Proof.
  intros r.
  assert (r = (Ret (VBool true), r.2)) as H by (vm_compute; reflexivity).
  split; [by rewrite H|].
  exact (unload_unit_true_removed demo_call (Some "form") demo_world_no_hook r.2 H).
Defined.

Lemma delete_unit_message_missing_witness :
  _units demo_world !! "missing" = None
  /\ _delete_unit_message demo_call [] (Some "missing") demo_world
     = (Ret (VBool false), demo_world).
Proof.
  split; [reflexivity|].
  apply (delete_unit_message_missing demo_call [] (Some "missing") demo_world).
  intros unit H. vm_compute in H. discriminate H.
Defined.

Lemma delete_unit_message_twice_witness :
  _units demo_world_no_hook !! "form" = Some demo_unit_no_hook
  /\ exists w1,
       _delete_unit_message demo_call [] (Some "form") demo_world_no_hook
       = (Ret (VBool true), w1)
       /\ trace w1 = [delete_messages (VInt 1) (VInt 2)]
       /\ _delete_unit_message demo_call [] (Some "form") w1 = (Ret (VBool false), w1).
Proof.
  split; [reflexivity|].
  destruct (delete_unit_message_twice demo_call [] [] "form" demo_world_no_hook
              demo_unit_no_hook (VInt 1) (VInt 2) (or_introl eq_refl)
              eq_refl eq_refl eq_refl eq_refl) as (w1 & H1 & Ht & _ & H2).
  exists w1. split; [exact H1|]. split; [exact Ht|exact H2].
Defined.

Lemma find_caller_sec_map_innermost_witness :
  _find_caller_sec_map (demo_inner_frames ++ demo_handler_frame :: demo_outer_frames)
  = _find_caller_sec_map [demo_handler_frame]
  /\ _find_caller_sec_map [demo_handler_frame] = Some (SecMap "PingMod" "pingcmd").
Proof.
  split; [|reflexivity].
  apply (find_caller_sec_map_innermost demo_inner_frames demo_handler_frame
           demo_outer_frames); reflexivity.
Defined.

Lemma find_caller_sec_map_sound_witness :
  _find_caller_sec_map (demo_inner_frames ++ demo_handler_frame :: demo_outer_frames)
  = Some (SecMap "PingMod" "pingcmd")
  /\ exists before stack_entry after skipped name rest,
       demo_inner_frames ++ demo_handler_frame :: demo_outer_frames
       = before ++ stack_entry :: after
       /\ forallb (fun e => negb (is_handler (function e))) before = true
       /\ is_handler (function stack_entry) = true
       /\ "pingcmd" = function stack_entry
       /\ f_globals stack_entry = skipped ++ (name, Class "PingMod" true) :: rest
       /\ endswith name "Mod" = true
       /\ Forall (fun g => endswith g.1 "Mod" = true -> exists c, g.2 = Class c false)
            skipped.
Proof.
  split; [reflexivity|].
  exact (find_caller_sec_map_sound
           (demo_inner_frames ++ demo_handler_frame :: demo_outer_frames)
           (SecMap "PingMod" "pingcmd") eq_refl).
Defined.
